(** * Workflow / Task graph model of [experiment.py]

    A shallow embedding of the classes [Workflow] and [Task].  Python objects
    are mutable and shared, so Task objects, Workflow objects and the
    dependency dictionaries stored in a task live in an explicit object store;
    every method is a computation in a small state-and-exception monad over
    that store.  A raised exception keeps the store as it was at the point of
    the [raise], as in Python.

    Conventions of the model:
    - a method takes its receiver as a location; the arguments on which the
      program runs [isinstance] are values of [pyval];
    - attributes have the types the docstrings give them (a name is a string
      or [None], an operator a string); the lists [tasks], [arguments] and
      [dependencies] belong to their object and are held by value, while the
      elements of [tasks] and [dependencies] are references;
    - a [for] loop over an attribute visits the list read when the loop
      starts; in [newSubWorkflow] the list is the template's, which the loop
      never writes;
    - the method [save] and the reading of the file in [load] are not
      modelled; the inner functions of [load] are, on parsed data; [deinit]
      and the class-level list [active_attributes] are modelled on the
      attribute dictionaries of the objects, after the two classes. *)

From Stdlib Require Import String Ascii ZArith Lia List Bool DecimalString.
From stdpp Require Import base list.

Local Open Scope string_scope.
Local Open Scope list_scope.

(** ** Strings *)

Local Infix "+++" := String.append (at level 60, right associativity).

Definition sep : ascii := "="%char.
Definition dollar : ascii := "$"%char.
Definition newline : ascii := ascii_of_nat 10.
Definition backslash : ascii := ascii_of_nat 92.

(** [str(n)] for a non-negative integer. *)
Definition str_of_nat (n : nat) : string :=
  NilZero.string_of_uint (Nat.to_uint n).

Fixpoint has_char (c : ascii) (s : string) : bool :=
  match s with
  | EmptyString => false
  | String a s' => if Ascii.eqb a c then true else has_char c s'
  end.

(** [s.split(c)] for a one-character separator: every occurrence splits, and
    the result always has at least one piece. *)
Fixpoint split_on (c : ascii) (s : string) : list string :=
  match s with
  | EmptyString => [EmptyString]
  | String a s' =>
      if Ascii.eqb a c then EmptyString :: split_on c s'
      else match split_on c s' with
           | [] => [String a EmptyString]
           | p :: ps => String a p :: ps
           end
  end.

(** *** The regular expression of [check_replace_args]

    The only pattern the program uses: one group holding a literal dollar
    sign followed by any number of [.].  [.] matches every character except
    the newline, so a match starts at a [$] and runs to the end of the line. *)

Fixpoint line_prefix (s : string) : string :=
  match s with
  | EmptyString => EmptyString
  | String a s' =>
      if Ascii.eqb a newline then EmptyString else String a (line_prefix s')
  end.

(** [re.findall(pattern, s)[0]] when [re.search(pattern, s)] is truthy,
    [None] when the search finds nothing. *)
Fixpoint re_first (s : string) : option string :=
  match s with
  | EmptyString => None
  | String a s' =>
      if Ascii.eqb a dollar then Some (String a (line_prefix s'))
      else re_first s'
  end.

(** [re.sub(pattern, repl, s)] for a replacement text without backslash:
    [count] is left at its default, so every non-overlapping match is
    replaced.  [inside] tells whether the scan is within a match. *)
Fixpoint re_sub_scan (repl : string) (inside : bool) (s : string) : string :=
  match s with
  | EmptyString => EmptyString
  | String a s' =>
      if inside then
        if Ascii.eqb a newline then String a (re_sub_scan repl false s')
        else re_sub_scan repl true s'
      else if Ascii.eqb a dollar then repl +++ re_sub_scan repl true s'
      else String a (re_sub_scan repl false s')
  end.

Definition re_sub (repl s : string) : string := re_sub_scan repl false s.

(** ** Python values *)

Definition loc := nat.

(** The values a caller can pass to the methods: the type checks of the
    program ([isinstance]) are decided on this universe.  A dictionary is an
    association list in insertion order with distinct keys; a reference
    points to a Task or a Workflow object in the store. *)
#[warnings="-register-all"]
Inductive pyval : Type :=
| VNone
| VInt (z : Z)
| VStr (s : string)
| VRef (l : loc)
| VDict (d : list (pyval * pyval)).

(** [bool(v)] *)
Definition truthy (v : pyval) : bool :=
  match v with
  | VNone => false
  | VInt z => negb (Z.eqb z 0)
  | VStr s => negb (String.eqb s "")
  | VRef _ => true
  | VDict d => match d with [] => false | _ => true end
  end.

(** [a == b] on hashable values (a dictionary is never a key). *)
Definition val_eqb (a b : pyval) : bool :=
  match a, b with
  | VNone, VNone => true
  | VInt x, VInt y => Z.eqb x y
  | VStr x, VStr y => String.eqb x y
  | VRef x, VRef y => Nat.eqb x y
  | _, _ => false
  end.

Definition isinstance_str (v : pyval) : bool :=
  match v with VStr _ => true | _ => false end.

Definition isinstance_dict (v : pyval) : bool :=
  match v with VDict _ => true | _ => false end.

(** [str(v)] as used by [str.format]; the text Python prints for an object
    reference or a nested dictionary is not modelled. *)
Definition py_str (v : pyval) : option string :=
  match v with
  | VNone => Some "None"
  | VInt z => Some (NilZero.string_of_int (Z.to_int z))
  | VStr s => Some s
  | VRef _ => None
  | VDict _ => None
  end.

(** [str(x)] for an attribute that holds a string or [None]. *)
Definition str_of_name (n : option string) : string :=
  match n with Some s => s | None => "None" end.

(** ** Dictionaries as ordered association lists *)

Section Assoc.
Context {K V : Type} (eqb : K -> K -> bool).

Fixpoint assoc_get (k : K) (d : list (K * V)) : option V :=
  match d with
  | [] => None
  | (k', v) :: d' => if eqb k' k then Some v else assoc_get k d'
  end.

Definition assoc_has (k : K) (d : list (K * V)) : bool :=
  match assoc_get k d with Some _ => true | None => false end.

(** [d[k] = v]: an existing key keeps its position, a new key goes last. *)
Fixpoint assoc_set (k : K) (v : V) (d : list (K * V)) : list (K * V) :=
  match d with
  | [] => [(k, v)]
  | (k', v') :: d' =>
      if eqb k' k then (k', v) :: d' else (k', v') :: assoc_set k v d'
  end.
End Assoc.

Definition mem_str (s : string) (l : list string) : bool :=
  existsb (String.eqb s) l.

Definition name_eqb (a b : option string) : bool :=
  match a, b with
  | Some x, Some y => String.eqb x y
  | None, None => true
  | _, _ => false
  end.

Definition mem_name (n : option string) (l : list (option string)) : bool :=
  existsb (name_eqb n) l.

(** ** Objects and the store *)

(** A dependency edge as the program stores it: a dictionary with the keys
    ["task"], ["type"] and, for an ["all"] edge, ["argument"]; its values are
    strings or [None]. *)
Definition edge := list (string * option string).

Record Task := mkTask {
  t_type : string;
  t_name : option string;
  t_operator : string;
  t_arguments : list string;
  t_dependencies : list loc;
  t_options : list (string * pyval)
}.

Record Workflow := mkWorkflow {
  w_name : string;
  w_author : option string;
  w_abstract : option string;
  w_tasks : list loc;
  w_task_name_counter : nat;
  w_options : list (string * pyval)
}.

Inductive obj : Type :=
| OTask (t : Task)
| OWorkflow (w : Workflow)
| ODict (d : edge).

Definition heap := list obj.

(** ** Exceptions and the monad *)

(** [OutsideModel] is not a Python exception: it marks a run that leaves the
    fragment of Python modelled here (a receiver of the wrong class, the text
    of an object reference, a replacement template with a backslash). *)
Inductive exn : Type :=
| AttributeError (msg : string)
| TypeError
| KeyError (key : string)
| IndexError
| OutsideModel.

Inductive outcome (A : Type) : Type :=
| Ok (a : A)
| Raise (e : exn).
Arguments Ok {A} a.
Arguments Raise {A} e.

Definition M (A : Type) : Type := heap -> outcome A * heap.

Definition ret {A} (a : A) : M A := fun h => (Ok a, h).

Definition raise {A} (e : exn) : M A := fun h => (Raise e, h).

Definition bind {A B} (m : M A) (f : A -> M B) : M B :=
  fun h => match m h with
           | (Ok a, h') => f a h'
           | (Raise e, h') => (Raise e, h')
           end.

Notation "'let*' x := m 'in' k" := (bind m (fun x => k))
  (at level 10, x name, m at level 100, k at level 200).
Notation "'run' m 'in' k" := (bind m (fun _ => k))
  (at level 10, m at level 100, k at level 200).

(** A pure computation that may raise. *)
Definition lift {A} (r : outcome A) : M A := fun h => (r, h).

Definition get_task (l : loc) : M Task :=
  fun h => match h !! l with
           | Some (OTask t) => (Ok t, h)
           | _ => (Raise OutsideModel, h)
           end.

Definition get_workflow (l : loc) : M Workflow :=
  fun h => match h !! l with
           | Some (OWorkflow w) => (Ok w, h)
           | _ => (Raise OutsideModel, h)
           end.

Definition get_edge (l : loc) : M edge :=
  fun h => match h !! l with
           | Some (ODict d) => (Ok d, h)
           | _ => (Raise OutsideModel, h)
           end.

Definition put (l : loc) (o : obj) : M unit :=
  fun h => (Ok tt, <[l := o]> h).

Definition alloc (o : obj) : M loc :=
  fun h => (Ok (length h), h ++ [o]).

(** [isinstance(v, Task)] and [isinstance(v, Workflow)] *)
Definition isinstance_Task (v : pyval) : M bool :=
  fun h => match v with
           | VRef l => match h !! l with
                       | Some (OTask _) => (Ok true, h)
                       | _ => (Ok false, h)
                       end
           | _ => (Ok false, h)
           end.

Definition isinstance_Workflow (v : pyval) : M bool :=
  fun h => match v with
           | VRef l => match h !! l with
                       | Some (OWorkflow _) => (Ok true, h)
                       | _ => (Ok false, h)
                       end
           | _ => (Ok false, h)
           end.

Fixpoint mapM {A B} (f : A -> M B) (l : list A) : M (list B) :=
  match l with
  | [] => ret []
  | x :: l' => let* y := f x in let* ys := mapM f l' in ret (y :: ys)
  end.

Fixpoint forM_ {A} (f : A -> M unit) (l : list A) : M unit :=
  match l with
  | [] => ret tt
  | x :: l' => run f x in forM_ f l'
  end.

Fixpoint filterM {A} (f : A -> M bool) (l : list A) : M (list A) :=
  match l with
  | [] => ret []
  | x :: l' =>
      let* b := f x in
      let* ys := filterM f l' in
      ret (if b then x :: ys else ys)
  end.

(** [d[k]] on a stored dictionary *)
Definition subscript (k : string) (d : edge) : M (option string) :=
  match assoc_get String.eqb k d with
  | Some v => ret v
  | None => raise (KeyError k)
  end.

Definition as_str (v : pyval) : option string :=
  match v with VStr s => Some s | _ => None end.

Definition val_of_name (n : option string) : pyval :=
  match n with Some s => VStr s | None => VNone end.

(** The first key of [kwargs] outside an allow-list, if any. *)
Definition unknown_option (allowed : list string)
    (kwargs : list (string * pyval)) : option string :=
  match List.find (fun kv => negb (mem_str (fst kv) allowed)) kwargs with
  | Some kv => Some (fst kv)
  | None => None
  end.

(** [d.update(kwargs)] *)
Definition dict_update (d kwargs : list (string * pyval))
    : list (string * pyval) :=
  fold_left (fun acc kv => assoc_set String.eqb (fst kv) (snd kv) acc) kwargs d.

(** ** class Task *)

Definition Task_attributes : list string := ["run"; "on_exit"; "on_error"].

(** The list comprehension of [Task.__init__]: one ["key=value"] string per
    entry, in the order of the dictionary. *)
Fixpoint format_arguments (arguments : list (pyval * pyval))
    : option (list string) :=
  match arguments with
  | [] => Some []
  | (k, v) :: rest =>
      match py_str k, py_str v, format_arguments rest with
      | Some a, Some b, Some r => Some ((a +++ "=" +++ b) :: r)
      | _, _, _ => None
      end
  end.

(** [Task(operator, arguments, name, type, **kwargs)] *)
Definition Task_init (operator : string) (arguments : list (pyval * pyval))
    (name : option string) (type : option string)
    (kwargs : list (string * pyval)) : M loc :=
  match unknown_option Task_attributes kwargs with
  | Some k => raise (AttributeError ("Unknown Task argument: " +++ k))
  | None =>
      match format_arguments arguments with
      | None => raise OutsideModel
      | Some args =>
          alloc (OTask {|
            t_type := match type with
                      | Some s => if String.eqb s "" then "ophidia" else s
                      | None => "ophidia"
                      end;
            t_name := name;
            t_operator := operator;
            t_arguments := args;
            t_dependencies := [];
            t_options := dict_update [] kwargs |})
      end
  end.

Definition set_name (t : Task) (n : option string) : Task :=
  {| t_type := t_type t; t_name := n; t_operator := t_operator t;
     t_arguments := t_arguments t; t_dependencies := t_dependencies t;
     t_options := t_options t |}.

Definition append_dependency (t : Task) (d : loc) : Task :=
  {| t_type := t_type t; t_name := t_name t; t_operator := t_operator t;
     t_arguments := t_arguments t;
     t_dependencies := t_dependencies t ++ [d];
     t_options := t_options t |}.

Definition set_options (t : Task) (o : list (string * pyval)) : Task :=
  {| t_type := t_type t; t_name := t_name t; t_operator := t_operator t;
     t_arguments := t_arguments t; t_dependencies := t_dependencies t;
     t_options := o |}.

(** The inner [parameter_check] of [Task.addDependency]. *)
Definition addDependency_parameter_check (task argument : pyval) : M unit :=
  if negb (isinstance_str argument)
  then raise (AttributeError "argument must be string")
  else
    let* is_task := isinstance_Task task in
    if negb is_task
    then raise (AttributeError "task must be Task object")
    else ret tt.

(** [self.addDependency(task, argument)]; an omitted [argument] is the
    default [None]. *)
Definition addDependency (self : loc) (task argument : pyval) : M unit :=
  run addDependency_parameter_check task argument in
  let dependency_dict : edge :=
    if negb (truthy argument)
    then assoc_set String.eqb "type" (Some "embedded") []
    else assoc_set String.eqb "type" (Some "all")
           (assoc_set String.eqb "argument" (as_str argument) []) in
  let* target :=
    match task with
    | VRef l => get_task l
    | _ => raise OutsideModel
    end in
  let* d :=
    alloc (ODict (assoc_set String.eqb "task" (t_name target) dependency_dict)) in
  let* t := get_task self in
  put self (OTask (append_dependency t d)).

(** [self.copyDependency(dependency)] *)
Definition copyDependency (self : loc) (dependency : loc) : M unit :=
  let* t := get_task self in
  put self (OTask (append_dependency t dependency)).

(** The loop of [Task.reverted_arguments]. *)
Fixpoint revert_list (args : list string) (arguments : list (string * string))
    : outcome (list (string * string)) :=
  match args with
  | [] => Ok arguments
  | arg :: rest =>
      match split_on sep arg with
      | k :: v :: _ => revert_list rest (assoc_set String.eqb k v arguments)
      | _ => Raise IndexError
      end
  end.

Definition reverted_arguments (self : loc) : M (list (string * string)) :=
  let* t := get_task self in
  lift (revert_list (t_arguments t) []).

(** ** class Workflow *)

Definition Workflow_attributes : list string :=
  ["url"; "sessionid"; "exec_mode"; "ncores"; "nhost"; "on_error"; "on_exit";
   "run"; "cwd"; "cdd"; "cube"; "callback_url"; "output_format";
   "host_partition"; "nthreads"].

Definition Workflow_task_attributes : list string :=
  ["run"; "on_exit"; "on_error"].

(** [Workflow(name, author, abstract, **kwargs)]; the naming counter starts
    at the class attribute's value 1. *)
Definition Workflow_init (name : string) (author abstract : option string)
    (kwargs : list (string * pyval)) : M loc :=
  match unknown_option Workflow_attributes kwargs with
  | Some k => raise (AttributeError ("Unknown workflow argument: " +++ k))
  | None =>
      alloc (OWorkflow {|
        w_name := name; w_author := author; w_abstract := abstract;
        w_tasks := []; w_task_name_counter := 1;
        w_options := dict_update [] kwargs |})
  end.

Definition attach (w : Workflow) (task : loc) : Workflow :=
  {| w_name := w_name w; w_author := w_author w; w_abstract := w_abstract w;
     w_tasks := w_tasks w ++ [task];
     w_task_name_counter := w_task_name_counter w + 1;
     w_options := w_options w |}.

(** [[t.__dict__["name"] for t in self.tasks]] *)
Definition task_names (tasks : list loc) : M (list (option string)) :=
  mapM (fun l => let* t := get_task l in ret (t_name t)) tasks.

Definition DuplicateNameError : exn := AttributeError "task already exists".
Definition UnresolvedDependencyError : exn :=
  AttributeError "dependency not fulfilled".

(** The body of the loop over [task.dependencies] in [addTask]. *)
Definition check_dependency (tasks : list loc) (dependency : loc) : M unit :=
  let* d := get_edge dependency in
  let* target := subscript "task" d in
  let* names := task_names tasks in
  if negb (mem_name target names)
  then raise UnresolvedDependencyError
  else ret tt.

(** [self.addTask(task)] *)
Definition addTask (self task : loc) : M unit :=
  let* w := get_workflow self in
  let* t := get_task task in
  run (match t_name t with
       | None =>
           put task (OTask (set_name t
             (Some (w_name w +++ "_" +++ str_of_nat (w_task_name_counter w)))))
       | Some _ => ret tt
       end) in
  let* t := get_task task in
  let* names := task_names (w_tasks w) in
  if mem_name (t_name t) names then raise DuplicateNameError
  else
    run forM_ (check_dependency (w_tasks w)) (t_dependencies t) in
    let* w := get_workflow self in
    put self (OWorkflow (attach w task)).

(** [t["name"]] for an element [t] of [self.tasks]: only a dictionary can be
    subscripted; the classes [Task] and [Workflow] define no [__getitem__]. *)
Definition subscript_name (l : loc) : M (option string) :=
  fun h => match h !! l with
           | Some (ODict d) => subscript "name" d h
           | Some (OTask _) => (Raise TypeError, h)
           | Some (OWorkflow _) => (Raise TypeError, h)
           | None => (Raise OutsideModel, h)
           end.

(** [self.getTask(taskname)]; the result is a reference or [None]. *)
Definition getTask (self : loc) (taskname : pyval) : M pyval :=
  let* w := get_workflow self in
  let* tasks :=
    filterM (fun t => let* n := subscript_name t in
                      ret (val_eqb (val_of_name n) taskname)) (w_tasks w) in
  if Nat.eqb (length tasks) 1 then
    match tasks with
    | t :: _ => ret (VRef t)
    | [] => raise OutsideModel
    end
  else if Nat.eqb (length tasks) 0 then ret VNone
  else ret VNone.

(** The inner [parameter_check] of [Workflow.newTask]. *)
Definition newTask_parameter_check (operator arguments dependencies name : pyval)
    : M unit :=
  if negb (isinstance_str operator)
  then raise (AttributeError "operator must be a string")
  else if negb (isinstance_dict arguments)
  then raise (AttributeError "arguments must be a dict")
  else if negb (isinstance_dict dependencies)
  then raise (AttributeError "dependencies must be a dict")
  else if negb (isinstance_str name) && negb (val_eqb name VNone)
  then raise (AttributeError "name must be a string")
  else ret tt.

(** [self.newTask(operator, arguments, dependencies, name, **kwargs)] *)
Definition newTask (self : loc) (operator arguments dependencies name : pyval)
    (kwargs : list (string * pyval)) : M loc :=
  run newTask_parameter_check operator arguments dependencies name in
  match operator, arguments, dependencies with
  | VStr op, VDict args, VDict deps =>
      let* t := Task_init op args (as_str name) None [] in
      run (if truthy dependencies
           then forM_ (fun kv =>
                  if truthy (snd kv)
                  then addDependency t (fst kv) (snd kv)
                  else addDependency t (fst kv) VNone) deps
           else ret tt) in
      run (match unknown_option Workflow_task_attributes kwargs with
           | Some k => raise (AttributeError ("Unknown Task argument: " +++ k))
           | None => ret tt
           end) in
      let* tk := get_task t in
      run put t (OTask (set_options tk (dict_update (t_options tk) kwargs))) in
      run addTask self t in
      ret t
  | _, _, _ => raise OutsideModel
  end.

(** *** Workflow.newSubWorkflow and its inner functions *)

Definition newSubWorkflow_parameter_check (params dependency name : pyval)
    : M unit :=
  if negb (isinstance_dict params)
  then raise (AttributeError "params must be dict")
  else if negb (isinstance_dict dependency)
  then raise (AttributeError "dependency must be dict")
  else if negb (isinstance_str name)
  then raise (AttributeError "name must be string")
  else ret tt.

Definition validate_workflow (w1 : loc) (w2 : pyval) : M unit :=
  let* is_workflow := isinstance_Workflow w2 in
  if negb is_workflow
  then raise (AttributeError "Wrong workflow or same workflows")
  else
    match w2 with
    | VRef l2 =>
        let* a := get_workflow w1 in
        let* b := get_workflow l2 in
        if String.eqb (w_name a) (w_name b)
        then raise (AttributeError "Wrong workflow or same workflows")
        else ret tt
    | _ => raise OutsideModel
    end.

Definition dependency_check (dependency : pyval) : M unit :=
  match dependency with
  | VDict d =>
      if Nat.ltb 2 (length d)
      then raise (AttributeError "Wrong dependency arguments")
      else if Nat.eqb (length d) 2
      then
        if negb (assoc_has val_eqb (VStr "task") d)
           || negb (assoc_has val_eqb (VStr "argument") d)
        then raise (AttributeError "Wrong dependency arguments")
        else ret tt
      else
        if negb (assoc_has val_eqb (VStr "task") d)
        then raise (AttributeError "Wrong dependency arguments")
        else ret tt
  | _ => raise (AttributeError "dependency must be a list")
  end.

(** [d[k]] on a dictionary value *)
Definition val_subscript (k : string) (d : list (pyval * pyval)) : M pyval :=
  match assoc_get val_eqb (VStr k) d with
  | Some v => ret v
  | None => raise (KeyError k)
  end.

(** [for dependency in dependencies] visits the keys of the dictionary
    [dependencies]; each key goes through [dependency_check]. *)
Definition find_root_tasks_add_dependencies (task : loc) (dependencies : pyval)
    (new_task : loc) : M unit :=
  let* t := get_task task in
  if Nat.eqb (length (t_dependencies t)) 0 then
    match dependencies with
    | VDict keys_values =>
        forM_ (fun dependency =>
          run dependency_check dependency in
          match dependency with
          | VDict d =>
              if Nat.eqb (length d) 1 then
                let* target := val_subscript "task" d in
                addDependency new_task target VNone
              else
                let* target := val_subscript "task" d in
                let* argument := val_subscript "argument" d in
                addDependency new_task target argument
          | _ => raise OutsideModel
          end) (map fst keys_values)
    | _ => raise OutsideModel
    end
  else ret tt.

Definition fix_dependency_name (dependency_name : option string)
    (prefix : string) : string :=
  prefix +++ "_" +++ str_of_name dependency_name.

Definition add_dependencies (task new_task : loc) (prefix : string) : M unit :=
  let* t := get_task task in
  if Nat.ltb 0 (length (t_dependencies t)) then
    forM_ (fun dl =>
      let* d := get_edge dl in
      let* dep_dict := alloc (ODict d) in
      let* target := subscript "task" d in
      run put dep_dict
            (ODict (assoc_set String.eqb "task"
                      (Some (fix_dependency_name target prefix)) d)) in
      copyDependency new_task dep_dict) (t_dependencies t)
  else ret tt.

Definition add_task_name (self : loc) (given_name : string)
    (previous_name : option string) (task_id : nat) : M string :=
  if negb (String.eqb given_name "")
  then ret (given_name +++ "_" +++ str_of_name previous_name)
  else
    let* w := get_workflow self in
    ret (w_name w +++ "_" +++ str_of_nat task_id +++ "_"
           +++ str_of_name previous_name).

(** [re.sub(pattern, repl, s)] for the value [repl] found in [params]. *)
Definition re_sub_val (repl : pyval) (s : string) : outcome string :=
  match repl with
  | VStr r => if has_char backslash r then Raise OutsideModel
              else Ok (re_sub r s)
  | _ => Raise TypeError
  end.

(** The first loop of [check_replace_args], over the keys. *)
Fixpoint replace_keys (params : list (pyval * pyval))
    (items : list (string * string)) (new_task_arguments : list (string * string))
    : outcome (list (string * string)) :=
  match items with
  | [] => Ok new_task_arguments
  | (k, v) :: rest =>
      match re_first k with
      | Some m =>
          match assoc_get val_eqb (VStr m) params with
          | Some repl =>
              match re_sub_val repl k with
              | Ok k' =>
                  replace_keys params rest
                    (assoc_set String.eqb k' v new_task_arguments)
              | Raise e => Raise e
              end
          | None =>
              replace_keys params rest
                (assoc_set String.eqb k v new_task_arguments)
          end
      | None =>
          replace_keys params rest (assoc_set String.eqb k v new_task_arguments)
      end
  end.

(** The second loop of [check_replace_args], over the values; it stores
    under the key [k] of the template. *)
Fixpoint replace_values (params : list (pyval * pyval))
    (items : list (string * string)) (new_task_arguments : list (string * string))
    : outcome (list (string * string)) :=
  match items with
  | [] => Ok new_task_arguments
  | (k, v) :: rest =>
      match re_first v with
      | Some m =>
          match assoc_get val_eqb (VStr m) params with
          | Some repl =>
              match re_sub_val repl v with
              | Ok v' =>
                  replace_values params rest
                    (assoc_set String.eqb k v' new_task_arguments)
              | Raise e => Raise e
              end
          | None =>
              replace_values params rest
                (assoc_set String.eqb k v new_task_arguments)
          end
      | None =>
          replace_values params rest
            (assoc_set String.eqb k v new_task_arguments)
      end
  end.

Definition check_replace_args (params : list (pyval * pyval))
    (task_arguments : list (string * string))
    : outcome (list (string * string)) :=
  match replace_keys params task_arguments [] with
  | Ok new_task_arguments =>
      replace_values params task_arguments new_task_arguments
  | Raise e => Raise e
  end.

(** [[t["task"] for t in task.dependencies]] *)
Definition dependency_targets (task : loc) : M (list (option string)) :=
  let* t := get_task task in
  mapM (fun dl => let* d := get_edge dl in subscript "task" d)
       (t_dependencies t).

(** The [for task in workflow.tasks] loop of [newSubWorkflow]; the loop
    state is [task_id], [all_tasks] and [non_leaf_tasks]. *)
Fixpoint embed_tasks (self : loc) (params : list (pyval * pyval))
    (dependency : pyval) (name : string) (tasks : list loc) (task_id : nat)
    (all_tasks : list loc) (non_leaf_tasks : list (option string))
    : M (list loc * list (option string)) :=
  match tasks with
  | [] => ret (all_tasks, non_leaf_tasks)
  | task :: rest =>
      let* t := get_task task in
      let* new_task_name := add_task_name self name (t_name t) task_id in
      let* old_arguments := reverted_arguments task in
      let* new_arguments := lift (check_replace_args params old_arguments) in
      let* new_task :=
        Task_init (t_operator t)
          (map (fun kv => (VStr (fst kv), VStr (snd kv))) new_arguments)
          (Some new_task_name) None [] in
      run find_root_tasks_add_dependencies task dependency new_task in
      run add_dependencies task new_task name in
      run addTask self new_task in
      let* targets := dependency_targets task in
      embed_tasks self params dependency name rest (S task_id)
        (all_tasks ++ [new_task]) (non_leaf_tasks ++ targets)
  end.

(** [self.newSubWorkflow(workflow, params, dependency, name)] *)
Definition newSubWorkflow (self : loc) (workflow params dependency name : pyval)
    : M (list loc) :=
  run newSubWorkflow_parameter_check params dependency name in
  run validate_workflow self workflow in
  match workflow, params, name with
  | VRef template, VDict ps, VStr label =>
      let* w := get_workflow template in
      let* r := embed_tasks self ps dependency label (w_tasks w) 1 [] [] in
      filterM (fun t => let* tk := get_task t in
                        ret (negb (mem_name (t_name tk) (snd r)))) (fst r)
  | _, _, _ => raise OutsideModel
  end.

(** ** The attribute dictionaries and [deinit]

    [deinit] works on the attributes of an object as such: it deletes from
    the instance dictionary of its receiver every name of the class-level
    list [active_attributes].  For [Workflow] that list is one object shared
    by all instances, and the first loop of [Workflow.__init__] appends to
    it; it is threaded explicitly here.  No method writes the list of
    [Task].  An object after [deinit] is given by the instance dictionary it
    is left with.  The instance attribute [task_name_counter], which no name
    of the lists can denote, is left out of the dictionaries. *)

Inductive attribute : Type :=
| AStr (s : string)
| AName (n : option string)
| AStrs (l : list string)
| ARefs (l : list loc)
| AVal (v : pyval).

Definition instance_dict := list (string * attribute).

(** [self.__dict__.update(kwargs)] *)
Definition update_options (d : instance_dict) (kwargs : list (string * pyval))
    : instance_dict :=
  fold_left (fun acc kv => assoc_set String.eqb (fst kv) (AVal (snd kv)) acc)
    kwargs d.

(** [self.__dict__] of a Workflow and of a Task object, in the order in which
    [__init__] creates the attributes. *)
Definition Workflow_dict (w : Workflow) : instance_dict :=
  update_options
    [("name", AStr (w_name w)); ("author", AName (w_author w));
     ("abstract", AName (w_abstract w)); ("tasks", ARefs (w_tasks w))]
    (w_options w).

Definition Task_dict (t : Task) : instance_dict :=
  update_options
    [("type", AStr (t_type t)); ("name", AName (t_name t));
     ("operator", AStr (t_operator t)); ("arguments", AStrs (t_arguments t));
     ("dependencies", ARefs (t_dependencies t))]
    (t_options t).

(** The initial value of [Workflow.active_attributes], and the value of
    [Task.active_attributes]. *)
Definition Workflow_active_attributes : list string :=
  ["name"; "author"; "abstract"].

Definition Task_active_attributes : list string :=
  ["name"; "operator"; "arguments"].

(** The first loop of [Workflow.__init__] on the class-level list: every
    keyword that passes the check is appended before the next one is
    looked at. *)
Fixpoint Workflow_init_active (kwargs : list (string * pyval))
    (active_attributes : list string) : outcome unit * list string :=
  match kwargs with
  | [] => (Ok tt, active_attributes)
  | (k, _) :: rest =>
      if negb (mem_str k Workflow_attributes)
      then (Raise (AttributeError ("Unknown workflow argument: " +++ k)),
            active_attributes)
      else Workflow_init_active rest (active_attributes ++ [k])
  end.

(** [del d[k]] *)
Definition assoc_del (k : string) (d : instance_dict) : instance_dict :=
  List.filter (fun kv => negb (String.eqb (fst kv) k)) d.

(** The loop of [deinit]: [self.__delattr__(k)] for each name of the list.
    A missing attribute raises [AttributeError]; the text of its message
    depends on the interpreter and is given as the attribute's name. *)
Fixpoint delete_attributes (active_attributes : list string)
    (d : instance_dict) : outcome unit * instance_dict :=
  match active_attributes with
  | [] => (Ok tt, d)
  | k :: rest =>
      if assoc_has String.eqb k d
      then delete_attributes rest (assoc_del k d)
      else (Raise (AttributeError k), d)
  end.

(** [self.deinit()] for a Workflow, under the current class-level list, and
    for a Task. *)
Definition Workflow_deinit (active_attributes : list string) (w : Workflow)
    : outcome unit * instance_dict :=
  delete_attributes active_attributes (Workflow_dict w).

Definition Task_deinit (t : Task) : outcome unit * instance_dict :=
  delete_attributes Task_active_attributes (Task_dict t).

(** ** [Workflow.load]: from the parsed file to the workflow

    [load] reads a file, parses it with [json.loads] and hands the parsed
    value to its inner functions [check_workflow_name] and [start_workflow].
    The file system and the parser are not modelled; the two inner functions
    are, on the values the parser can return.  The constants [true] and
    [false] and the numbers with a fraction are left out of these values.

    [start_workflow] copies every other key of the file into the instance
    dictionary of the object it builds.  On the records of the model a key
    sets the field of its name; a value that the field cannot hold, and a
    key that would hide a method or a class attribute of the object, leave
    the model. *)

#[warnings="-register-all"]
Inductive json : Type :=
| JNull
| JInt (z : Z)
| JStr (s : string)
| JList (l : list json)
| JDict (d : list (string * json)).

(** The name of the type of a parsed value, as Python prints it. *)
Definition json_type_name (v : json) : string :=
  match v with
  | JNull => "NoneType"
  | JInt _ => "int"
  | JStr _ => "str"
  | JList _ => "list"
  | JDict _ => "dict"
  end.

Definition no_attribute (v : json) (attribute_name : string) : exn :=
  AttributeError ("'" +++ json_type_name v +++ "' object has no attribute '"
                  +++ attribute_name +++ "'").

(** [v[k]] for a string [k]: only a dictionary can be subscripted with a
    string. *)
Definition json_subscript (k : string) (v : json) : outcome json :=
  match v with
  | JDict d =>
      match assoc_get String.eqb k d with
      | Some x => Ok x
      | None => Raise (KeyError k)
      end
  | _ => Raise TypeError
  end.

Fixpoint characters (s : string) : list json :=
  match s with
  | EmptyString => []
  | String c s' => JStr (String c EmptyString) :: characters s'
  end.

(** The elements that [for x in v] visits: the elements of a list, the keys
    of a dictionary, the characters of a string. *)
Definition json_iter (v : json) : outcome (list json) :=
  match v with
  | JList l => Ok l
  | JDict d => Ok (map (fun kv => JStr (fst kv)) d)
  | JStr s => Ok (characters s)
  | _ => Raise TypeError
  end.

(** A parsed value as an attribute that holds a string or [None]. *)
Definition name_of_json (v : json) : option (option string) :=
  match v with
  | JStr s => Some (Some s)
  | JNull => Some None
  | _ => None
  end.

(** A parsed value as a value of [pyval], which has no lists. *)
Fixpoint pyval_of_json (v : json) : option pyval :=
  match v with
  | JNull => Some VNone
  | JInt z => Some (VInt z)
  | JStr s => Some (VStr s)
  | JList _ => None
  | JDict d =>
      option_map VDict
        ((fix entries (d : list (string * json))
            : option (list (pyval * pyval)) :=
            match d with
            | [] => Some []
            | (k, x) :: rest =>
                match pyval_of_json x, entries rest with
                | Some p, Some ps => Some ((VStr k, p) :: ps)
                | _, _ => None
                end
            end) d)
  end.

(** A parsed dictionary as a dependency edge. *)
Fixpoint edge_of_entries (d : list (string * json)) : option edge :=
  match d with
  | [] => Some []
  | (k, x) :: rest =>
      match name_of_json x, edge_of_entries rest with
      | Some n, Some e => Some ((k, n) :: e)
      | _, _ => None
      end
  end.

(** The inner [check_workflow_name] of [load]. *)
Definition check_workflow_name (data : json) : M unit :=
  match data with
  | JDict d =>
      if negb (assoc_has String.eqb "name" d)
      then raise (AttributeError "Workflow doesn't have a key")
      else ret tt
  | _ => raise (no_attribute data "keys")
  end.

(** The names that an instance attribute would hide. *)
Definition Workflow_class_names : list string :=
  ["attributes"; "active_attributes"; "task_attributes"; "subworkflow_names";
   "deinit"; "addTask"; "getTask"; "save"; "newTask"; "newSubWorkflow";
   "load"].

Definition Task_class_names : list string :=
  ["attributes"; "active_attributes"; "deinit"; "addDependency";
   "copyDependency"; "reverted_arguments"].

(** One entry of [workflow.__dict__.update(attrs)]. *)
Definition Workflow_update (k : string) (v : json) (w : Workflow)
    : outcome Workflow :=
  if String.eqb k "author" then
    match name_of_json v with
    | Some a =>
        Ok {| w_name := w_name w; w_author := a; w_abstract := w_abstract w;
              w_tasks := w_tasks w;
              w_task_name_counter := w_task_name_counter w;
              w_options := w_options w |}
    | None => Raise OutsideModel
    end
  else if String.eqb k "abstract" then
    match name_of_json v with
    | Some a =>
        Ok {| w_name := w_name w; w_author := w_author w; w_abstract := a;
              w_tasks := w_tasks w;
              w_task_name_counter := w_task_name_counter w;
              w_options := w_options w |}
    | None => Raise OutsideModel
    end
  else if String.eqb k "task_name_counter" then
    match v with
    | JInt z =>
        if Z.leb 0 z then
          Ok {| w_name := w_name w; w_author := w_author w;
                w_abstract := w_abstract w; w_tasks := w_tasks w;
                w_task_name_counter := Z.to_nat z;
                w_options := w_options w |}
        else Raise OutsideModel
    | _ => Raise OutsideModel
    end
  else if mem_str k Workflow_class_names then Raise OutsideModel
  else
    match pyval_of_json v with
    | Some p =>
        Ok {| w_name := w_name w; w_author := w_author w;
              w_abstract := w_abstract w; w_tasks := w_tasks w;
              w_task_name_counter := w_task_name_counter w;
              w_options := assoc_set String.eqb k p (w_options w) |}
    | None => Raise OutsideModel
    end.

Definition set_type (t : Task) (s : string) : Task :=
  {| t_type := s; t_name := t_name t; t_operator := t_operator t;
     t_arguments := t_arguments t; t_dependencies := t_dependencies t;
     t_options := t_options t |}.

Definition set_dependencies (t : Task) (ds : list loc) : Task :=
  {| t_type := t_type t; t_name := t_name t; t_operator := t_operator t;
     t_arguments := t_arguments t; t_dependencies := ds;
     t_options := t_options t |}.

(** One entry of [new_task.__dict__.update(...)]; the dictionaries of a
    parsed [dependencies] list become objects of the store. *)
Definition Task_update (new_task : loc) (k : string) (v : json) : M unit :=
  if String.eqb k "type" then
    match v with
    | JStr s =>
        let* t := get_task new_task in
        put new_task (OTask (set_type t s))
    | _ => raise OutsideModel
    end
  else if String.eqb k "dependencies" then
    match v with
    | JList items =>
        let* ds :=
          mapM (fun x =>
                  match x with
                  | JDict d =>
                      match edge_of_entries d with
                      | Some e => alloc (ODict e)
                      | None => raise OutsideModel
                      end
                  | _ => raise OutsideModel
                  end) items in
        let* t := get_task new_task in
        put new_task (OTask (set_dependencies t ds))
    | _ => raise OutsideModel
    end
  else if mem_str k Task_class_names then raise OutsideModel
  else
    match pyval_of_json v with
    | Some p =>
        let* t := get_task new_task in
        put new_task
          (OTask (set_options t (assoc_set String.eqb k p (t_options t))))
    | None => raise OutsideModel
    end.

(** [a.split("=")] for an element of a parsed [arguments] value. *)
Definition json_split (a : json) : outcome (list string) :=
  match a with
  | JStr s => Ok (split_on sep s)
  | _ => Raise (no_attribute a "split")
  end.

(** The dictionary comprehension over [d["arguments"]]. *)
Fixpoint parse_arguments (items : list json) (arguments : list (string * string))
    : outcome (list (string * string)) :=
  match items with
  | [] => Ok arguments
  | a :: rest =>
      match json_split a with
      | Ok (k :: v :: _) =>
          parse_arguments rest (assoc_set String.eqb k v arguments)
      | Ok _ => Raise IndexError
      | Raise e => Raise e
      end
  end.

(** The first two statements of the loop of [start_workflow]: the Task object
    built from one element of [data["tasks"]]. *)
Definition build_task (d : json) : M loc :=
  let* operator := lift (json_subscript "operator" d) in
  let* name := lift (json_subscript "name" d) in
  let* arguments := lift (json_subscript "arguments" d) in
  let* items := lift (json_iter arguments) in
  let* new_arguments := lift (parse_arguments items []) in
  match operator, name_of_json name, d with
  | JStr op, Some n, JDict entries =>
      let* new_task :=
        Task_init op
          (map (fun kv => (VStr (fst kv), VStr (snd kv))) new_arguments)
          n None [] in
      run forM_ (fun kv =>
            if mem_str (fst kv) ["name"; "operator"; "arguments"] then ret tt
            else Task_update new_task (fst kv) (snd kv)) entries in
      ret new_task
  | _, _, _ => raise OutsideModel
  end.

Definition load_task (workflow : loc) (d : json) : M unit :=
  let* new_task := build_task d in
  addTask workflow new_task.

(** The inner [start_workflow] of [load]. *)
Definition start_workflow (data : json) : M loc :=
  let* name := lift (json_subscript "name" data) in
  match name, data with
  | JStr s, JDict entries =>
      let* workflow := Workflow_init s None None [] in
      run forM_ (fun kv =>
            if mem_str (fst kv) ["name"; "tasks"] then ret tt
            else
              let* w := get_workflow workflow in
              let* w' := lift (Workflow_update (fst kv) (snd kv) w) in
              put workflow (OWorkflow w')) entries in
      let* tasks := lift (json_subscript "tasks" data) in
      let* ds := lift (json_iter tasks) in
      run forM_ (load_task workflow) ds in
      ret workflow
  | _, _ => raise OutsideModel
  end.

(** [load] once the file has been read and parsed into [data]. *)
Definition load_data (data : json) : M loc :=
  run check_workflow_name data in
  start_workflow data.

(** * Definitions used by the statements *)

(** The ["key=value"] list of an ordered mapping, and the mapping as a
    dictionary value. *)
Definition flatten (m : list (string * string)) : list string :=
  map (fun kv => fst kv +++ "=" +++ snd kv) m.

Definition as_dict (m : list (string * string)) : list (pyval * pyval) :=
  map (fun kv => (VStr (fst kv), VStr (snd kv))) m.

(** No key and no value contains the separator. *)
Definition sep_free (m : list (string * string)) : Prop :=
  forall k v, In (k, v) m -> has_char sep k = false /\ has_char sep v = false.

(** The two shapes of edge that [addDependency] builds. *)
Definition embedded_edge (target : option string) : edge :=
  [("type", Some "embedded"); ("task", target)].

Definition all_edge (argument : string) (target : option string) : edge :=
  [("argument", Some argument); ("type", Some "all"); ("task", target)].

(** The name a task bears after the first statement of [addTask]. *)
Definition resolved_name (w : Workflow) (t : Task) : option string :=
  match t_name t with
  | None => Some (w_name w +++ "_" +++ str_of_nat (w_task_name_counter w))
  | Some n => Some n
  end.

(** The name of a task created by [newTask] once it is attached. *)
Definition new_name (w : Workflow) (name : option string) : option string :=
  match name with
  | None => Some (w_name w +++ "_" +++ str_of_nat (w_task_name_counter w))
  | Some n => Some n
  end.

(** The store after the name assignment at the head of [addTask]. *)
Definition name_assigned (w : Workflow) (t : Task) (task : loc) (h : heap)
    : heap :=
  match t_name t with
  | None => <[task := OTask (set_name t (resolved_name w t))]> h
  | Some _ => h
  end.

(** A computation that leaves the store as it is. *)
Definition read_only {A} (m : M A) : Prop := forall h, snd (m h) = h.

(** [preserves n self h h'] says that the store [h'] extends [h] and agrees
    with it on every location below [n] other than [self]; a computation
    [frames n self Q] when each of its runs from a store of at least [n]
    objects preserves the store in that sense and returns a value in [Q]. *)
Definition preserves (n : nat) (self : loc) (h h' : heap) : Prop :=
  length h <= length h' /\
  forall l, l < n -> l <> self -> h' !! l = h !! l.

Definition frames {A} (n : nat) (self : loc) (Q : A -> Prop) (m : M A)
    : Prop :=
  forall h r h', n <= length h -> m h = (r, h') ->
    preserves n self h h' /\ forall a, r = Ok a -> Q a.

Definition any {A} : A -> Prop := fun _ => True.

(** ** Example stores, each built by the methods from the empty store *)

(** Two tasks, as in the docstring of [addDependency]. *)
Definition build_two_tasks : M unit :=
  let* t3 := Task_init "oph_createcontainer" [] (Some "t3") None [] in
  let* t2 := Task_init "oph_if" [] (Some "t2") None [] in
  ret tt.

Definition two_tasks : heap :=
  [OTask (mkTask "ophidia" (Some "t3") "oph_createcontainer" [] [] []);
   OTask (mkTask "ophidia" (Some "t2") "oph_if" [] [] [])].

(** A workflow and one task not yet attached. *)
Definition build_one_workflow_one_task : M unit :=
  let* w1 := Workflow_init "w1" None None [] in
  let* t1 := Task_init "oph_if" [] (Some "task_one") None [] in
  ret tt.

Definition one_workflow_one_task : heap :=
  [OWorkflow (mkWorkflow "w1" None None [] 1 []);
   OTask (mkTask "ophidia" (Some "task_one") "oph_if" [] [] [])].

(** A workflow with the task ["a"] attached, and unattached tasks: a second
    ["a"], a task ["zzz"], a task ["b"] with an edge to ["zzz"], and a third
    ["a"] with an edge to ["zzz"]. *)
Definition build_attached_store : M unit :=
  let* w := Workflow_init "w" None None [] in
  let* a := Task_init "op" [] (Some "a") None [] in
  run addTask w a in
  let* a2 := Task_init "op2" [] (Some "a") None [] in
  let* z := Task_init "op_z" [] (Some "zzz") None [] in
  let* b := Task_init "op3" [] (Some "b") None [] in
  run addDependency b (VRef z) (VStr "") in
  let* a3 := Task_init "op4" [] (Some "a") None [] in
  addDependency a3 (VRef z) (VStr "").

Definition attached_store : heap :=
  [OWorkflow (mkWorkflow "w" None None [1] 2 []);
   OTask (mkTask "ophidia" (Some "a") "op" [] [] []);
   OTask (mkTask "ophidia" (Some "a") "op2" [] [] []);
   OTask (mkTask "ophidia" (Some "zzz") "op_z" [] [] []);
   OTask (mkTask "ophidia" (Some "b") "op3" [] [5] []);
   ODict (embedded_edge (Some "zzz"));
   OTask (mkTask "ophidia" (Some "a") "op4" [] [7] []);
   ODict (embedded_edge (Some "zzz"))].

(** The two-task example: an empty host, and a template whose task [B] has
    one ["all"] edge to its task [A], bound to ["x"]. *)
Definition build_template_store : M unit :=
  let* host := Workflow_init "host" None None [] in
  let* template := Workflow_init "template" None None [] in
  let* A := Task_init "oph_a" [] (Some "A") None [] in
  let* B := Task_init "oph_b" [(VStr "k", VStr "v")] (Some "B") None [] in
  run addDependency B (VRef A) (VStr "x") in
  run addTask template A in
  addTask template B.

Definition template_store : heap :=
  [OWorkflow (mkWorkflow "host" None None [] 1 []);
   OWorkflow (mkWorkflow "template" None None [2; 3] 3 []);
   OTask (mkTask "ophidia" (Some "A") "oph_a" [] [] []);
   OTask (mkTask "ophidia" (Some "B") "oph_b" ["k=v"] [4] []);
   ODict (all_edge "x" (Some "A"))].

(** A host with one attached task ["t0"], and a template with the single
    root task ["A"]. *)
Definition build_anchored_store : M unit :=
  let* host := Workflow_init "host" None None [] in
  let* t0 := Task_init "oph_0" [] (Some "t0") None [] in
  run addTask host t0 in
  let* template := Workflow_init "template" None None [] in
  let* A := Task_init "oph_a" [] (Some "A") None [] in
  addTask template A.

Definition anchored_store : heap :=
  [OWorkflow (mkWorkflow "host" None None [1] 2 []);
   OTask (mkTask "ophidia" (Some "t0") "oph_0" [] [] []);
   OWorkflow (mkWorkflow "template" None None [3] 2 []);
   OTask (mkTask "ophidia" (Some "A") "oph_a" [] [] [])].

(** A template with the single task ["A"] whose argument is
    [{"$size": "10"}]. *)
Definition build_size_store : M unit :=
  let* host := Workflow_init "host" None None [] in
  let* template := Workflow_init "template" None None [] in
  let* A :=
    Task_init "oph_a" [(VStr "$size", VStr "10")] (Some "A") None [] in
  addTask template A.

Definition size_store : heap :=
  [OWorkflow (mkWorkflow "host" None None [] 1 []);
   OWorkflow (mkWorkflow "template" None None [2] 2 []);
   OTask (mkTask "ophidia" (Some "A") "oph_a" ["$size=10"] [] [])].

(** ** Definitions for the properties of the pure helpers *)

(** The part of a string before its first separator: the second piece that
    [reverted_arguments] keeps of a ["key=value"] string. *)
Definition before_sep (v : string) : string :=
  match split_on sep v with
  | p :: _ => p
  | [] => v
  end.

(** What the two loops of [check_replace_args] do to one key or value. *)
Definition replaced (params : list (pyval * pyval)) (s : string)
    : outcome string :=
  match re_first s with
  | Some m =>
      match assoc_get val_eqb (VStr m) params with
      | Some repl => re_sub_val repl s
      | None => Ok s
      end
  | None => Ok s
  end.

(** A string that [check_replace_args] leaves alone: it has no match, or its
    first match is not a key of [params]. *)
Definition untouched (params : list (pyval * pyval)) (s : string) : Prop :=
  match re_first s with
  | Some m => assoc_get val_eqb (VStr m) params = None
  | None => True
  end.

(** ** Definitions for the properties of the workflow graph *)

(** The workflow after attaching the tasks [news] one after the other. *)
Definition attach_all (w : Workflow) (news : list loc) : Workflow :=
  fold_left attach news w.

(** The structural invariant of a workflow in a store: its tasks are named
    Task objects with distinct names, and every edge of the task at position
    [i] is a dictionary whose ["task"] is the name of a task at a position
    before [i]. *)
Definition graph_ok (h : heap) (self : loc) : Prop :=
  exists w names,
    h !! self = Some (OWorkflow w) /\
    fst (task_names (w_tasks w) h) = Ok names /\
    List.NoDup names /\
    ~ In None names /\
    forall i lt t ld,
      w_tasks w !! i = Some lt -> h !! lt = Some (OTask t) ->
      In ld (t_dependencies t) ->
      exists d target,
        h !! ld = Some (ODict d) /\
        assoc_get String.eqb "task" d = Some target /\
        In target (take i names).

(** ** Definitions for the properties of the embedding *)

(** The host after the tasks [news] were attached, in a store that kept the
    objects below [n0]; the tasks [news] were created at or above [n0]. *)
Definition grown (self : loc) (w0 : Workflow) (n0 : nat)
    (news : list loc) (h : heap) : Prop :=
  h !! self = Some (OWorkflow (attach_all w0 news)) /\
  n0 <= length h /\
  List.Forall (fun l => n0 <= l) news.

(** The name [add_task_name] gives to the clone of the task named [previous]
    that is number [task_id] of the template. *)
Definition clone_name (host label : string) (task_id : nat)
    (previous : option string) : string :=
  if negb (String.eqb label "")
  then label +++ "_" +++ str_of_name previous
  else host +++ "_" +++ str_of_nat task_id +++ "_" +++ str_of_name previous.

(** Two tasks that differ at most in their edges. *)
Definition same_shape (t t0 : Task) : Prop :=
  t_type t = t_type t0 /\ t_name t = t_name t0 /\
  t_operator t = t_operator t0 /\ t_arguments t = t_arguments t0 /\
  t_options t = t_options t0.

Definition shaped (l : loc) (t0 : Task) (h : heap) : Prop :=
  exists t, h !! l = Some (OTask t) /\ same_shape t t0.

(** A computation that keeps a property of the store, in every outcome. *)
Definition keeps (T : heap -> Prop) {A} (m : M A) : Prop :=
  forall h r h', T h -> m h = (r, h') -> T h'.

(** [clone] is what the loop of [newSubWorkflow] builds from the template
    task [original]: an ophidia task without options, with the operator of
    the original, the name given by [add_task_name], and the arguments of the
    original after [check_replace_args]. *)
Definition is_clone (params : list (pyval * pyval)) (host label : string)
    (task_id : nat) (original clone : Task) : Prop :=
  t_type clone = "ophidia" /\
  t_options clone = [] /\
  t_operator clone = t_operator original /\
  t_name clone = Some (clone_name host label task_id (t_name original)) /\
  exists m m',
    revert_list (t_arguments original) [] = Ok m /\
    check_replace_args params m = Ok m' /\
    t_arguments clone = flatten m'.

(** The copy that [add_dependencies] makes of the template edge [d], whose
    ["task"] is [target]. *)
Definition renamed_edge (prefix : string) (d : edge) (target : option string)
    : edge :=
  assoc_set String.eqb "task" (Some (fix_dependency_name target prefix)) d.

(** The edges [news] of a clone are copies of the edges [olds] of its
    original: as many, created after the store [h0], and each one the
    dictionary that the original edge was in [h0] with its ["task"]
    renamed. *)
Definition copies (prefix : string) (h0 : heap) (olds news : list loc)
    (h : heap) : Prop :=
  length news = length olds /\
  List.Forall (fun lc => length h0 <= lc) news /\
  forall j ld d,
    olds !! j = Some ld -> h0 !! ld = Some (ODict d) ->
    exists target lc,
      assoc_get String.eqb "task" d = Some target /\
      news !! j = Some lc /\
      h !! lc = Some (ODict (renamed_edge prefix d target)).

(** ** Definitions for the properties of [load] *)

(** The Task [t] holds what the element [d] of [data["tasks"]] gives for the
    operator, the name and the arguments. *)
Definition loaded (d : json) (t : Task) : Prop :=
  exists op nj n aj items m,
    json_subscript "operator" d = Ok (JStr op) /\
    json_subscript "name" d = Ok nj /\
    name_of_json nj = Some n /\
    json_subscript "arguments" d = Ok aj /\
    json_iter aj = Ok items /\
    parse_arguments items [] = Ok m /\
    t_operator t = op /\
    (n <> None -> t_name t = n) /\
    t_name t <> None /\
    t_arguments t = flatten m.

(** The task at [l] has the given operator, name and arguments. *)
Definition core (l : loc) (op : string) (n : option string)
    (args : list string) (h : heap) : Prop :=
  exists t, h !! l = Some (OTask t) /\
    t_operator t = op /\ t_name t = n /\ t_arguments t = args.

(** A parsed file with two tasks; the argument of the first has two
    separators. *)
Definition sample_file : json :=
  JDict [("name", JStr "w"); ("author", JStr "me"); ("abstract", JNull);
         ("tasks",
          JList [JDict [("type", JStr "ophidia"); ("name", JStr "A");
                        ("operator", JStr "oph_a");
                        ("arguments", JList [JStr "k=v=w"]);
                        ("dependencies", JList [])];
                 JDict [("type", JStr "ophidia"); ("name", JStr "B");
                        ("operator", JStr "oph_b");
                        ("arguments", JList []);
                        ("dependencies",
                         JList [JDict [("argument", JStr "x");
                                       ("type", JStr "all");
                                       ("task", JStr "A")]])]]);
         ("ncores", JInt 2)].

(** * Properties *)

(** ** The example stores are reachable *)

Lemma example_stores_built :
  build_two_tasks [] = (Ok tt, two_tasks) /\
  build_one_workflow_one_task [] = (Ok tt, one_workflow_one_task) /\
  build_attached_store [] = (Ok tt, attached_store) /\
  build_template_store [] = (Ok tt, template_store) /\
  build_anchored_store [] = (Ok tt, anchored_store) /\
  build_size_store [] = (Ok tt, size_store).
Proof. repeat split; vm_compute; reflexivity. Qed.


(** ** Strings and dictionaries *)

Lemma split_on_no_sep (c : ascii) (s : string) :
  has_char c s = false -> split_on c s = [s].
Proof.
  induction s as [|a s IH]; simpl; [reflexivity|].
  destruct (Ascii.eqb a c); [discriminate|].
  intros H. rewrite (IH H). reflexivity.
Qed.

Lemma split_on_key_value (c : ascii) (k v : string) :
  has_char c k = false ->
  split_on c (k +++ String c v) = k :: split_on c v.
Proof.
  induction k as [|a k IH]; simpl.
  - intros _. rewrite Ascii.eqb_refl. reflexivity.
  - destruct (Ascii.eqb a c); [discriminate|].
    intros H. rewrite (IH H). reflexivity.
Qed.

Lemma assoc_get_absent {V} (k : string) (d : list (string * V)) :
  ~ In k (map fst d) -> assoc_get String.eqb k d = None.
Proof.
  induction d as [|[k' v'] d IH]; simpl; [reflexivity|].
  intros H. destruct (String.eqb k' k) eqn:E.
  - apply String.eqb_eq in E. exfalso. apply H. left. exact E.
  - apply IH. intros Hin. apply H. right. exact Hin.
Qed.

Lemma assoc_set_fresh {V} (k : string) (v : V) (d : list (string * V)) :
  ~ In k (map fst d) -> assoc_set String.eqb k v d = d ++ [(k, v)].
Proof.
  induction d as [|[k' v'] d IH]; simpl; [reflexivity|].
  intros H. destruct (String.eqb k' k) eqn:E.
  - apply String.eqb_eq in E. exfalso. apply H. left. exact E.
  - rewrite IH; [reflexivity|]. intros Hin. apply H. right. exact Hin.
Qed.

(** ** Flattening and unflattening of arguments *)

Lemma format_arguments_strings (m : list (string * string)) :
  format_arguments (as_dict m) = Some (flatten m).
Proof.
  unfold as_dict, flatten.
  induction m as [|[k v] m IH]; simpl; [reflexivity|].
  rewrite IH. reflexivity.
Qed.

Lemma split_on_flat (k v : string) :
  has_char sep k = false -> has_char sep v = false ->
  split_on sep (k +++ "=" +++ v) = [k; v].
Proof.
  intros Hk Hv.
  change (k +++ "=" +++ v) with (k +++ String sep v).
  rewrite (split_on_key_value sep k v Hk), (split_on_no_sep sep v Hv).
  reflexivity.
Qed.

Lemma revert_list_flatten (m acc : list (string * string)) :
  List.NoDup (map fst (acc ++ m)) ->
  sep_free m ->
  revert_list (flatten m) acc = Ok (acc ++ m).
Proof.
  revert acc. induction m as [|[k v] m IH]; intros acc Hnd Hfree.
  - simpl. rewrite app_nil_r. reflexivity.
  - destruct (Hfree k v) as [Hk Hv]; [left; reflexivity|].
    cbn [flatten map revert_list fst snd].
    rewrite (split_on_flat k v Hk Hv).
    fold (flatten m).
    rewrite assoc_set_fresh.
    + replace (acc ++ (k, v) :: m) with ((acc ++ [(k, v)]) ++ m)
        by (rewrite <- app_assoc; reflexivity).
      apply IH.
      * rewrite <- app_assoc. exact Hnd.
      * intros k' v' Hin. apply Hfree. right. exact Hin.
    + rewrite map_app in Hnd. simpl in Hnd.
      apply NoDup_remove_2 in Hnd.
      intros Hin. apply Hnd. apply in_or_app. left. exact Hin.
Qed.

Lemma heap_lookup_insert_ne (h : heap) (i j : loc) (o : obj) :
  i <> j -> <[i := o]> h !! j = h !! j.
Proof. intros H. apply list_lookup_insert_ne. exact H. Qed.

Lemma heap_lookup_insert_eq (h : heap) (i : loc) (o : obj) :
  i < length h -> <[i := o]> h !! i = Some o.
Proof. intros H. apply list_lookup_insert_eq. exact H. Qed.

Lemma heap_length_insert (h : heap) (i : loc) (o : obj) :
  length (<[i := o]> h) = length h.
Proof. apply length_insert. Qed.

Lemma lookup_alloc (h : heap) (o : obj) : (h ++ [o]) !! length h = Some o.
Proof.
  rewrite lookup_app_r by lia. rewrite Nat.sub_diag. reflexivity.
Qed.

(** C7. For an ordered mapping [m] from strings to strings (distinct keys) in
    which no key and no value contains the separator ["="], the Task
    constructor stores the flattened ["key=value"] list of [m], and
    [reverted_arguments] on the new task gives back exactly [m], in the same
    order. *)
Theorem reverted_arguments_flatten_roundtrip
    (m : list (string * string)) (operator : string)
    (name type : option string) (h : heap) :
  List.NoDup (map fst m) ->
  sep_free m ->
  exists h',
    Task_init operator (as_dict m) name type [] h = (Ok (length h), h') /\
    (exists t, h' !! length h = Some (OTask t) /\ t_arguments t = flatten m) /\
    reverted_arguments (length h) h' = (Ok m, h').
Proof.
  intros Hnd Hfree. unfold Task_init. simpl.
  rewrite format_arguments_strings.
  eexists. split; [reflexivity|]. split.
  - eexists. split; [apply lookup_alloc|]. reflexivity.
  - unfold reverted_arguments, bind, get_task, lift.
    rewrite lookup_alloc. simpl.
    rewrite (revert_list_flatten m []); [reflexivity| exact Hnd | exact Hfree].
Qed.

Lemma reverted_arguments_flatten_roundtrip_witness :
  exists h',
    Task_init "oph_createcontainer"
      (as_dict [("container", "work"); ("dim", "lat|lon|time")])
      (Some "t1") None [] [] = (Ok 0, h') /\
    (exists t, h' !! 0 = Some (OTask t) /\
       t_arguments t = flatten [("container", "work"); ("dim", "lat|lon|time")]) /\
    reverted_arguments 0 h'
      = (Ok [("container", "work"); ("dim", "lat|lon|time")], h').
Proof.
  apply (reverted_arguments_flatten_roundtrip
           [("container", "work"); ("dim", "lat|lon|time")]
           "oph_createcontainer" (Some "t1") None []).
  - repeat constructor; simpl; intuition discriminate.
  - intros k v [H|[H|[]]]; inversion H; subst; split; reflexivity.
Defined.

(** ** Task.addDependency *)

Lemma lookup_after_alloc (h : heap) (o x : obj) (l : loc) :
  h !! l = Some x -> (h ++ [o]) !! l = Some x.
Proof. intros H. apply lookup_app_l_Some. exact H. Qed.

Lemma addDependency_string (h : heap) (self target : loc) (t g : Task)
    (s : string) :
  h !! self = Some (OTask t) ->
  h !! target = Some (OTask g) ->
  addDependency self (VRef target) (VStr s) h =
    (Ok tt,
     <[self := OTask (append_dependency t (length h))]>
       (h ++ [ODict (if String.eqb s "" then embedded_edge (t_name g)
                     else all_edge s (t_name g))])).
Proof.
  intros Hs Hg.
  unfold addDependency, addDependency_parameter_check, bind, isinstance_Task,
    get_task, alloc, put, ret. simpl.
  rewrite Hg. simpl. rewrite Hg.
  destruct (String.eqb s "") eqn:E; simpl;
    rewrite (lookup_after_alloc h _ _ self Hs); reflexivity.
Qed.

Lemma addDependency_not_string (h : heap) (self : loc) (task argument : pyval) :
  isinstance_str argument = false ->
  addDependency self task argument h =
    (Raise (AttributeError "argument must be string"), h).
Proof.
  intros H. unfold addDependency, addDependency_parameter_check, bind.
  rewrite H. reflexivity.
Qed.

(** C9. [t.addDependency(target, argument="")] on a Task [t] with a realized
    target Task passes the type check and appends a fresh edge of type
    ["embedded"] naming the target, with no ["argument"] field; a non-empty
    string gives the ["all"] edge bound to it, and any other argument value
    is rejected, so the ["all"] shape arises for non-empty strings only. *)
Theorem addDependency_empty_string_embedded
    (h : heap) (self target : loc) (t g : Task) :
  h !! self = Some (OTask t) ->
  h !! target = Some (OTask g) ->
  addDependency self (VRef target) (VStr "") h =
    (Ok tt,
     <[self := OTask (append_dependency t (length h))]>
       (h ++ [ODict (embedded_edge (t_name g))])) /\
  assoc_get String.eqb "argument" (embedded_edge (t_name g)) = None /\
  assoc_get String.eqb "type" (embedded_edge (t_name g))
    = Some (Some "embedded") /\
  (forall s, s <> "" ->
     addDependency self (VRef target) (VStr s) h =
       (Ok tt,
        <[self := OTask (append_dependency t (length h))]>
          (h ++ [ODict (all_edge s (t_name g))]))) /\
  (forall a, isinstance_str a = false ->
     addDependency self (VRef target) a h =
       (Raise (AttributeError "argument must be string"), h)).
Proof.
  intros Hs Hg. repeat split.
  - rewrite (addDependency_string h self target t g "" Hs Hg). reflexivity.
  - intros s Hne.
    rewrite (addDependency_string h self target t g s Hs Hg).
    destruct (String.eqb s "") eqn:E; [|reflexivity].
    apply String.eqb_eq in E. contradiction.
  - intros a Ha. apply addDependency_not_string. exact Ha.
Qed.

Lemma addDependency_empty_string_embedded_witness :
  addDependency 0 (VRef 1) (VStr "") two_tasks =
    (Ok tt,
     [OTask (mkTask "ophidia" (Some "t3") "oph_createcontainer" [] [2] []);
      OTask (mkTask "ophidia" (Some "t2") "oph_if" [] [] []);
      ODict [("type", Some "embedded"); ("task", Some "t2")]]).
Proof.
  exact (proj1 (addDependency_empty_string_embedded two_tasks 0 1 _ _
                  eq_refl eq_refl)).
Defined.

(** C3 (the code departs from the claim). With the [argument] parameter
    omitted it has its default [None], which is not a string: the inner
    [parameter_check] raises before any edge is built, whatever the target
    is, and the store is left as it was.  No ["embedded"] edge is appended. *)
Theorem addDependency_omitted_argument_raises
    (h : heap) (self : loc) (task : pyval) :
  addDependency self task VNone h =
    (Raise (AttributeError "argument must be string"), h).
Proof. apply addDependency_not_string. reflexivity. Qed.

(** ** Computations that only read the store *)

Lemma read_only_ret {A} (a : A) : read_only (ret a).
Proof. intros h. reflexivity. Qed.

Lemma read_only_raise {A} (e : exn) : read_only (@raise A e).
Proof. intros h. reflexivity. Qed.

Lemma read_only_lift {A} (r : outcome A) : read_only (lift r).
Proof. intros h. reflexivity. Qed.

Lemma read_only_get_task (l : loc) : read_only (get_task l).
Proof. intros h. unfold get_task. destruct (h !! l) as [[]|]; reflexivity. Qed.

Lemma read_only_get_workflow (l : loc) : read_only (get_workflow l).
Proof.
  intros h. unfold get_workflow. destruct (h !! l) as [[]|]; reflexivity.
Qed.

Lemma read_only_get_edge (l : loc) : read_only (get_edge l).
Proof. intros h. unfold get_edge. destruct (h !! l) as [[]|]; reflexivity. Qed.

Lemma read_only_bind {A B} (m : M A) (f : A -> M B) :
  read_only m -> (forall a, read_only (f a)) -> read_only (bind m f).
Proof.
  intros Hm Hf h. unfold bind. specialize (Hm h).
  destruct (m h) as [[a|e] h']; simpl in Hm; subst h'.
  - apply Hf.
  - reflexivity.
Qed.

Lemma read_only_mapM {A B} (f : A -> M B) (l : list A) :
  (forall a, read_only (f a)) -> read_only (mapM f l).
Proof.
  intros Hf. induction l as [|x l IH]; simpl.
  - apply read_only_ret.
  - apply read_only_bind; [apply Hf|]. intros y.
    apply read_only_bind; [exact IH|]. intros ys. apply read_only_ret.
Qed.

Lemma read_only_forM_ {A} (f : A -> M unit) (l : list A) :
  (forall a, read_only (f a)) -> read_only (forM_ f l).
Proof.
  intros Hf. induction l as [|x l IH]; simpl.
  - apply read_only_ret.
  - apply read_only_bind; [apply Hf|]. intros _. exact IH.
Qed.

Lemma read_only_filterM {A} (f : A -> M bool) (l : list A) :
  (forall a, read_only (f a)) -> read_only (filterM f l).
Proof.
  intros Hf. induction l as [|x l IH]; simpl.
  - apply read_only_ret.
  - apply read_only_bind; [apply Hf|]. intros b.
    apply read_only_bind; [exact IH|]. intros ys. apply read_only_ret.
Qed.

Lemma read_only_subscript (k : string) (d : edge) : read_only (subscript k d).
Proof.
  unfold subscript. destruct (assoc_get String.eqb k d).
  - apply read_only_ret.
  - apply read_only_raise.
Qed.

Lemma read_only_task_names (tasks : list loc) : read_only (task_names tasks).
Proof.
  apply read_only_mapM. intros l.
  apply read_only_bind; [apply read_only_get_task|].
  intros t. apply read_only_ret.
Qed.

Lemma read_only_dependency_targets (task : loc) :
  read_only (dependency_targets task).
Proof.
  apply read_only_bind; [apply read_only_get_task|]. intros t.
  apply read_only_mapM. intros dl.
  apply read_only_bind; [apply read_only_get_edge|]. intros d.
  apply read_only_subscript.
Qed.

Lemma read_only_eq {A} (m : M A) (h : heap) :
  read_only m -> m h = (fst (m h), h).
Proof.
  intros H. specialize (H h). destruct (m h) as [r h']. simpl in *.
  subst. reflexivity.
Qed.

Lemma name_eqb_eq (a b : option string) : name_eqb a b = true <-> a = b.
Proof.
  destruct a as [x|], b as [y|]; simpl; split; intros H;
    try discriminate; try reflexivity.
  - apply String.eqb_eq in H. subst. reflexivity.
  - inversion H. apply String.eqb_refl.
Qed.

Lemma mem_name_In (n : option string) (l : list (option string)) :
  mem_name n l = true <-> In n l.
Proof.
  unfold mem_name. rewrite existsb_exists. split.
  - intros [x [Hin Heq]]. apply name_eqb_eq in Heq. subst. exact Hin.
  - intros Hin. exists n. split; [exact Hin|]. apply name_eqb_eq. reflexivity.
Qed.

Lemma mem_name_not_In (n : option string) (l : list (option string)) :
  mem_name n l = false <-> ~ In n l.
Proof.
  rewrite <- mem_name_In. destruct (mem_name n l); split; intros H;
    try reflexivity; try discriminate; try (intros H'; discriminate).
  exfalso. apply H. reflexivity.
Qed.

(** ** Workflow.addTask *)

Lemma name_assigned_other (w : Workflow) (t : Task) (task l : loc) (h : heap) :
  l <> task -> name_assigned w t task h !! l = h !! l.
Proof.
  intros Hne. unfold name_assigned. destruct (t_name t); [reflexivity|].
  apply list_lookup_insert_ne. congruence.
Qed.

Lemma name_assigned_task (w : Workflow) (t : Task) (task : loc) (h : heap) :
  h !! task = Some (OTask t) ->
  name_assigned w t task h !! task
    = Some (OTask (set_name t (resolved_name w t))).
Proof.
  intros Ht. unfold name_assigned, resolved_name.
  destruct (t_name t) eqn:E.
  - rewrite Ht. destruct t; simpl in *. subst. reflexivity.
  - apply list_lookup_insert_eq. apply lookup_lt_Some in Ht. exact Ht.
Qed.

Lemma name_assigned_length (w : Workflow) (t : Task) (task : loc) (h : heap) :
  length (name_assigned w t task h) = length h.
Proof.
  unfold name_assigned. destruct (t_name t); [reflexivity|].
  apply length_insert.
Qed.

(** [addTask] up to the duplicate check. *)
Lemma addTask_checks (h : heap) (self task : loc) (w : Workflow) (t : Task) :
  h !! self = Some (OWorkflow w) ->
  h !! task = Some (OTask t) ->
  addTask self task h =
    match fst (task_names (w_tasks w) (name_assigned w t task h)) with
    | Ok names =>
        if mem_name (resolved_name w t) names
        then (Raise DuplicateNameError, name_assigned w t task h)
        else
          (run forM_ (check_dependency (w_tasks w)) (t_dependencies t) in
           let* w' := get_workflow self in
           put self (OWorkflow (attach w' task))) (name_assigned w t task h)
    | Raise e => (Raise e, name_assigned w t task h)
    end.
Proof.
  intros Hs Ht.
  pose proof (name_assigned_task w t task h Ht) as Ht1.
  unfold addTask, bind at 1. unfold get_workflow at 1. rewrite Hs.
  unfold bind at 1. unfold get_task at 1. rewrite Ht.
  unfold bind at 1.
  assert (Hstep :
    (match t_name t with
     | None =>
         put task (OTask (set_name t
           (Some (w_name w +++ "_" +++ str_of_nat (w_task_name_counter w)))))
     | Some _ => ret tt
     end) h = (Ok tt, name_assigned w t task h)).
  { unfold name_assigned, resolved_name. destruct (t_name t); reflexivity. }
  rewrite Hstep.
  unfold bind at 1. unfold get_task at 1. rewrite Ht1.
  unfold bind at 1.
  rewrite (read_only_eq (task_names (w_tasks w)) (name_assigned w t task h)
             (read_only_task_names (w_tasks w))).
  simpl fst.
  destruct (fst (task_names (w_tasks w) (name_assigned w t task h)))
    as [names|e]; [|reflexivity].
  assert (Hname : t_name (set_name t (resolved_name w t)) = resolved_name w t)
    by reflexivity.
  rewrite Hname.
  destruct (mem_name (resolved_name w t) names); reflexivity.
Qed.

Lemma check_dependency_unresolved (tasks deps : list loc) (h : heap)
    (names targets : list (option string)) :
  task_names tasks h = (Ok names, h) ->
  mapM (fun dl => let* d := get_edge dl in subscript "task" d) deps h
    = (Ok targets, h) ->
  (exists n, In n targets /\ ~ In n names) ->
  forM_ (check_dependency tasks) deps h = (Raise UnresolvedDependencyError, h).
Proof.
  intros Hn. revert targets.
  induction deps as [|dl deps IH]; intros targets Hm [n [Hin Hnot]].
  - simpl in Hm. inversion Hm; subst. destruct Hin.
  - simpl in Hm. unfold bind at 1 in Hm.
    destruct ((let* d := get_edge dl in subscript "task" d) h)
      as [[target|e] h1] eqn:E1; [|discriminate].
    assert (h1 = h) as ->.
    { pose proof (read_only_bind (get_edge dl) (fun d => subscript "task" d)
        (read_only_get_edge dl) (read_only_subscript "task") h) as R.
      rewrite E1 in R. exact R. }
    unfold bind at 1 in Hm.
    destruct (mapM (fun dl => let* d := get_edge dl in subscript "task" d)
                deps h) as [[rest|e] h2] eqn:E2; [|discriminate].
    assert (h2 = h) as ->.
    { pose proof (read_only_mapM
        (fun dl => let* d := get_edge dl in subscript "task" d) deps) as R.
      specialize (R (fun a => read_only_bind (get_edge a)
        (fun d => subscript "task" d) (read_only_get_edge a)
        (read_only_subscript "task")) h).
      rewrite E2 in R. exact R. }
    inversion Hm; subst targets. clear Hm.
    simpl. unfold bind at 1. unfold check_dependency at 1.
    unfold bind at 1 in E1. unfold bind at 1.
    destruct (get_edge dl h) as [[d|e] h3] eqn:E3; [|discriminate].
    assert (h3 = h) as ->.
    { pose proof (read_only_get_edge dl h) as R. rewrite E3 in R. exact R. }
    unfold bind at 1. rewrite E1. unfold bind at 1. rewrite Hn.
    destruct (mem_name target names) eqn:Em; simpl.
    + unfold ret. apply (IH rest eq_refl).
      destruct Hin as [Heq|Hin].
      * subst n. apply mem_name_In in Em. contradiction.
      * exists n. split; assumption.
    + reflexivity.
Qed.

(** C8. When the resolved name of the task is the name of an attached task,
    [addTask] fails with [DuplicateNameError]; when the name is new and an
    edge of the task names a task that is not attached, it fails with
    [UnresolvedDependencyError].  In both cases the store differs from the
    initial one at most by the name written on the task: the workflow object,
    hence its task sequence and its naming counter, is the same, and the task
    is not attached. *)
Theorem addTask_failure_leaves_workflow
    (h : heap) (self task : loc) (w : Workflow) (t : Task)
    (names : list (option string)) :
  h !! self = Some (OWorkflow w) ->
  h !! task = Some (OTask t) ->
  task_names (w_tasks w) (name_assigned w t task h)
    = (Ok names, name_assigned w t task h) ->
  (name_assigned w t task h !! self = Some (OWorkflow w) /\
   length (name_assigned w t task h) = length h /\
   (forall l, l <> task -> name_assigned w t task h !! l = h !! l) /\
   name_assigned w t task h !! task
     = Some (OTask (set_name t (resolved_name w t)))) /\
  (In (resolved_name w t) names ->
   addTask self task h
     = (Raise DuplicateNameError, name_assigned w t task h)) /\
  (forall targets,
     ~ In (resolved_name w t) names ->
     dependency_targets task (name_assigned w t task h)
       = (Ok targets, name_assigned w t task h) ->
     (exists n, In n targets /\ ~ In n names) ->
     addTask self task h
       = (Raise UnresolvedDependencyError, name_assigned w t task h)).
Proof.
  intros Hs Ht Hn.
  assert (Hne : self <> task) by (intros ->; rewrite Hs in Ht; discriminate).
  split; [|split].
  - split; [|split; [|split]].
    + rewrite name_assigned_other by exact Hne. exact Hs.
    + apply name_assigned_length.
    + intros l Hl. apply name_assigned_other. exact Hl.
    + apply name_assigned_task. exact Ht.
  - intros Hin. rewrite (addTask_checks h self task w t Hs Ht), Hn. cbn [fst].
    apply mem_name_In in Hin. rewrite Hin. reflexivity.
  - intros targets Hnot Hd Hex.
    rewrite (addTask_checks h self task w t Hs Ht), Hn. cbn [fst].
    apply mem_name_not_In in Hnot. rewrite Hnot.
    unfold dependency_targets, bind at 1 in Hd.
    unfold get_task at 1 in Hd.
    rewrite (name_assigned_task w t task h Ht) in Hd.
    change (t_dependencies (set_name t (resolved_name w t)))
      with (t_dependencies t) in Hd.
    unfold bind at 1.
    rewrite (check_dependency_unresolved (w_tasks w) (t_dependencies t)
               (name_assigned w t task h) names targets Hn Hd Hex).
    reflexivity.
Qed.

Lemma addTask_failure_leaves_workflow_witness :
  addTask 0 2 attached_store = (Raise DuplicateNameError, attached_store) /\
  addTask 0 4 attached_store
    = (Raise UnresolvedDependencyError, attached_store).
Proof.
  split.
  - apply (proj1 (proj2 (addTask_failure_leaves_workflow attached_store 0 2
             _ _ [Some "a"] eq_refl eq_refl eq_refl))).
    left. reflexivity.
  - apply (proj2 (proj2 (addTask_failure_leaves_workflow attached_store 0 4
             _ _ [Some "a"] eq_refl eq_refl eq_refl)) [Some "zzz"]).
    + simpl. intros [H|[]]. discriminate.
    + reflexivity.
    + exists (Some "zzz"). split; [left; reflexivity|].
      simpl. intros [H|[]]. discriminate.
Defined.

(** C8, the claim as stated fails where its two cases overlap: the task at
    location 6 bears the name ["a"] of an attached task and carries an edge
    to ["zzz"], which is not attached; [addTask] raises
    [DuplicateNameError], not [UnresolvedDependencyError]. *)
Lemma addTask_unresolved_edge_duplicate_name :
  task_names [1] attached_store = (Ok [Some "a"], attached_store) /\
  dependency_targets 6 attached_store = (Ok [Some "zzz"], attached_store) /\
  addTask 0 6 attached_store = (Raise DuplicateNameError, attached_store) /\
  addTask 0 6 attached_store
    <> (Raise UnresolvedDependencyError, attached_store).
Proof.
  repeat split; try (vm_compute; reflexivity).
  vm_compute. intros H. discriminate H.
Qed.

Lemma read_only_check_dependency (tasks : list loc) (dl : loc) :
  read_only (check_dependency tasks dl).
Proof.
  unfold check_dependency.
  apply read_only_bind; [apply read_only_get_edge|]. intros d.
  apply read_only_bind; [apply read_only_subscript|]. intros target.
  apply read_only_bind; [apply read_only_task_names|]. intros names.
  destruct (negb (mem_name target names)).
  - apply read_only_raise.
  - apply read_only_ret.
Qed.

Lemma task_names_ok_tasks (tasks : list loc) (h : heap)
    (names : list (option string)) :
  fst (task_names tasks h) = Ok names ->
  forall l, In l tasks -> exists t, h !! l = Some (OTask t).
Proof.
  revert names. induction tasks as [|x tasks IH]; intros names Hn l Hin.
  - destruct Hin.
  - unfold task_names in Hn. simpl in Hn. unfold bind at 1 in Hn.
    unfold bind at 1 in Hn. unfold get_task at 1 in Hn.
    destruct (h !! x) as [[t| |]|] eqn:Hx; try discriminate.
    unfold ret at 1 in Hn. unfold bind at 1 in Hn.
    fold (task_names tasks) in Hn.
    rewrite (read_only_eq (task_names tasks) h (read_only_task_names tasks))
      in Hn.
    destruct (fst (task_names tasks h)) as [rest|e] eqn:Hr; [|discriminate].
    destruct Hin as [<-|Hin].
    + exists t. exact Hx.
    + apply (IH rest eq_refl l Hin).
Qed.

(** What a successful [addTask] has established. *)
Lemma addTask_ok_inv (h h' : heap) (self task : loc) :
  addTask self task h = (Ok tt, h') ->
  exists w t names,
    h !! self = Some (OWorkflow w) /\
    h !! task = Some (OTask t) /\
    fst (task_names (w_tasks w) (name_assigned w t task h)) = Ok names /\
    mem_name (resolved_name w t) names = false /\
    h' = <[self := OWorkflow (attach w task)]> (name_assigned w t task h).
Proof.
  intros H.
  destruct (h !! self) as [[| w |]|] eqn:Hs;
    try (unfold addTask, bind, get_workflow in H; rewrite Hs in H;
         discriminate).
  destruct (h !! task) as [[t | |]|] eqn:Ht;
    try (unfold addTask, bind, get_workflow, get_task in H;
         rewrite Hs, Ht in H; discriminate).
  rewrite (addTask_checks h self task w t Hs Ht) in H.
  destruct (fst (task_names (w_tasks w) (name_assigned w t task h)))
    as [names|e] eqn:Hn; [|discriminate].
  destruct (mem_name (resolved_name w t) names) eqn:Hm; [discriminate|].
  exists w, t, names. repeat split; try reflexivity; try assumption.
  unfold bind at 1 in H.
  rewrite (read_only_eq (forM_ (check_dependency (w_tasks w)) (t_dependencies t))
             (name_assigned w t task h)) in H
    by (apply read_only_forM_; intros a; apply read_only_check_dependency).
  destruct (fst (forM_ (check_dependency (w_tasks w)) (t_dependencies t)
                   (name_assigned w t task h))); [|discriminate].
  assert (Hne : self <> task) by (intros ->; rewrite Hs in Ht; discriminate).
  unfold bind at 1, get_workflow at 1 in H.
  rewrite (name_assigned_other w t task self h Hne), Hs in H.
  unfold put in H. inversion H. reflexivity.
Qed.

(** ** Workflow.getTask *)

Lemma getTask_first_is_Task (h : heap) (self first : loc) (w : Workflow)
    (t : Task) (rest : list loc) (taskname : pyval) :
  h !! self = Some (OWorkflow w) ->
  w_tasks w = first :: rest ->
  h !! first = Some (OTask t) ->
  getTask self taskname h = (Raise TypeError, h).
Proof.
  intros Hs Hw Hf.
  unfold getTask, bind at 1. unfold get_workflow at 1. rewrite Hs, Hw.
  simpl. unfold bind at 1. unfold bind at 1. unfold bind at 1.
  unfold subscript_name at 1. rewrite Hf. reflexivity.
Qed.

(** C2 (the code departs from the claim). After a successful [addTask] every
    call of [getTask] on that workflow, with the name of the new task or with
    any other name, raises [TypeError]: the list comprehension subscripts the
    first attached Task object with ["name"], and a Task cannot be
    subscripted.  Neither the attached task nor [None] is returned. *)
Theorem getTask_after_addTask_raises
    (h h' : heap) (self task : loc) (taskname : pyval) :
  addTask self task h = (Ok tt, h') ->
  getTask self taskname h' = (Raise TypeError, h').
Proof.
  intros H.
  destruct (addTask_ok_inv h h' self task H)
    as (w & t & names & Hs & Ht & Hn & _ & ->).
  assert (Hne : self <> task) by (intros ->; rewrite Hs in Ht; discriminate).
  assert (Hlen : self < length (name_assigned w t task h)).
  { rewrite name_assigned_length. apply lookup_lt_Some in Hs. exact Hs. }
  assert (Hself : <[self := OWorkflow (attach w task)]>
                    (name_assigned w t task h) !! self
                  = Some (OWorkflow (attach w task))).
  { apply list_lookup_insert_eq. exact Hlen. }
  destruct (w_tasks w) as [|first rest] eqn:Hw.
  - apply (getTask_first_is_Task _ self task (attach w task)
             (set_name t (resolved_name w t)) [] taskname Hself).
    + simpl. rewrite Hw. reflexivity.
    + rewrite heap_lookup_insert_ne by congruence.
      apply name_assigned_task. exact Ht.
  - destruct (task_names_ok_tasks (first :: rest) _ names Hn first)
      as [t1 Ht1].
    { left. reflexivity. }
    assert (Hnf : self <> first).
    { intros ->. destruct (Nat.eq_dec first task) as [->|Hft].
      - contradiction.
      - rewrite (name_assigned_other w t task first h Hft), Hs in Ht1.
        discriminate. }
    apply (getTask_first_is_Task _ self first (attach w task) t1
             (rest ++ [task]) taskname Hself).
    + simpl. rewrite Hw. reflexivity.
    + rewrite heap_lookup_insert_ne by congruence. exact Ht1.
Qed.

Lemma getTask_after_addTask_raises_witness :
  addTask 0 1 one_workflow_one_task
    = (Ok tt, [OWorkflow (mkWorkflow "w1" None None [1] 2 []);
               OTask (mkTask "ophidia" (Some "task_one") "oph_if" [] [] [])]) /\
  getTask 0 (VStr "task_one")
    [OWorkflow (mkWorkflow "w1" None None [1] 2 []);
     OTask (mkTask "ophidia" (Some "task_one") "oph_if" [] [] [])]
  = (Raise TypeError,
     [OWorkflow (mkWorkflow "w1" None None [1] 2 []);
      OTask (mkTask "ophidia" (Some "task_one") "oph_if" [] [] [])]).
Proof.
  split; [reflexivity|].
  apply (getTask_after_addTask_raises one_workflow_one_task _ 0 1
           (VStr "task_one")).
  reflexivity.
Defined.

(** ** Frame of the embedding *)

Lemma preserves_refl (n : nat) (self : loc) (h : heap) : preserves n self h h.
Proof. split; [lia|]. intros; reflexivity. Qed.

Lemma preserves_trans (n : nat) (self : loc) (h1 h2 h3 : heap) :
  preserves n self h1 h2 -> preserves n self h2 h3 -> preserves n self h1 h3.
Proof.
  intros [L1 P1] [L2 P2]. split; [lia|].
  intros l Hl Hne. rewrite (P2 l Hl Hne). apply P1; assumption.
Qed.

Lemma frames_weaken {A} (n : nat) (self : loc) (Q Q' : A -> Prop) (m : M A) :
  (forall a, Q a -> Q' a) -> frames n self Q m -> frames n self Q' m.
Proof.
  intros HQ Hm h r h' Hn E. destruct (Hm h r h' Hn E) as [P R].
  split; [exact P|]. intros a Ha. apply HQ. apply R. exact Ha.
Qed.

Lemma frames_read_only {A} (n : nat) (self : loc) (m : M A) :
  read_only m -> frames n self any m.
Proof.
  intros Hro h r h' Hn E. pose proof (Hro h) as R. rewrite E in R.
  simpl in R. subst h'. split; [apply preserves_refl|]. intros; exact I.
Qed.

Lemma frames_ret {A} (n : nat) (self : loc) (Q : A -> Prop) (a : A) :
  Q a -> frames n self Q (ret a).
Proof.
  intros Ha h r h' Hn E. inversion E; subst.
  split; [apply preserves_refl|]. intros b Hb. inversion Hb; subst. exact Ha.
Qed.

Lemma frames_raise {A} (n : nat) (self : loc) (Q : A -> Prop) (e : exn) :
  frames n self Q (raise e).
Proof.
  intros h r h' Hn E. inversion E; subst.
  split; [apply preserves_refl|]. intros b Hb. discriminate.
Qed.

Lemma frames_put (n : nat) (self l : loc) (o : obj) :
  l = self \/ n <= l -> frames n self any (put l o).
Proof.
  intros Hl h r h' Hn E. inversion E; subst. split; [|intros; exact I].
  split; [rewrite heap_length_insert; lia|].
  intros l' Hl' Hne. apply heap_lookup_insert_ne.
  destruct Hl as [->|Hl]; [congruence|lia].
Qed.

Lemma frames_alloc (n : nat) (self : loc) (o : obj) :
  frames n self (fun l => n <= l) (alloc o).
Proof.
  intros h r h' Hn E. inversion E; subst. split.
  - split; [rewrite length_app; simpl; lia|].
    intros l Hl Hne. apply lookup_app_l. lia.
  - intros a Ha. inversion Ha; subst. exact Hn.
Qed.

Lemma frames_bind {A B} (n : nat) (self : loc) (Q : A -> Prop)
    (R : B -> Prop) (m : M A) (f : A -> M B) :
  frames n self Q m -> (forall a, Q a -> frames n self R (f a)) ->
  frames n self R (bind m f).
Proof.
  intros Hm Hf h r h' Hn E. unfold bind in E.
  destruct (m h) as [[a|e] h1] eqn:E1.
  - destruct (Hm h (Ok a) h1 Hn E1) as [P1 Q1].
    assert (Hn1 : n <= length h1) by (destruct P1; lia).
    destruct (Hf a (Q1 a eq_refl) h1 r h' Hn1 E) as [P2 Q2].
    split; [exact (preserves_trans n self h h1 h' P1 P2)|exact Q2].
  - inversion E; subst. destruct (Hm h (Raise e) h' Hn E1) as [P1 _].
    split; [exact P1|]. intros b Hb. discriminate.
Qed.

Lemma frames_forM_ {A} (n : nat) (self : loc) (f : A -> M unit)
    (l : list A) :
  (forall a, frames n self any (f a)) -> frames n self any (forM_ f l).
Proof.
  intros Hf. induction l as [|x l IH]; simpl.
  - apply frames_ret. exact I.
  - apply (frames_bind n self any any); [apply Hf|]. intros _ _. exact IH.
Qed.

Lemma frames_Task_init (n : nat) (self : loc) (operator : string)
    (arguments : list (pyval * pyval)) (name type : option string)
    (kwargs : list (string * pyval)) :
  frames n self (fun l => n <= l)
    (Task_init operator arguments name type kwargs).
Proof.
  unfold Task_init.
  destruct (unknown_option Task_attributes kwargs); [apply frames_raise|].
  destruct (format_arguments arguments); [|apply frames_raise].
  apply frames_alloc.
Qed.

Lemma frames_addDependency (n : nat) (self new_task : loc)
    (task argument : pyval) :
  n <= new_task -> frames n self any (addDependency new_task task argument).
Proof.
  intros Hnew. unfold addDependency.
  apply (frames_bind n self any any).
  { apply frames_read_only. unfold addDependency_parameter_check.
    destruct (negb (isinstance_str argument)); [apply read_only_raise|].
    apply read_only_bind.
    - intros h. unfold isinstance_Task.
      destruct task; try reflexivity. destruct (h !! l) as [[]|]; reflexivity.
    - intros b. destruct (negb b); [apply read_only_raise|apply read_only_ret]. }
  intros _ _.
  apply (frames_bind n self any any).
  { apply frames_read_only. destruct task; try apply read_only_raise.
    apply read_only_get_task. }
  intros target _.
  apply (frames_bind n self (fun l => n <= l) any); [apply frames_alloc|].
  intros d Hd.
  apply (frames_bind n self any any).
  { apply frames_read_only. apply read_only_get_task. }
  intros t _. apply frames_put. right. exact Hnew.
Qed.

Lemma frames_copyDependency (n : nat) (self new_task dependency : loc) :
  n <= new_task -> frames n self any (copyDependency new_task dependency).
Proof.
  intros Hnew. unfold copyDependency.
  apply (frames_bind n self any any).
  { apply frames_read_only. apply read_only_get_task. }
  intros t _. apply frames_put. right. exact Hnew.
Qed.

Lemma frames_addTask (n : nat) (self new_task : loc) :
  n <= new_task -> frames n self any (addTask self new_task).
Proof.
  intros Hnew. unfold addTask.
  apply (frames_bind n self any any).
  { apply frames_read_only. apply read_only_get_workflow. }
  intros w _.
  apply (frames_bind n self any any).
  { apply frames_read_only. apply read_only_get_task. }
  intros t _.
  apply (frames_bind n self any any).
  { destruct (t_name t).
    - apply frames_ret. exact I.
    - apply frames_put. right. exact Hnew. }
  intros _ _.
  apply (frames_bind n self any any).
  { apply frames_read_only. apply read_only_get_task. }
  intros t1 _.
  apply (frames_bind n self any any).
  { apply frames_read_only. apply read_only_task_names. }
  intros names _.
  destruct (mem_name (t_name t1) names); [apply frames_raise|].
  apply (frames_bind n self any any).
  { apply frames_read_only. apply read_only_forM_. intros a.
    apply read_only_check_dependency. }
  intros _ _.
  apply (frames_bind n self any any).
  { apply frames_read_only. apply read_only_get_workflow. }
  intros w1 _. apply frames_put. left. reflexivity.
Qed.

Lemma read_only_dependency_check (dependency : pyval) :
  read_only (dependency_check dependency).
Proof.
  unfold dependency_check. destruct dependency; try apply read_only_raise.
  repeat match goal with
         | |- read_only (if ?b then _ else _) => destruct b
         end; try apply read_only_raise; apply read_only_ret.
Qed.

Lemma read_only_val_subscript (k : string) (d : list (pyval * pyval)) :
  read_only (val_subscript k d).
Proof.
  unfold val_subscript. destruct (assoc_get val_eqb (VStr k) d).
  - apply read_only_ret.
  - apply read_only_raise.
Qed.

Lemma frames_find_root_tasks_add_dependencies (n : nat)
    (self task new_task : loc) (dependencies : pyval) :
  n <= new_task ->
  frames n self any
    (find_root_tasks_add_dependencies task dependencies new_task).
Proof.
  intros Hnew. unfold find_root_tasks_add_dependencies.
  apply (frames_bind n self any any).
  { apply frames_read_only. apply read_only_get_task. }
  intros t _.
  destruct (Nat.eqb (length (t_dependencies t)) 0);
    [|apply frames_ret; exact I].
  destruct dependencies; try apply frames_raise.
  apply frames_forM_. intros dependency.
  apply (frames_bind n self any any).
  { apply frames_read_only. apply read_only_dependency_check. }
  intros _ _. destruct dependency; try apply frames_raise.
  destruct (Nat.eqb (length d0) 1).
  - apply (frames_bind n self any any).
    { apply frames_read_only. apply read_only_val_subscript. }
    intros target _. apply frames_addDependency. exact Hnew.
  - apply (frames_bind n self any any).
    { apply frames_read_only. apply read_only_val_subscript. }
    intros target _.
    apply (frames_bind n self any any).
    { apply frames_read_only. apply read_only_val_subscript. }
    intros argument _. apply frames_addDependency. exact Hnew.
Qed.

Lemma frames_add_dependencies (n : nat) (self task new_task : loc)
    (prefix : string) :
  n <= new_task -> frames n self any (add_dependencies task new_task prefix).
Proof.
  intros Hnew. unfold add_dependencies.
  apply (frames_bind n self any any).
  { apply frames_read_only. apply read_only_get_task. }
  intros t _.
  destruct (Nat.ltb 0 (length (t_dependencies t)));
    [|apply frames_ret; exact I].
  apply frames_forM_. intros dl.
  apply (frames_bind n self any any).
  { apply frames_read_only. apply read_only_get_edge. }
  intros d _.
  apply (frames_bind n self (fun l => n <= l) any); [apply frames_alloc|].
  intros dep_dict Hdep.
  apply (frames_bind n self any any).
  { apply frames_read_only. apply read_only_subscript. }
  intros target _.
  apply (frames_bind n self any any).
  { apply frames_put. right. exact Hdep. }
  intros _ _. apply frames_copyDependency. exact Hnew.
Qed.

Lemma read_only_add_task_name (self : loc) (given_name : string)
    (previous_name : option string) (task_id : nat) :
  read_only (add_task_name self given_name previous_name task_id).
Proof.
  unfold add_task_name. destruct (negb (String.eqb given_name "")).
  - apply read_only_ret.
  - apply read_only_bind; [apply read_only_get_workflow|].
    intros w. apply read_only_ret.
Qed.

Lemma read_only_reverted_arguments (self : loc) :
  read_only (reverted_arguments self).
Proof.
  unfold reverted_arguments.
  apply read_only_bind; [apply read_only_get_task|].
  intros t. apply read_only_lift.
Qed.

Lemma frames_embed_tasks (n : nat) (self : loc)
    (params : list (pyval * pyval)) (dependency : pyval) (name : string)
    (tasks : list loc) :
  forall (task_id : nat) (all_tasks : list loc)
         (non_leaf_tasks : list (option string)),
  frames n self any
    (embed_tasks self params dependency name tasks task_id all_tasks
       non_leaf_tasks).
Proof.
  induction tasks as [|task rest IH]; intros task_id all_tasks non_leaf_tasks;
    simpl.
  - apply frames_ret. exact I.
  - apply (frames_bind n self any any).
    { apply frames_read_only. apply read_only_get_task. }
    intros t _.
    apply (frames_bind n self any any).
    { apply frames_read_only. apply read_only_add_task_name. }
    intros new_task_name _.
    apply (frames_bind n self any any).
    { apply frames_read_only. apply read_only_reverted_arguments. }
    intros old_arguments _.
    apply (frames_bind n self any any).
    { apply frames_read_only. apply read_only_lift. }
    intros new_arguments _.
    apply (frames_bind n self (fun l => n <= l) any);
      [apply frames_Task_init|].
    intros new_task Hnew.
    apply (frames_bind n self any any).
    { apply frames_find_root_tasks_add_dependencies. exact Hnew. }
    intros _ _.
    apply (frames_bind n self any any).
    { apply frames_add_dependencies. exact Hnew. }
    intros _ _.
    apply (frames_bind n self any any).
    { apply frames_addTask. exact Hnew. }
    intros _ _.
    apply (frames_bind n self any any).
    { apply frames_read_only. apply read_only_dependency_targets. }
    intros targets _. apply IH.
Qed.

Lemma read_only_newSubWorkflow_parameter_check (params dependency name : pyval) :
  read_only (newSubWorkflow_parameter_check params dependency name).
Proof.
  unfold newSubWorkflow_parameter_check.
  repeat match goal with
         | |- read_only (if ?b then _ else _) => destruct b
         end; try apply read_only_raise; apply read_only_ret.
Qed.

Lemma read_only_validate_workflow (w1 : loc) (w2 : pyval) :
  read_only (validate_workflow w1 w2).
Proof.
  unfold validate_workflow. apply read_only_bind.
  - intros h. unfold isinstance_Workflow.
    destruct w2; try reflexivity. destruct (h !! l) as [[]|]; reflexivity.
  - intros b. destruct (negb b); [apply read_only_raise|].
    destruct w2; try apply read_only_raise.
    apply read_only_bind; [apply read_only_get_workflow|]. intros a.
    apply read_only_bind; [apply read_only_get_workflow|]. intros c.
    destruct (String.eqb (w_name a) (w_name c));
      [apply read_only_raise|apply read_only_ret].
Qed.

Lemma frames_newSubWorkflow (n : nat) (self : loc)
    (workflow params dependency name : pyval) :
  frames n self any (newSubWorkflow self workflow params dependency name).
Proof.
  unfold newSubWorkflow.
  apply (frames_bind n self any any).
  { apply frames_read_only. apply read_only_newSubWorkflow_parameter_check. }
  intros _ _.
  apply (frames_bind n self any any).
  { apply frames_read_only. apply read_only_validate_workflow. }
  intros _ _.
  destruct workflow; try apply frames_raise.
  destruct params; try apply frames_raise.
  destruct name; try apply frames_raise.
  apply (frames_bind n self any any).
  { apply frames_read_only. apply read_only_get_workflow. }
  intros w _.
  apply (frames_bind n self any any); [apply frames_embed_tasks|].
  intros r _. apply frames_read_only. apply read_only_filterM.
  intros t. apply read_only_bind; [apply read_only_get_task|].
  intros tk. apply read_only_ret.
Qed.

(** A call that changes the store has passed [validate_workflow]: the host is
    a Workflow object other than the template. *)
Lemma newSubWorkflow_changes_store (h h' : heap) (self template : loc)
    (params dependency name : pyval) (r : outcome (list loc)) :
  newSubWorkflow self (VRef template) params dependency name h = (r, h') ->
  h' = h \/
  (template <> self /\ exists host, h !! self = Some (OWorkflow host)).
Proof.
  intros E. unfold newSubWorkflow, bind at 1 in E.
  rewrite (read_only_eq _ h
             (read_only_newSubWorkflow_parameter_check params dependency name))
    in E.
  destruct (fst (newSubWorkflow_parameter_check params dependency name h));
    [|left; inversion E; reflexivity].
  unfold bind at 1 in E.
  destruct (validate_workflow self (VRef template) h) as [[[]|e] h1] eqn:V.
  - right. unfold validate_workflow, bind at 1, isinstance_Workflow in V.
    destruct (h !! template) as [[|wt|]|] eqn:Ht; try discriminate.
    simpl in V. unfold bind at 1, get_workflow at 1 in V.
    destruct (h !! self) as [[|ws|]|] eqn:Hs; try discriminate.
    unfold bind at 1, get_workflow at 1 in V. rewrite Ht in V.
    destruct (String.eqb (w_name ws) (w_name wt)) eqn:En; [discriminate|].
    split.
    + intros ->. rewrite Ht in Hs. inversion Hs; subst.
      rewrite String.eqb_refl in En. discriminate.
    + exists ws. reflexivity.
  - left. pose proof (read_only_validate_workflow self (VRef template) h) as R.
    rewrite V in R. simpl in R. inversion E; subst. reflexivity.
Qed.

(** C10. Whatever an embedding call does (return the list of clones, or
    raise after some clones were attached), the template is left as it was:
    the template Workflow object (name, task sequence, counter), every Task
    object of its sequence (name, operator, flattened arguments, list of
    edges) and every edge dictionary of these tasks are the same objects with
    the same contents before and after the call. *)
Theorem newSubWorkflow_template_unchanged
    (h h' : heap) (self template : loc) (params dependency name : pyval)
    (r : outcome (list loc)) (w : Workflow) :
  newSubWorkflow self (VRef template) params dependency name h = (r, h') ->
  h !! template = Some (OWorkflow w) ->
  h' !! template = Some (OWorkflow w) /\
  forall lt t, In lt (w_tasks w) -> h !! lt = Some (OTask t) ->
    h' !! lt = Some (OTask t) /\
    forall ld d, In ld (t_dependencies t) -> h !! ld = Some (ODict d) ->
      h' !! ld = Some (ODict d).
Proof.
  intros E Hw.
  destruct (newSubWorkflow_changes_store h h' self template params dependency
              name r E) as [->|[Hne [host Hs]]].
  - split; [exact Hw|]. intros lt t _ Ht. split; [exact Ht|].
    intros ld d _ Hd. exact Hd.
  - destruct (frames_newSubWorkflow (length h) self (VRef template) params
                dependency name h r h' (le_n _) E) as [[_ P] _].
    assert (Keep : forall l o, h !! l = Some o -> l <> self -> h' !! l = Some o).
    { intros l o Hl Hn. rewrite <- Hl. apply P; [|exact Hn].
      apply lookup_lt_Some in Hl. exact Hl. }
    split; [apply Keep; assumption|].
    intros lt t _ Ht. split.
    + apply Keep; [exact Ht|]. intros ->. rewrite Hs in Ht. discriminate.
    + intros ld d _ Hd. apply Keep; [exact Hd|].
      intros ->. rewrite Hs in Hd. discriminate.
Qed.

Lemma newSubWorkflow_template_unchanged_witness :
  snd (newSubWorkflow 0 (VRef 1) (VDict []) (VDict []) (VStr "sub")
         template_store) !! 1
    = Some (OWorkflow (mkWorkflow "template" None None [2; 3] 3 [])) /\
  forall lt t, In lt [2; 3] -> template_store !! lt = Some (OTask t) ->
    snd (newSubWorkflow 0 (VRef 1) (VDict []) (VDict []) (VStr "sub")
           template_store) !! lt = Some (OTask t) /\
    forall ld d, In ld (t_dependencies t) ->
      template_store !! ld = Some (ODict d) ->
      snd (newSubWorkflow 0 (VRef 1) (VDict []) (VDict []) (VStr "sub")
             template_store) !! ld = Some (ODict d).
Proof.
  apply (newSubWorkflow_template_unchanged template_store _ 0 1
           (VDict []) (VDict []) (VStr "sub")
           (fst (newSubWorkflow 0 (VRef 1) (VDict []) (VDict []) (VStr "sub")
                   template_store))
           (mkWorkflow "template" None None [2; 3] 3 [])).
  - apply surjective_pairing.
  - reflexivity.
Defined.

(** ** The embedding on the examples of the specification *)

(** C1 (the code departs from the claim). On the two-task template, with
    [params = {}], [dependency = {}] and [name = "sub"], the host gains the
    tasks ["sub_A"] and ["sub_B"] in that order and ["sub_B"] carries an
    ["all"] edge to ["sub_A"] bound to ["x"]; but the returned list holds
    both clones, [sub_A] and [sub_B]: the final filter compares the new names
    with the names the template's edges point to (["A"]), which no clone
    bears. *)
Theorem newSubWorkflow_two_task_template_returns_both :
  newSubWorkflow 0 (VRef 1) (VDict []) (VDict []) (VStr "sub") template_store
  = (Ok [5; 6],
     [OWorkflow (mkWorkflow "host" None None [5; 6] 3 []);
      OWorkflow (mkWorkflow "template" None None [2; 3] 3 []);
      OTask (mkTask "ophidia" (Some "A") "oph_a" [] [] []);
      OTask (mkTask "ophidia" (Some "B") "oph_b" ["k=v"] [4] []);
      ODict (all_edge "x" (Some "A"));
      OTask (mkTask "ophidia" (Some "sub_A") "oph_a" [] [] []);
      OTask (mkTask "ophidia" (Some "sub_B") "oph_b" ["k=v"] [7] []);
      ODict (all_edge "x" (Some "sub_A"))]).
Proof. vm_compute. reflexivity. Qed.

(** [newTask] with a [dependencies] map of one entry never succeeds when the
    key is a task name, and never when the value is empty or absent,
    whatever the key: a name is not a Task object, and an empty or absent
    value makes [newTask] call [addDependency] without [argument].  The new
    Task object has been built, is not attached, and the call raises. *)
Theorem newTask_dependencies_raise
    (h : heap) (self : loc) (op : string) (m : list (string * string))
    (name : option string) (kwargs : list (string * pyval))
    (T a : string) (k : pyval) :
  newTask self (VStr op) (VDict (as_dict m)) (VDict [(VStr T, VStr a)])
    (val_of_name name) kwargs h
  = (Raise (AttributeError (if String.eqb a "" then "argument must be string"
                            else "task must be Task object")),
     h ++ [OTask (mkTask "ophidia" name op (flatten m) [] [])]) /\
  newTask self (VStr op) (VDict (as_dict m)) (VDict [(k, VStr "")])
    (val_of_name name) kwargs h
  = (Raise (AttributeError "argument must be string"),
     h ++ [OTask (mkTask "ophidia" name op (flatten m) [] [])]) /\
  newTask self (VStr op) (VDict (as_dict m)) (VDict [(k, VNone)])
    (val_of_name name) kwargs h
  = (Raise (AttributeError "argument must be string"),
     h ++ [OTask (mkTask "ophidia" name op (flatten m) [] [])]).
Proof.
  assert (Hcheck : forall deps,
    newTask_parameter_check (VStr op) (VDict (as_dict m)) (VDict deps)
      (val_of_name name) h = (Ok tt, h)).
  { intros deps. unfold newTask_parameter_check. destruct name; reflexivity. }
  assert (Hname : as_str (val_of_name name) = name)
    by (destruct name; reflexivity).
  assert (Hinit :
    Task_init op (as_dict m) name None [] h
    = (Ok (length h),
       h ++ [OTask (mkTask "ophidia" name op (flatten m) [] [])])).
  { unfold Task_init. simpl. rewrite format_arguments_strings. reflexivity. }
  repeat split.
  - unfold newTask, bind at 1. rewrite Hcheck.
    unfold bind at 1. rewrite Hname, Hinit.
    unfold bind at 1. cbn [truthy forM_ fst snd].
    unfold bind at 1. destruct (String.eqb a "") eqn:E; cbn [negb].
    + rewrite addDependency_not_string by reflexivity. reflexivity.
    + unfold addDependency, bind at 1.
      unfold addDependency_parameter_check. cbn [isinstance_str negb].
      unfold bind at 1. unfold isinstance_Task. reflexivity.
  - unfold newTask, bind at 1. rewrite Hcheck.
    unfold bind at 1. rewrite Hname, Hinit.
    unfold bind at 1. cbn [truthy forM_ fst snd String.eqb negb].
    unfold bind at 1.
    rewrite addDependency_not_string by reflexivity. reflexivity.
  - unfold newTask, bind at 1. rewrite Hcheck.
    unfold bind at 1. rewrite Hname, Hinit.
    unfold bind at 1. cbn [truthy forM_ fst snd].
    unfold bind at 1.
    rewrite addDependency_not_string by reflexivity. reflexivity.
Qed.

Lemma heap_insert_last (h : heap) (o o' : obj) (r : list obj) :
  <[length h := o']> (h ++ o :: r) = h ++ o' :: r.
Proof.
  etransitivity; [apply (insert_app_r_alt h (o :: r) (length h) o'); lia|].
  rewrite Nat.sub_diag. reflexivity.
Qed.

Lemma heap_lookup_app_l (h r : heap) (l : loc) (o : obj) :
  h !! l = Some o -> (h ++ r) !! l = Some o.
Proof. intros H. apply lookup_app_l_Some. exact H. Qed.

Lemma heap_lookup_second (h : heap) (o1 o2 : obj) :
  (h ++ [o1; o2]) !! S (length h) = Some o2.
Proof.
  rewrite lookup_app_r by lia.
  replace (S (length h) - length h) with 1 by lia. reflexivity.
Qed.

Lemma task_names_cons (x : loc) (ls : list loc) (h : heap) :
  fst (task_names (x :: ls) h) =
    match h !! x with
    | Some (OTask t) =>
        match fst (task_names ls h) with
        | Ok r => Ok (t_name t :: r)
        | Raise e => Raise e
        end
    | _ => Raise OutsideModel
    end.
Proof.
  unfold task_names. simpl. unfold bind at 1. unfold bind at 1.
  unfold get_task at 1.
  destruct (h !! x) as [[t| |]|]; try reflexivity.
  unfold ret at 1. unfold bind at 1.
  fold (task_names ls).
  rewrite (read_only_eq (task_names ls) h (read_only_task_names ls)).
  destruct (fst (task_names ls h)); reflexivity.
Qed.

Lemma task_names_ext (ls : list loc) (h h' : heap) :
  (forall l, In l ls -> h' !! l = h !! l) ->
  fst (task_names ls h') = fst (task_names ls h).
Proof.
  induction ls as [|x ls IH]; intros Hext; [reflexivity|].
  rewrite !task_names_cons, Hext by (left; reflexivity).
  rewrite IH; [reflexivity|]. intros l Hl. apply Hext. right. exact Hl.
Qed.

Lemma task_names_In (ls : list loc) (h : heap) (names : list (option string))
    (l : loc) (g : Task) :
  fst (task_names ls h) = Ok names -> In l ls -> h !! l = Some (OTask g) ->
  In (t_name g) names.
Proof.
  revert names. induction ls as [|x ls IH]; intros names Hn Hin Hl;
    [destruct Hin|].
  rewrite task_names_cons in Hn.
  destruct (h !! x) as [[t| |]|] eqn:Hx; try discriminate.
  destruct (fst (task_names ls h)) as [r|e] eqn:Hr; [|discriminate].
  inversion Hn; subst names. destruct Hin as [->|Hin].
  - rewrite Hx in Hl. inversion Hl; subst. left. reflexivity.
  - right. apply (IH r eq_refl Hin Hl).
Qed.

(** C4. For a Workflow [w] whose attached tasks include the Task object [T],
    a string operator, a dictionary of string arguments, a name that is
    absent or not yet used in [w] (the resolved name is new), allowed
    options, and a [dependencies] map whose single key is the Task object
    [T] with a non-empty string [a] as value, [newTask] succeeds: it returns
    the created task, attached to [w] as its last task, and that task
    carries exactly one edge, an ["all"] edge bound to [a] that names [T]. *)
Theorem newTask_task_key_all_edge
    (h : heap) (self T : loc) (w : Workflow) (g : Task)
    (names : list (option string)) (op a : string)
    (m : list (string * string)) (name : option string)
    (kwargs : list (string * pyval)) :
  h !! self = Some (OWorkflow w) ->
  h !! T = Some (OTask g) ->
  In T (w_tasks w) ->
  task_names (w_tasks w) h = (Ok names, h) ->
  a <> "" ->
  ~ In (new_name w name) names ->
  unknown_option Workflow_task_attributes kwargs = None ->
  newTask self (VStr op) (VDict (as_dict m)) (VDict [(VRef T, VStr a)])
    (val_of_name name) kwargs h
  = (Ok (length h),
     <[self := OWorkflow (attach w (length h))]>
       (h ++ [OTask (mkTask "ophidia" (new_name w name) op (flatten m)
                       [S (length h)] (dict_update [] kwargs));
              ODict (all_edge a (t_name g))])).
Proof.
  intros Hs HT Hin Hn Ha Hfresh Hk.
  assert (Hcheck :
    newTask_parameter_check (VStr op) (VDict (as_dict m))
      (VDict [(VRef T, VStr a)]) (val_of_name name) h = (Ok tt, h)).
  { unfold newTask_parameter_check. destruct name; reflexivity. }
  assert (Hname : as_str (val_of_name name) = name)
    by (destruct name; reflexivity).
  assert (Hinit :
    Task_init op (as_dict m) name None [] h
    = (Ok (length h),
       h ++ [OTask (mkTask "ophidia" name op (flatten m) [] [])])).
  { unfold Task_init. simpl. rewrite format_arguments_strings. reflexivity. }
  assert (Hself : self < length h) by (apply lookup_lt_Some in Hs; exact Hs).
  unfold newTask, bind at 1. rewrite Hcheck.
  unfold bind at 1. rewrite Hname, Hinit.
  unfold bind at 1. cbn [truthy forM_ fst snd].
  unfold bind at 1.
  assert (Htr : negb (String.eqb a "") = true).
  { destruct (String.eqb a "") eqn:E; [|reflexivity].
    apply String.eqb_eq in E. contradiction. }
  rewrite Htr.
  rewrite (addDependency_string _ (length h) T
             (mkTask "ophidia" name op (flatten m) [] []) g a
             (lookup_alloc h _) (lookup_after_alloc h _ _ T HT)).
  apply negb_true_iff in Htr. rewrite Htr.
  rewrite length_app. cbn [length]. rewrite Nat.add_1_r.
  rewrite <- app_assoc. cbn [app].
  unfold append_dependency. cbn [t_type t_name t_operator t_arguments
    t_dependencies t_options app].
  rewrite heap_insert_last.
  unfold ret at 1. unfold bind at 1. rewrite Hk. unfold ret at 1.
  unfold bind at 1. unfold get_task at 1.
  assert (Hlast : forall (o : obj) (r : list obj),
            (h ++ o :: r) !! length h = Some o).
  { intros o r. rewrite lookup_app_r by lia. rewrite Nat.sub_diag.
    reflexivity. }
  rewrite Hlast.
  unfold bind at 1. unfold put at 1. rewrite heap_insert_last.
  unfold set_options. cbn [t_type t_name t_operator t_arguments
    t_dependencies t_options].
  unfold bind at 1.
  set (t2 := mkTask "ophidia" name op (flatten m) [S (length h)]
               (dict_update [] kwargs)).
  set (e := ODict (all_edge a (t_name g))).
  assert (Hs3 : (h ++ [OTask t2; e]) !! self = Some (OWorkflow w))
    by (apply lookup_app_l_Some; exact Hs).
  match goal with
  | |- context [addTask self (length h) ?x] =>
      change x with (h ++ [OTask t2; e])
  end.
  rewrite (addTask_checks (h ++ [OTask t2; e]) self (length h) w t2 Hs3
             (Hlast _ _)).
  set (t3 := mkTask "ophidia" (new_name w name) op (flatten m) [S (length h)]
               (dict_update [] kwargs)).
  assert (H4 : name_assigned w t2 (length h) (h ++ [OTask t2; e])
               = h ++ [OTask t3; e]).
  { unfold name_assigned, resolved_name, t2, t3, new_name. cbn [t_name].
    destruct name; [reflexivity|]. unfold set_name.
    cbn [t_type t_name t_operator t_arguments t_dependencies t_options].
    apply heap_insert_last. }
  rewrite H4.
  assert (Hold : forall l o, h !! l = Some o ->
            (h ++ [OTask t3; e]) !! l = Some o).
  { intros l o Hl. apply lookup_app_l_Some. exact Hl. }
  assert (Hn4 : fst (task_names (w_tasks w) (h ++ [OTask t3; e])) = Ok names).
  { rewrite (task_names_ext (w_tasks w) h).
    - rewrite Hn. reflexivity.
    - intros l Hl.
      destruct (task_names_ok_tasks (w_tasks w) h names) with (l := l)
        as [tl Htl]; [rewrite Hn; reflexivity|exact Hl|].
      rewrite Htl. apply Hold. exact Htl. }
  rewrite Hn4.
  assert (Hres : resolved_name w t2 = new_name w name) by reflexivity.
  rewrite Hres.
  apply mem_name_not_In in Hfresh. rewrite Hfresh.
  cbn [t_dependencies t2 forM_].
  unfold bind at 1. unfold bind at 1. unfold check_dependency at 1.
  unfold bind at 1. unfold get_edge at 1.
  rewrite heap_lookup_second. unfold e at 1. cbn [all_edge subscript assoc_get String.eqb
    Ascii.eqb Bool.eqb].
  unfold bind at 1. unfold ret at 1. unfold bind at 1.
  rewrite (read_only_eq (task_names (w_tasks w)) _
             (read_only_task_names (w_tasks w))), Hn4.
  assert (Hg : mem_name (t_name g) names = true).
  { apply mem_name_In.
    apply (task_names_In (w_tasks w) h names T g);
      [rewrite Hn; reflexivity|exact Hin|exact HT]. }
  rewrite Hg. cbn [negb]. unfold ret at 1. unfold ret at 1.
  unfold bind at 1. unfold get_workflow at 1.
  rewrite (heap_lookup_app_l h _ self _ Hs). unfold put, ret. reflexivity.
Qed.

Lemma newTask_task_key_all_edge_witness :
  newTask 0 (VStr "oph_reduce") (VDict (as_dict [("operation", "avg")]))
    (VDict [(VRef 1, VStr "cube")]) (val_of_name None) [] anchored_store
  = (Ok 4,
     [OWorkflow (mkWorkflow "host" None None [1; 4] 3 []);
      OTask (mkTask "ophidia" (Some "t0") "oph_0" [] [] []);
      OWorkflow (mkWorkflow "template" None None [3] 2 []);
      OTask (mkTask "ophidia" (Some "A") "oph_a" [] [] []);
      OTask (mkTask "ophidia" (Some "host_2") "oph_reduce" ["operation=avg"]
               [5] []);
      ODict (all_edge "cube" (Some "t0"))]).
Proof.
  apply (newTask_task_key_all_edge anchored_store 0 1 _ _ [Some "t0"]
           "oph_reduce" "cube" [("operation", "avg")] None []
           eq_refl eq_refl).
  - left. reflexivity.
  - reflexivity.
  - discriminate.
  - simpl. intros [H|[]]. discriminate.
  - reflexivity.
Defined.

(** C4, the claim as stated fails: with the name ["t0"] of the attached task
    as key, [addDependency] rejects the key, which is not a Task object; and
    with the Task object as key, a [name] already used in the workflow makes
    [addTask] reject the new task. *)
Lemma newTask_name_key_rejected :
  fst (newTask 0 (VStr "oph_reduce") (VDict []) (VDict [(VStr "t0", VStr "cube")])
         VNone [] anchored_store)
    = Raise (AttributeError "task must be Task object") /\
  fst (newTask 0 (VStr "oph_reduce") (VDict []) (VDict [(VRef 1, VStr "cube")])
         (VStr "t0") [] anchored_store)
    = Raise DuplicateNameError.
Proof. split; vm_compute; reflexivity. Qed.

(** The loop of [find_root_tasks_add_dependencies] hands the first key of
    the [dependency] map to [dependency_check]; a key is not a dictionary. *)
Lemma find_root_tasks_first_key_rejected (h : heap) (task new_task : loc)
    (t : Task) (k v : pyval) (rest : list (pyval * pyval)) :
  h !! task = Some (OTask t) ->
  t_dependencies t = [] ->
  isinstance_dict k = false ->
  find_root_tasks_add_dependencies task (VDict ((k, v) :: rest)) new_task h
  = (Raise (AttributeError "dependency must be a list"), h).
Proof.
  intros Ht Hd Hk.
  unfold find_root_tasks_add_dependencies, bind at 1, get_task at 1.
  rewrite Ht, Hd. simpl. unfold bind at 1. unfold bind at 1.
  destruct k; try discriminate; reflexivity.
Qed.

(** C5 (the code departs from the claim). With a well-formed non-empty
    [dependency] map (["task"] alone, ["task"] with ["argument"], the target
    given by name or as a Task object) the clone of the root task receives no
    edge: the call raises at the first root task, after the clone has been
    built and before it is attached, because the loop visits the keys of the
    map and each key fails the dictionary test of [dependency_check].  A map
    with three keys is rejected the same way on a template with a root task,
    and not at all on a template without tasks. *)
Theorem newSubWorkflow_dependency_map_rejected :
  newSubWorkflow 0 (VRef 2) (VDict []) (VDict [(VStr "task", VStr "t0")])
    (VStr "sub") anchored_store
  = (Raise (AttributeError "dependency must be a list"),
     anchored_store
       ++ [OTask (mkTask "ophidia" (Some "sub_A") "oph_a" [] [] [])]) /\
  newSubWorkflow 0 (VRef 2) (VDict [])
    (VDict [(VStr "task", VRef 1); (VStr "argument", VStr "x")])
    (VStr "sub") anchored_store
  = (Raise (AttributeError "dependency must be a list"),
     anchored_store
       ++ [OTask (mkTask "ophidia" (Some "sub_A") "oph_a" [] [] [])]) /\
  newSubWorkflow 0 (VRef 2) (VDict [])
    (VDict [(VStr "task", VStr "t0"); (VStr "argument", VStr "x");
            (VStr "type", VStr "all")])
    (VStr "sub") anchored_store
  = (Raise (AttributeError "dependency must be a list"),
     anchored_store
       ++ [OTask (mkTask "ophidia" (Some "sub_A") "oph_a" [] [] [])]) /\
  newSubWorkflow 1 (VRef 0) (VDict [])
    (VDict [(VStr "task", VStr "t0"); (VStr "argument", VStr "x");
            (VStr "type", VStr "all")])
    (VStr "sub") template_store
  = (Ok [], template_store).
Proof. repeat split; vm_compute; reflexivity. Qed.

(** C6 (the code departs from the claim). For the template argument
    [{"$size": "10"}] and [params = {"$size": "big"}] the first loop of
    [check_replace_args] stores the value under the new key ["big"], and the
    second loop stores it again under the key of the template: the clone gets
    the two entries ["big=10"] and ["$size=10"], not the mapping
    [{"big": "10"}] alone. *)
Theorem check_replace_args_keeps_template_key :
  check_replace_args [(VStr "$size", VStr "big")] [("$size", "10")]
  = Ok [("big", "10"); ("$size", "10")] /\
  newSubWorkflow 0 (VRef 1) (VDict [(VStr "$size", VStr "big")]) (VDict [])
    (VStr "sub") size_store
  = (Ok [3],
     [OWorkflow (mkWorkflow "host" None None [3] 2 []);
      OWorkflow (mkWorkflow "template" None None [2] 2 []);
      OTask (mkTask "ophidia" (Some "A") "oph_a" ["$size=10"] [] []);
      OTask (mkTask "ophidia" (Some "sub_A") "oph_a"
               ["big=10"; "$size=10"] [] [])]).
Proof. split; vm_compute; reflexivity. Qed.

(** * Further properties of the code *)

(** ** Task.reverted_arguments *)

Lemma split_on_nonempty (c : ascii) (s : string) :
  exists p ps, split_on c s = p :: ps.
Proof.
  destruct s as [|a s]; simpl; [eexists; eexists; reflexivity|].
  destruct (Ascii.eqb a c); [eexists; eexists; reflexivity|].
  destruct (split_on c s); eexists; eexists; reflexivity.
Qed.

Lemma split_on_two_pieces (c : ascii) (s : string) :
  has_char c s = true -> exists k v rest, split_on c s = k :: v :: rest.
Proof.
  induction s as [|a s IH]; simpl; [discriminate|].
  destruct (Ascii.eqb a c).
  - intros _. destruct (split_on_nonempty c s) as (p & ps & E).
    rewrite E. eexists; eexists; eexists; reflexivity.
  - intros H. destruct (IH H) as (k & v & rest & E). rewrite E.
    eexists; eexists; eexists; reflexivity.
Qed.

Lemma split_on_flat_cut (k v : string) :
  has_char sep k = false ->
  exists rest, split_on sep (k +++ "=" +++ v) = k :: before_sep v :: rest.
Proof.
  intros Hk. change (k +++ "=" +++ v) with (k +++ String sep v).
  rewrite (split_on_key_value sep k v Hk). unfold before_sep.
  destruct (split_on_nonempty sep v) as (p & ps & E). rewrite E.
  exists ps. reflexivity.
Qed.

Lemma before_sep_cut (v1 v2 : string) :
  has_char sep v1 = false -> before_sep (v1 +++ "=" +++ v2) = v1.
Proof.
  intros H. unfold before_sep.
  change (v1 +++ "=" +++ v2) with (v1 +++ String sep v2).
  rewrite (split_on_key_value sep v1 v2 H). reflexivity.
Qed.

Lemma before_sep_free (v : string) :
  has_char sep v = false -> before_sep v = v.
Proof.
  intros H. unfold before_sep. rewrite (split_on_no_sep sep v H). reflexivity.
Qed.

Lemma revert_list_cut (m acc : list (string * string)) :
  List.NoDup (map fst (acc ++ m)) ->
  (forall k v, In (k, v) m -> has_char sep k = false) ->
  revert_list (flatten m) acc
  = Ok (acc ++ map (fun kv => (fst kv, before_sep (snd kv))) m).
Proof.
  revert acc. induction m as [|[k v] m IH]; intros acc Hnd Hfree.
  - simpl. rewrite app_nil_r. reflexivity.
  - assert (Hk : has_char sep k = false) by (apply (Hfree k v); left; reflexivity).
    cbn [flatten map revert_list fst snd].
    destruct (split_on_flat_cut k v Hk) as [rest E]. rewrite E.
    fold (flatten m).
    rewrite assoc_set_fresh.
    + replace (acc ++ (k, before_sep v)
                 :: map (fun kv => (fst kv, before_sep (snd kv))) m)
        with ((acc ++ [(k, before_sep v)])
                ++ map (fun kv => (fst kv, before_sep (snd kv))) m)
        by (rewrite <- app_assoc; reflexivity).
      apply IH.
      * rewrite <- app_assoc. simpl. rewrite map_app in *. simpl in *.
        exact Hnd.
      * intros k' v' Hin. apply (Hfree k' v'). right. exact Hin.
    + rewrite map_app in Hnd. simpl in Hnd.
      apply NoDup_remove_2 in Hnd.
      intros Hin. apply Hnd. apply in_or_app. left. exact Hin.
Qed.

(** X1. The round trip through the ["key=value"] list keeps the keys and
    their order but cuts every value at its first ["="]: the constructor
    followed by [reverted_arguments] maps each key (free of ["="]) to the part
    of its value before the first ["="], so a value [v1=v2] comes back as
    [v1]. *)
Theorem reverted_arguments_cuts_values
    (m : list (string * string)) (operator : string)
    (name type : option string) (h : heap) :
  List.NoDup (map fst m) ->
  (forall k v, In (k, v) m -> has_char sep k = false) ->
  (exists h',
     Task_init operator (as_dict m) name type [] h = (Ok (length h), h') /\
     reverted_arguments (length h) h'
     = (Ok (map (fun kv => (fst kv, before_sep (snd kv))) m), h')) /\
  (forall v1 v2, has_char sep v1 = false ->
     before_sep (v1 +++ "=" +++ v2) = v1) /\
  (forall v, has_char sep v = false -> before_sep v = v).
Proof.
  intros Hnd Hfree. split; [|split].
  - unfold Task_init. simpl. rewrite format_arguments_strings.
    eexists. split; [reflexivity|].
    unfold reverted_arguments, bind, get_task, lift.
    rewrite lookup_alloc. simpl.
    rewrite (revert_list_cut m []); [reflexivity|exact Hnd|exact Hfree].
  - exact before_sep_cut.
  - exact before_sep_free.
Qed.

Lemma reverted_arguments_cuts_values_witness :
  exists h',
    Task_init "oph_apply" (as_dict [("query", "oph_sum(x)=y"); ("dim", "time")])
      (Some "t1") None [] [] = (Ok 0, h') /\
    reverted_arguments 0 h'
    = (Ok [("query", "oph_sum(x)"); ("dim", "time")], h').
Proof.
  exact (proj1 (reverted_arguments_cuts_values
                  [("query", "oph_sum(x)=y"); ("dim", "time")]
                  "oph_apply" (Some "t1") None []
                  ltac:(repeat constructor; simpl; intuition discriminate)
                  ltac:(intros k v [H|[H|[]]]; inversion H; reflexivity))).
Defined.

Lemma revert_list_missing_separator (args : list string)
    (acc : list (string * string)) :
  (exists a, In a args /\ has_char sep a = false) ->
  revert_list args acc = Raise IndexError.
Proof.
  revert acc. induction args as [|x args IH]; intros acc [a [Hin Ha]].
  - destruct Hin.
  - simpl. destruct (has_char sep x) eqn:Hx.
    + destruct (split_on_two_pieces sep x Hx) as (k & v & rest & E).
      rewrite E. apply IH. exists a. split; [|exact Ha].
      destruct Hin as [->|Hin]; [congruence|exact Hin].
    + rewrite (split_on_no_sep sep x Hx). reflexivity.
Qed.

(** X2. If one of the strings of a task's [arguments] list holds no ["="],
    [reverted_arguments] raises [IndexError] (the second piece of the split
    is missing), whatever the other strings are; the store is unchanged. *)
Theorem reverted_arguments_missing_separator
    (h : heap) (self : loc) (t : Task) :
  h !! self = Some (OTask t) ->
  (exists a, In a (t_arguments t) /\ has_char sep a = false) ->
  reverted_arguments self h = (Raise IndexError, h).
Proof.
  intros Ht Hex. unfold reverted_arguments, bind, get_task, lift.
  rewrite Ht. rewrite (revert_list_missing_separator _ [] Hex). reflexivity.
Qed.

Lemma reverted_arguments_missing_separator_witness :
  reverted_arguments 0
    [OTask (mkTask "ophidia" (Some "t") "op" ["a=1"; "flag"] [] [])]
  = (Raise IndexError,
     [OTask (mkTask "ophidia" (Some "t") "op" ["a=1"; "flag"] [] [])]).
Proof.
  apply (reverted_arguments_missing_separator
           [OTask (mkTask "ophidia" (Some "t") "op" ["a=1"; "flag"] [] [])] 0
           (mkTask "ophidia" (Some "t") "op" ["a=1"; "flag"] [] []) eq_refl).
  exists "flag". split; [right; left; reflexivity|reflexivity].
Defined.

Lemma assoc_get_set_eq {V} (k : string) (v : V) (d : list (string * V)) :
  assoc_get String.eqb k (assoc_set String.eqb k v d) = Some v.
Proof.
  induction d as [|[k' v'] d IH]; simpl.
  - rewrite String.eqb_refl. reflexivity.
  - destruct (String.eqb k' k) eqn:E; simpl; rewrite E; [reflexivity|exact IH].
Qed.

Lemma assoc_get_set_ne {V} (k k' : string) (v : V) (d : list (string * V)) :
  k <> k' ->
  assoc_get String.eqb k' (assoc_set String.eqb k v d)
  = assoc_get String.eqb k' d.
Proof.
  intros Hne. induction d as [|[k0 v0] d IH]; simpl.
  - destruct (String.eqb k k') eqn:E; [|reflexivity].
    apply String.eqb_eq in E. contradiction.
  - destruct (String.eqb k0 k) eqn:E; simpl.
    + apply String.eqb_eq in E. subst k0.
      destruct (String.eqb k k') eqn:E'; [|reflexivity].
      apply String.eqb_eq in E'. contradiction.
    + rewrite IH. reflexivity.
Qed.

Lemma assoc_get_In {V} (k : string) (v : V) (d : list (string * V)) :
  assoc_get String.eqb k d = Some v -> In (k, v) d.
Proof.
  induction d as [|[k' v'] d IH]; simpl; [discriminate|].
  destruct (String.eqb k' k) eqn:E.
  - intros H. inversion H; subst. apply String.eqb_eq in E. subst.
    left. reflexivity.
  - intros H. right. apply IH. exact H.
Qed.

Lemma assoc_get_present {V} (k : string) (v : V) (d : list (string * V)) :
  List.NoDup (map fst d) -> In (k, v) d -> assoc_get String.eqb k d = Some v.
Proof.
  induction d as [|[k' v'] d IH]; simpl; intros Hnd Hin; [destruct Hin|].
  inversion Hnd as [|x l Hx Hnd']; subst.
  destruct Hin as [Heq|Hin].
  - inversion Heq; subst. rewrite String.eqb_refl. reflexivity.
  - destruct (String.eqb k' k) eqn:E.
    + apply String.eqb_eq in E. subst. exfalso. apply Hx.
      apply (in_map fst) in Hin. exact Hin.
    + apply IH; assumption.
Qed.

Lemma assoc_set_same {V} (k : string) (v : V) (d : list (string * V)) :
  assoc_get String.eqb k d = Some v -> assoc_set String.eqb k v d = d.
Proof.
  induction d as [|[k' v'] d IH]; simpl; [discriminate|].
  destruct (String.eqb k' k) eqn:E.
  - intros H. inversion H; subst. reflexivity.
  - intros H. rewrite (IH H). reflexivity.
Qed.

Lemma assoc_set_keys {V} (k : string) (v : V) (d : list (string * V)) :
  map fst (assoc_set String.eqb k v d) = map fst d \/
  (~ In k (map fst d) /\
   map fst (assoc_set String.eqb k v d) = map fst d ++ [k]).
Proof.
  induction d as [|[k' v'] d IH]; simpl.
  - right. split; [intros []|reflexivity].
  - destruct (String.eqb k' k) eqn:E; simpl.
    + left. reflexivity.
    + destruct IH as [IH|[Hn IH]].
      * left. rewrite IH. reflexivity.
      * right. split.
        -- intros [Heq|Hin]; [|contradiction].
           subst. rewrite String.eqb_refl in E. discriminate.
        -- rewrite IH. reflexivity.
Qed.

Lemma assoc_set_NoDup {V} (k : string) (v : V) (d : list (string * V)) :
  List.NoDup (map fst d) -> List.NoDup (map fst (assoc_set String.eqb k v d)).
Proof.
  intros Hnd. destruct (assoc_set_keys k v d) as [E|[Hn E]]; rewrite E.
  - exact Hnd.
  - apply NoDup_ListNoDup. apply NoDup_app. repeat split.
    + apply NoDup_ListNoDup. exact Hnd.
    + intros x Hx Hx'. apply list_elem_of_In in Hx.
      apply list_elem_of_In in Hx'. destruct Hx' as [<-|[]]. contradiction.
    + apply NoDup_ListNoDup. repeat constructor. intros [].
Qed.

Lemma revert_list_NoDup (args : list string) (acc r : list (string * string)) :
  List.NoDup (map fst acc) -> revert_list args acc = Ok r ->
  List.NoDup (map fst r).
Proof.
  revert acc. induction args as [|a args IH]; intros acc Hnd H; simpl in H.
  - inversion H; subst. exact Hnd.
  - destruct (split_on sep a) as [|k [|v rest]]; try discriminate.
    apply (IH _ (assoc_set_NoDup k v acc Hnd) H).
Qed.

Lemma revert_list_app (l1 l2 : list string) (acc : list (string * string)) :
  revert_list (l1 ++ l2) acc =
    match revert_list l1 acc with
    | Ok d => revert_list l2 d
    | Raise e => Raise e
    end.
Proof.
  revert acc. induction l1 as [|a l1 IH]; intros acc; simpl; [reflexivity|].
  destruct (split_on sep a) as [|k [|v rest]]; try reflexivity. apply IH.
Qed.

Lemma revert_list_keeps (args : list string) (acc r : list (string * string))
    (k : string) :
  (forall b, In b args -> before_sep b <> k) ->
  revert_list args acc = Ok r ->
  assoc_get String.eqb k r = assoc_get String.eqb k acc.
Proof.
  revert acc. induction args as [|a args IH]; intros acc Hk H; simpl in H.
  - inversion H; subst. reflexivity.
  - pose proof (Hk a (or_introl eq_refl)) as Ha. unfold before_sep in Ha.
    destruct (split_on sep a) as [|k0 [|v rest]]; try discriminate.
    rewrite (IH _ (fun b Hb => Hk b (or_intror Hb)) H).
    apply assoc_get_set_ne. exact Ha.
Qed.

(** X3. The mapping returned by [reverted_arguments] has distinct keys, and
    when several strings of the list have the same key the last one wins: a
    string ["k=v..."] that no later string of the list shares its key with
    makes the result map [k] to [v]. *)
Theorem reverted_arguments_last_wins
    (h h' : heap) (self : loc) (t : Task) (r : list (string * string)) :
  h !! self = Some (OTask t) ->
  reverted_arguments self h = (Ok r, h') ->
  h' = h /\
  List.NoDup (map fst r) /\
  forall pre a post k v rest,
    t_arguments t = pre ++ a :: post ->
    split_on sep a = k :: v :: rest ->
    (forall b, In b post -> before_sep b <> k) ->
    assoc_get String.eqb k r = Some v.
Proof.
  intros Ht H. unfold reverted_arguments, bind, get_task, lift in H.
  rewrite Ht in H. inversion H as [[Hr Hh]]. clear H.
  split; [reflexivity|]. split.
  - apply (revert_list_NoDup (t_arguments t) [] r); [constructor|exact Hr].
  - intros pre a post k v rest Hargs Hsplit Hpost.
    rewrite Hargs, revert_list_app in Hr.
    destruct (revert_list pre []) as [d|e]; [|discriminate].
    simpl in Hr. rewrite Hsplit in Hr.
    rewrite (revert_list_keeps post _ r k Hpost Hr).
    apply assoc_get_set_eq.
Qed.

Lemma reverted_arguments_last_wins_witness :
  assoc_get String.eqb "a"
    (match fst (reverted_arguments 0
                  [OTask (mkTask "ophidia" (Some "t") "op"
                            ["a=1"; "b=2"; "a=3"] [] [])]) with
     | Ok r => r
     | Raise _ => []
     end) = Some "3".
Proof.
  apply (proj2 (proj2 (reverted_arguments_last_wins
    [OTask (mkTask "ophidia" (Some "t") "op" ["a=1"; "b=2"; "a=3"] [] [])]
    [OTask (mkTask "ophidia" (Some "t") "op" ["a=1"; "b=2"; "a=3"] [] [])]
    0 (mkTask "ophidia" (Some "t") "op" ["a=1"; "b=2"; "a=3"] [] [])
    [("a", "3"); ("b", "2")] eq_refl eq_refl))
    ["a=1"; "b=2"] "a=3" [] "a" "3" [] eq_refl eq_refl).
  intros b [].
Defined.

(** ** check_replace_args *)

Lemma replace_keys_cons (params : list (pyval * pyval)) (k v : string)
    (rest acc : list (string * string)) :
  replace_keys params ((k, v) :: rest) acc =
    match replaced params k with
    | Ok k' => replace_keys params rest (assoc_set String.eqb k' v acc)
    | Raise e => Raise e
    end.
Proof.
  unfold replaced. simpl. destruct (re_first k) as [m|]; [|reflexivity].
  destruct (assoc_get val_eqb (VStr m) params) as [repl|]; reflexivity.
Qed.

Lemma replace_values_cons (params : list (pyval * pyval)) (k v : string)
    (rest acc : list (string * string)) :
  replace_values params ((k, v) :: rest) acc =
    match replaced params v with
    | Ok v' => replace_values params rest (assoc_set String.eqb k v' acc)
    | Raise e => Raise e
    end.
Proof.
  unfold replaced. simpl. destruct (re_first v) as [m|]; [|reflexivity].
  destruct (assoc_get val_eqb (VStr m) params) as [repl|]; reflexivity.
Qed.

Lemma replaced_untouched (params : list (pyval * pyval)) (s : string) :
  untouched params s -> replaced params s = Ok s.
Proof.
  unfold untouched, replaced. destruct (re_first s); [|reflexivity].
  intros ->. reflexivity.
Qed.

Lemma replace_keys_untouched (params : list (pyval * pyval))
    (items acc : list (string * string)) :
  (forall k v, In (k, v) items -> untouched params k) ->
  List.NoDup (map fst (acc ++ items)) ->
  replace_keys params items acc = Ok (acc ++ items).
Proof.
  revert acc. induction items as [|[k v] items IH]; intros acc Hu Hnd.
  - simpl. rewrite app_nil_r. reflexivity.
  - rewrite replace_keys_cons.
    rewrite (replaced_untouched params k (Hu k v (or_introl eq_refl))).
    rewrite assoc_set_fresh.
    + replace (acc ++ (k, v) :: items) with ((acc ++ [(k, v)]) ++ items)
        by (rewrite <- app_assoc; reflexivity).
      apply IH.
      * intros k' v' Hin. apply (Hu k' v'). right. exact Hin.
      * rewrite <- app_assoc. exact Hnd.
    + rewrite map_app in Hnd. simpl in Hnd. apply NoDup_remove_2 in Hnd.
      intros Hin. apply Hnd. apply in_or_app. left. exact Hin.
Qed.

Lemma replace_values_untouched (params : list (pyval * pyval))
    (items acc : list (string * string)) :
  (forall k v, In (k, v) items ->
     untouched params v /\ assoc_get String.eqb k acc = Some v) ->
  replace_values params items acc = Ok acc.
Proof.
  induction items as [|[k v] items IH]; intros Hu; [reflexivity|].
  rewrite replace_values_cons.
  destruct (Hu k v (or_introl eq_refl)) as [Hv Hget].
  rewrite (replaced_untouched params v Hv), (assoc_set_same k v acc Hget).
  apply IH. intros k' v' Hin. apply Hu. right. exact Hin.
Qed.

(** X4. When no key and no value of the template mapping has a first match
    that is a key of [params] (in particular when [params] is empty),
    [check_replace_args] returns the mapping itself, entries and order
    unchanged. *)
Theorem check_replace_args_untouched
    (params : list (pyval * pyval)) (m : list (string * string)) :
  List.NoDup (map fst m) ->
  (forall k v, In (k, v) m -> untouched params k /\ untouched params v) ->
  check_replace_args params m = Ok m.
Proof.
  intros Hnd Hu. unfold check_replace_args.
  rewrite (replace_keys_untouched params m []).
  - simpl. apply replace_values_untouched. intros k v Hin. split.
    + apply (Hu k v Hin).
    + apply assoc_get_present; assumption.
  - intros k v Hin. apply (Hu k v Hin).
  - exact Hnd.
Qed.

Lemma check_replace_args_untouched_witness :
  check_replace_args [(VStr "$other", VStr "x")]
    [("$size", "10"); ("dim", "lat|lon")]
  = Ok [("$size", "10"); ("dim", "lat|lon")].
Proof.
  apply check_replace_args_untouched.
  - repeat constructor; simpl; intuition discriminate.
  - intros k v [H|[H|[]]]; inversion H; subst; split; reflexivity.
Defined.






(** For a string without newline, the match is the whole rest of the string
    from its first [$]. *)
Lemma line_prefix_all (s : string) :
  has_char newline s = false -> line_prefix s = s.
Proof.
  induction s as [|a s IH]; simpl; [reflexivity|].
  destruct (Ascii.eqb a newline); [discriminate|].
  intros H. rewrite (IH H). reflexivity.
Qed.

Lemma re_sub_scan_inside (repl s : string) :
  has_char newline s = false -> re_sub_scan repl true s = EmptyString.
Proof.
  induction s as [|a s IH]; simpl; [reflexivity|].
  destruct (Ascii.eqb a newline); [discriminate|]. exact IH.
Qed.

Lemma re_first_suffix (pre rest : string) :
  has_char dollar pre = false ->
  re_first (pre +++ String dollar rest)
  = Some (String dollar (line_prefix rest)).
Proof.
  induction pre as [|a pre IH]; simpl.
  - intros _. reflexivity.
  - destruct (Ascii.eqb a dollar); [discriminate|]. exact IH.
Qed.

Lemma re_sub_suffix (repl pre rest : string) :
  has_char dollar pre = false ->
  has_char newline rest = false ->
  re_sub repl (pre +++ String dollar rest) = pre +++ repl.
Proof.
  intros Hp Hr. unfold re_sub. induction pre as [|a pre IH]; simpl.
  - rewrite (re_sub_scan_inside repl rest Hr).
    induction repl as [|c repl IHr]; simpl; [reflexivity|].
    rewrite IHr. reflexivity.
  - simpl in Hp. destruct (Ascii.eqb a dollar); [discriminate|].
    rewrite (IH Hp). reflexivity.
Qed.

(** X6. A placeholder is replaced only as the tail of a string: for a string
    [pre$rest] whose [rest] has no newline, the match is [$rest] as a whole,
    so the substitution applies when [$rest] itself is a key of [params], and
    the result is [pre] followed by the value of that key (everything after
    the [$] is replaced). *)
Theorem replaced_placeholder_suffix
    (params : list (pyval * pyval)) (pre rest r : string) :
  has_char dollar pre = false ->
  has_char newline rest = false ->
  assoc_get val_eqb (VStr (String dollar rest)) params = Some (VStr r) ->
  has_char backslash r = false ->
  replaced params (pre +++ String dollar rest) = Ok (pre +++ r).
Proof.
  intros Hp Hr Hget Hb. unfold replaced.
  rewrite (re_first_suffix pre rest Hp), (line_prefix_all rest Hr), Hget.
  unfold re_sub_val. rewrite Hb, (re_sub_suffix r pre rest Hp Hr).
  reflexivity.
Qed.

Lemma replaced_placeholder_suffix_witness :
  replaced [(VStr "$year", VStr "2020")] ("tasmax_" +++ String dollar "year")
  = Ok ("tasmax_" +++ "2020").
Proof.
  apply replaced_placeholder_suffix; reflexivity.
Defined.

(** ** Workflow.addTask: success, frame and invariant *)

Lemma task_names_length (tasks : list loc) (h : heap)
    (names : list (option string)) :
  fst (task_names tasks h) = Ok names -> length names = length tasks.
Proof.
  revert names. induction tasks as [|x tasks IH]; intros names H.
  - inversion H. reflexivity.
  - rewrite task_names_cons in H.
    destruct (h !! x) as [[t| |]|]; try discriminate.
    destruct (fst (task_names tasks h)) as [r|e]; [|discriminate].
    inversion H; subst. simpl. rewrite (IH r eq_refl). reflexivity.
Qed.

Lemma task_names_app (l1 l2 : list loc) (h : heap) :
  fst (task_names (l1 ++ l2) h) =
    match fst (task_names l1 h), fst (task_names l2 h) with
    | Ok n1, Ok n2 => Ok (n1 ++ n2)
    | Ok _, Raise e => Raise e
    | Raise e, _ => Raise e
    end.
Proof.
  induction l1 as [|x l1 IH].
  - simpl app. change (fst (task_names [] h)) with (Ok (@nil (option string))).
    destruct (fst (task_names l2 h)); reflexivity.
  - simpl app. rewrite !task_names_cons.
    destruct (h !! x) as [[t| |]|]; try reflexivity.
    rewrite IH.
    destruct (fst (task_names l1 h)); [|reflexivity].
    destruct (fst (task_names l2 h)); reflexivity.
Qed.

Lemma check_dependencies_ok (tasks deps : list loc) (h : heap)
    (names targets : list (option string)) :
  task_names tasks h = (Ok names, h) ->
  mapM (fun dl => let* d := get_edge dl in subscript "task" d) deps h
    = (Ok targets, h) ->
  (forall n, In n targets -> In n names) ->
  forM_ (check_dependency tasks) deps h = (Ok tt, h).
Proof.
  intros Hn. revert targets.
  induction deps as [|dl deps IH]; intros targets Hm Hall; [reflexivity|].
  simpl in Hm. unfold bind at 1 in Hm.
  destruct ((let* d := get_edge dl in subscript "task" d) h)
    as [[target|e] h1] eqn:E1; [|discriminate].
  assert (h1 = h) as ->.
  { pose proof (read_only_bind (get_edge dl) (fun d => subscript "task" d)
      (read_only_get_edge dl) (read_only_subscript "task") h) as R.
    rewrite E1 in R. exact R. }
  unfold bind at 1 in Hm.
  destruct (mapM (fun dl => let* d := get_edge dl in subscript "task" d)
              deps h) as [[rest|e] h2] eqn:E2; [|discriminate].
  assert (h2 = h) as ->.
  { pose proof (read_only_mapM
      (fun dl => let* d := get_edge dl in subscript "task" d) deps) as R.
    specialize (R (fun a => read_only_bind (get_edge a)
      (fun d => subscript "task" d) (read_only_get_edge a)
      (read_only_subscript "task")) h).
    rewrite E2 in R. exact R. }
  inversion Hm; subst targets. clear Hm.
  simpl. unfold bind at 1. unfold check_dependency at 1.
  unfold bind at 1 in E1. unfold bind at 1.
  destruct (get_edge dl h) as [[d|e] h3] eqn:E3; [|discriminate].
  assert (h3 = h) as ->.
  { pose proof (read_only_get_edge dl h) as R. rewrite E3 in R. exact R. }
  unfold bind at 1. rewrite E1. unfold bind at 1. rewrite Hn.
  assert (Hin : mem_name target names = true).
  { apply mem_name_In. apply Hall. left. reflexivity. }
  rewrite Hin. simpl.
  apply (IH rest eq_refl). intros n Hn'. apply Hall. right. exact Hn'.
Qed.

(** The run of [addTask] on a task that passes both checks. *)
Lemma addTask_attaches
    (h : heap) (self task : loc) (w : Workflow) (t : Task)
    (names targets : list (option string)) :
  h !! self = Some (OWorkflow w) ->
  h !! task = Some (OTask t) ->
  task_names (w_tasks w) (name_assigned w t task h)
    = (Ok names, name_assigned w t task h) ->
  ~ In (resolved_name w t) names ->
  dependency_targets task (name_assigned w t task h)
    = (Ok targets, name_assigned w t task h) ->
  (forall n, In n targets -> In n names) ->
  addTask self task h
  = (Ok tt,
     <[self := OWorkflow (attach w task)]> (name_assigned w t task h)).
Proof.
  intros Hs Ht Hn Hfresh Hd Hall.
  assert (Hne : self <> task) by (intros ->; rewrite Hs in Ht; discriminate).
  rewrite (addTask_checks h self task w t Hs Ht), Hn. cbn [fst].
  apply mem_name_not_In in Hfresh. rewrite Hfresh.
  unfold dependency_targets, bind at 1 in Hd. unfold get_task at 1 in Hd.
  rewrite (name_assigned_task w t task h Ht) in Hd.
  change (t_dependencies (set_name t (resolved_name w t)))
    with (t_dependencies t) in Hd.
  unfold bind at 1.
  rewrite (check_dependencies_ok (w_tasks w) (t_dependencies t)
             (name_assigned w t task h) names targets Hn Hd Hall).
  unfold bind at 1, get_workflow at 1.
  rewrite (name_assigned_other w t task self h Hne), Hs. reflexivity.
Qed.

(** X7. [addTask] succeeds on a task whose resolved name is not the name of
    an attached task and whose edges all name attached tasks: the task is
    appended to the task sequence and the naming counter advances by one,
    whether or not the counter was used to name the task; nothing else
    changes but the name written on an unnamed task. *)
Theorem addTask_success
    (h : heap) (self task : loc) (w : Workflow) (t : Task)
    (names targets : list (option string)) :
  h !! self = Some (OWorkflow w) ->
  h !! task = Some (OTask t) ->
  task_names (w_tasks w) (name_assigned w t task h)
    = (Ok names, name_assigned w t task h) ->
  ~ In (resolved_name w t) names ->
  dependency_targets task (name_assigned w t task h)
    = (Ok targets, name_assigned w t task h) ->
  (forall n, In n targets -> In n names) ->
  addTask self task h
  = (Ok tt,
     <[self := OWorkflow (attach w task)]> (name_assigned w t task h)) /\
  w_tasks (attach w task) = w_tasks w ++ [task] /\
  w_task_name_counter (attach w task) = w_task_name_counter w + 1.
Proof.
  intros Hs Ht Hn Hfresh Hd Hall. split; [|split; reflexivity].
  apply (addTask_attaches h self task w t names targets); assumption.
Qed.

Lemma addTask_success_witness :
  addTask 0 1
    [OWorkflow (mkWorkflow "w1" None None [] 1 []);
     OTask (mkTask "ophidia" None "oph_if" [] [] [])]
  = (Ok tt,
     [OWorkflow (mkWorkflow "w1" None None [1] 2 []);
      OTask (mkTask "ophidia" (Some "w1_1") "oph_if" [] [] [])]).
Proof.
  apply (proj1 (addTask_success
           [OWorkflow (mkWorkflow "w1" None None [] 1 []);
            OTask (mkTask "ophidia" None "oph_if" [] [] [])] 0 1
           (mkWorkflow "w1" None None [] 1 [])
           (mkTask "ophidia" None "oph_if" [] [] []) [] []
           eq_refl eq_refl eq_refl (fun H => H) eq_refl (fun n H => H))).
Defined.

Lemma set_name_same (t : Task) : set_name t (t_name t) = t.
Proof. destruct t. reflexivity. Qed.

Lemma resolved_name_named (w : Workflow) (t : Task) :
  t_name t <> None -> resolved_name w t = t_name t.
Proof. unfold resolved_name. destruct (t_name t); [reflexivity|congruence]. Qed.

Lemma resolved_name_not_None (w : Workflow) (t : Task) :
  resolved_name w t <> None.
Proof. unfold resolved_name. destruct (t_name t); discriminate. Qed.

(** Every run of [addTask]. *)
Lemma addTask_cases (h h' : heap) (self task : loc) (r : outcome unit) :
  addTask self task h = (r, h') ->
  ((exists e, r = Raise e) /\ h' = h) \/
  exists w t,
    h !! self = Some (OWorkflow w) /\ h !! task = Some (OTask t) /\
    self <> task /\
    (((exists e, r = Raise e) /\ h' = name_assigned w t task h) \/
     (r = Ok tt /\
      h' = <[self := OWorkflow (attach w task)]> (name_assigned w t task h) /\
      exists names,
        fst (task_names (w_tasks w) (name_assigned w t task h)) = Ok names /\
        mem_name (resolved_name w t) names = false /\
        forM_ (check_dependency (w_tasks w)) (t_dependencies t)
          (name_assigned w t task h)
        = (Ok tt, name_assigned w t task h))).
Proof.
  intros H.
  destruct (h !! self) as [[| w |]|] eqn:Hs;
    try (left; unfold addTask, bind, get_workflow in H; rewrite Hs in H;
         inversion H; split; [eexists; reflexivity|reflexivity]).
  destruct (h !! task) as [[t | |]|] eqn:Ht;
    try (left; unfold addTask, bind, get_workflow, get_task in H;
         rewrite Hs, Ht in H; inversion H;
         split; [eexists; reflexivity|reflexivity]).
  right. exists w, t.
  assert (Hne : self <> task) by (intros ->; rewrite Hs in Ht; discriminate).
  repeat split; try assumption.
  rewrite (addTask_checks h self task w t Hs Ht) in H.
  destruct (fst (task_names (w_tasks w) (name_assigned w t task h)))
    as [names|e] eqn:Hn.
  2:{ left. inversion H. split; [eexists; reflexivity|reflexivity]. }
  destruct (mem_name (resolved_name w t) names) eqn:Hm.
  { left. inversion H. split; [eexists; reflexivity|reflexivity]. }
  unfold bind at 1 in H.
  pose proof (read_only_eq
    (forM_ (check_dependency (w_tasks w)) (t_dependencies t))
    (name_assigned w t task h)
    (read_only_forM_ _ _ (read_only_check_dependency (w_tasks w)))) as Hro.
  rewrite Hro in H.
  destruct (fst (forM_ (check_dependency (w_tasks w)) (t_dependencies t)
                   (name_assigned w t task h))) as [[]|e] eqn:Hf.
  - right. unfold bind at 1, get_workflow at 1 in H.
    rewrite (name_assigned_other w t task self h Hne), Hs in H.
    unfold put in H. inversion H. split; [reflexivity|].
    split; [reflexivity|]. exists names.
    split; [reflexivity|]. split; [exact Hm|]. exact Hro.
  - left. inversion H. split; [eexists; reflexivity|reflexivity].
Qed.

(** The footprint of [addTask], in every outcome. *)
Lemma addTask_effect
    (h h' : heap) (self task : loc) (r : outcome unit) :
  addTask self task h = (r, h') ->
  length h' = length h /\
  (forall l, l <> self -> l <> task -> h' !! l = h !! l) /\
  (forall e, r = Raise e -> h' !! self = h !! self) /\
  (forall t, h !! task = Some (OTask t) ->
     exists n, h' !! task = Some (OTask (set_name t n)) /\
               (t_name t <> None -> n = t_name t)).
Proof.
  intros H.
  destruct (addTask_cases h h' self task r H)
    as [[_ ->]|(w & t & Hs & Ht & Hne & [[[e ->] ->]|(-> & -> & _)])].
  - repeat split; try reflexivity.
    intros t Ht. exists (t_name t). rewrite set_name_same. split; [exact Ht|].
    reflexivity.
  - split; [apply name_assigned_length|]. split; [|split].
    + intros l _ Hl. apply name_assigned_other. exact Hl.
    + intros _ _. apply name_assigned_other. exact Hne.
    + intros t0 Ht0. rewrite Ht in Ht0. inversion Ht0; subst t0.
      exists (resolved_name w t). split.
      * apply name_assigned_task. exact Ht.
      * apply resolved_name_named.
  - split; [rewrite heap_length_insert; apply name_assigned_length|].
    split; [|split].
    + intros l Hl Hl'. rewrite heap_lookup_insert_ne by congruence.
      apply name_assigned_other. exact Hl'.
    + intros e He. discriminate.
    + intros t0 Ht0. rewrite Ht in Ht0. inversion Ht0; subst t0.
      exists (resolved_name w t). split.
      * rewrite heap_lookup_insert_ne by exact Hne.
        apply name_assigned_task. exact Ht.
      * apply resolved_name_named.
Qed.

(** X8. Whatever its outcome, [addTask] changes no object other than the
    workflow and the task, and never creates one.  When it raises, the
    workflow object is as before.  Of the task it changes at most the name,
    and a task that has a name keeps it. *)
Theorem addTask_writes_only
    (h h' : heap) (self task : loc) (r : outcome unit) :
  addTask self task h = (r, h') ->
  length h' = length h /\
  (forall l, l <> self -> l <> task -> h' !! l = h !! l) /\
  (forall e, r = Raise e -> h' !! self = h !! self) /\
  (forall t, h !! task = Some (OTask t) ->
     exists n, h' !! task = Some (OTask (set_name t n)) /\
               (t_name t <> None -> n = t_name t)).
Proof. apply addTask_effect. Qed.

Lemma addTask_writes_only_witness :
  length (snd (addTask 0 6 attached_store)) = length attached_store /\
  (forall l, l <> 0 -> l <> 6 ->
     snd (addTask 0 6 attached_store) !! l = attached_store !! l) /\
  (forall e, fst (addTask 0 6 attached_store) = Raise e ->
     snd (addTask 0 6 attached_store) !! 0 = attached_store !! 0) /\
  (forall t, attached_store !! 6 = Some (OTask t) ->
     exists n, snd (addTask 0 6 attached_store) !! 6
                 = Some (OTask (set_name t n)) /\
               (t_name t <> None -> n = t_name t)).
Proof.
  apply (addTask_writes_only attached_store _ 0 6 _).
  apply surjective_pairing.
Defined.

Lemma check_dependencies_ok_inv (tasks deps : list loc) (h : heap)
    (names : list (option string)) :
  fst (task_names tasks h) = Ok names ->
  forM_ (check_dependency tasks) deps h = (Ok tt, h) ->
  forall ld, In ld deps ->
    exists d target,
      h !! ld = Some (ODict d) /\
      assoc_get String.eqb "task" d = Some target /\
      In target names.
Proof.
  intros Hn. induction deps as [|dl deps IH]; intros Hf ld Hin;
    [destruct Hin|].
  simpl in Hf. unfold bind at 1 in Hf.
  pose proof (read_only_eq (check_dependency tasks dl) h
                (read_only_check_dependency tasks dl)) as Hro.
  rewrite Hro in Hf.
  destruct (fst (check_dependency tasks dl h)) as [[]|e] eqn:Hc;
    [|discriminate].
  destruct Hin as [<-|Hin]; [|apply (IH Hf ld Hin)].
  clear Hf IH Hro. unfold check_dependency, bind at 1, get_edge at 1 in Hc.
  destruct (h !! dl) as [[| |d]|] eqn:Hd; try discriminate.
  exists d. unfold bind at 1, subscript at 1 in Hc.
  destruct (assoc_get String.eqb "task" d) as [target|] eqn:Hg;
    [|discriminate].
  exists target. split; [reflexivity|]. split; [reflexivity|].
  unfold ret at 1 in Hc. unfold bind at 1 in Hc.
  rewrite (read_only_eq (task_names tasks) h (read_only_task_names tasks)),
    Hn in Hc.
  destruct (mem_name target names) eqn:Hm; [|discriminate].
  apply mem_name_In. exact Hm.
Qed.

Lemma name_assigned_named (w : Workflow) (t : Task) (task : loc) (h : heap) :
  t_name t <> None -> name_assigned w t task h = h.
Proof.
  unfold name_assigned. destruct (t_name t); [reflexivity|congruence].
Qed.

(** The invariant reads the workflow, its attached tasks and their edges
    only. *)
Lemma graph_ok_transfer (h h' : heap) (self : loc) (w : Workflow) :
  h !! self = Some (OWorkflow w) ->
  graph_ok h self ->
  (forall l o, h !! l = Some o ->
     match o with OTask _ => In l (w_tasks w) | _ => True end ->
     h' !! l = Some o) ->
  graph_ok h' self.
Proof.
  intros Hs (w0 & names & Hs0 & Hn & Hnd & Hnone & Hedges) Hsame.
  rewrite Hs in Hs0. inversion Hs0; subst w0. clear Hs0.
  assert (Htasks : forall l, In l (w_tasks w) ->
            exists t, h !! l = Some (OTask t) /\ h' !! l = Some (OTask t)).
  { intros l Hl.
    destruct (task_names_ok_tasks (w_tasks w) h names Hn l Hl) as [t Ht].
    exists t. split; [exact Ht|]. apply (Hsame l (OTask t) Ht). exact Hl. }
  exists w, names. split; [apply (Hsame self _ Hs); exact I|].
  split; [|split; [exact Hnd|split; [exact Hnone|]]].
  - rewrite <- Hn. apply task_names_ext. intros l Hl.
    destruct (Htasks l Hl) as (t & Ht & Ht'). rewrite Ht, Ht'. reflexivity.
  - intros i lt t ld Hi Hlt Hld.
    assert (Hin : In lt (w_tasks w)).
    { apply list_elem_of_In. apply (list_elem_of_lookup_2 _ i). exact Hi. }
    destruct (Htasks lt Hin) as (t0 & Ht0 & Ht0').
    rewrite Ht0' in Hlt. inversion Hlt; subst t0.
    destruct (Hedges i lt t ld Hi Ht0 Hld) as (d & target & Hd & Hg & Ht).
    exists d, target. split; [|split; assumption].
    apply (Hsame ld (ODict d) Hd). exact I.
Qed.

(** [addTask] keeps [graph_ok], in every outcome. *)
Lemma addTask_graph_ok
    (h h' : heap) (self task : loc) (r : outcome unit) :
  graph_ok h self ->
  addTask self task h = (r, h') ->
  graph_ok h' self.
Proof.
  intros G H.
  destruct (addTask_cases h h' self task r H)
    as [[_ ->]|(w & t & Hs & Ht & Hne & Hcases)]; [exact G|].
  assert (G1 : graph_ok (name_assigned w t task h) self).
  { apply (graph_ok_transfer h _ self w Hs G). intros l o Hl Hcond.
    destruct (Nat.eq_dec l task) as [->|Hlt].
    - rewrite Ht in Hl. inversion Hl; subst o. simpl in Hcond.
      destruct G as (w0 & names & Hs0 & Hn & _ & Hnone & _).
      rewrite Hs in Hs0. inversion Hs0; subst w0.
      rewrite name_assigned_named; [exact Ht|].
      intros Hname. apply Hnone. rewrite <- Hname.
      apply (task_names_In (w_tasks w) h names task t Hn Hcond Ht).
    - rewrite name_assigned_other by exact Hlt. exact Hl. }
  destruct Hcases as [[_ ->]|(_ & -> & names & Hn & Hm & Hf)]; [exact G1|].
  assert (Hs1 : name_assigned w t task h !! self = Some (OWorkflow w)).
  { rewrite name_assigned_other by exact Hne. exact Hs. }
  destruct G1 as (w1 & names1 & Hs1' & Hn1 & Hnd & Hnone & Hedges).
  rewrite Hs1 in Hs1'. inversion Hs1'; subst w1. clear Hs1'.
  rewrite Hn in Hn1. inversion Hn1; subst names1. clear Hn1.
  set (h1 := name_assigned w t task h) in *.
  assert (Hlen : self < length h1) by (apply lookup_lt_Some in Hs1; exact Hs1).
  assert (Hold : forall l, In l (w_tasks w) ->
            exists tl, h1 !! l = Some (OTask tl) /\
              <[self := OWorkflow (attach w task)]> h1 !! l = Some (OTask tl)).
  { intros l Hl.
    destruct (task_names_ok_tasks (w_tasks w) h1 names Hn l Hl) as [tl Htl].
    exists tl. split; [exact Htl|].
    rewrite heap_lookup_insert_ne; [exact Htl|].
    intros ->. rewrite Hs1 in Htl. discriminate. }
  assert (Htask : <[self := OWorkflow (attach w task)]> h1 !! task
                  = Some (OTask (set_name t (resolved_name w t)))).
  { rewrite heap_lookup_insert_ne by exact Hne.
    apply name_assigned_task. exact Ht. }
  assert (Hnl : length names = length (w_tasks w))
    by (apply (task_names_length _ h1); exact Hn).
  exists (attach w task), (names ++ [resolved_name w t]).
  split; [apply heap_lookup_insert_eq; exact Hlen|].
  split; [|split; [|split]].
  - cbn [attach w_tasks]. rewrite task_names_app.
    rewrite (task_names_ext (w_tasks w) h1).
    + rewrite Hn, task_names_cons, Htask. reflexivity.
    + intros l Hl. destruct (Hold l Hl) as (tl & E1 & E2).
      rewrite E1, E2. reflexivity.
  - apply NoDup_ListNoDup. apply NoDup_app. repeat split.
    + apply NoDup_ListNoDup. exact Hnd.
    + intros x Hx Hx'. apply list_elem_of_In in Hx.
      apply list_elem_of_In in Hx'. destruct Hx' as [<-|[]].
      apply mem_name_not_In in Hm. contradiction.
    + apply NoDup_ListNoDup. repeat constructor. intros [].
  - intros Hin. apply in_app_or in Hin. destruct Hin as [Hin|[Hin|[]]].
    + contradiction.
    + apply (resolved_name_not_None w t). exact Hin.
  - cbn [attach w_tasks]. intros i lt t0 ld Hi Hlt Hld.
    destruct (lt_dec i (length (w_tasks w))) as [Hlti|Hge].
    + rewrite lookup_app_l in Hi by exact Hlti.
      assert (Hin : In lt (w_tasks w)).
      { apply list_elem_of_In. apply (list_elem_of_lookup_2 _ i). exact Hi. }
      destruct (Hold lt Hin) as (tl & E1 & E2).
      rewrite E2 in Hlt. inversion Hlt; subst tl.
      destruct (Hedges i lt t0 ld Hi E1 Hld) as (d & target & Hd & Hg & Hin').
      exists d, target. split; [|split; [exact Hg|]].
      * rewrite heap_lookup_insert_ne; [exact Hd|].
        intros ->. rewrite Hs1 in Hd. discriminate.
      * rewrite take_app_le by lia. exact Hin'.
    + rewrite lookup_app_r in Hi by lia.
      destruct (i - length (w_tasks w)) as [|k] eqn:Ek; [|discriminate].
      inversion Hi; subst lt. rewrite Htask in Hlt.
      inversion Hlt; subst t0. cbn [set_name t_dependencies] in Hld.
      destruct (check_dependencies_ok_inv (w_tasks w) (t_dependencies t) h1
                  names Hn Hf ld Hld) as (d & target & Hd & Hg & Hin').
      exists d, target. split; [|split; [exact Hg|]].
      * rewrite heap_lookup_insert_ne; [exact Hd|].
        intros ->. rewrite Hs1 in Hd. discriminate.
      * assert (i = length names) as -> by lia.
        rewrite take_app_length. exact Hin'.
Qed.

(** X9. [addTask] keeps the structural invariant of the workflow in every
    outcome, success or exception: the attached tasks stay named Task objects
    with distinct names, and every edge of an attached task names a task
    attached before it (no forward reference, hence no cycle). *)
Theorem addTask_keeps_graph
    (h h' : heap) (self task : loc) (r : outcome unit) :
  graph_ok h self ->
  addTask self task h = (r, h') ->
  graph_ok h' self.
Proof. apply addTask_graph_ok. Qed.

Lemma addTask_keeps_graph_witness :
  graph_ok (snd (addTask 0 1 one_workflow_one_task)) 0.
Proof.
  apply (addTask_keeps_graph one_workflow_one_task _ 0 1
           (fst (addTask 0 1 one_workflow_one_task))).
  - exists (mkWorkflow "w1" None None [] 1 []), [].
    split; [reflexivity|]. split; [reflexivity|].
    split; [constructor|]. split; [intros []|].
    intros i lt t ld Hi. destruct i; discriminate.
  - apply surjective_pairing.
Defined.

(** ** Invariants along [newTask] and [newSubWorkflow] *)

Lemma bind_inv_ro {A B} (m : M A) (f : A -> M B) (h h' : heap)
    (r : outcome B) :
  read_only m -> bind m f h = (r, h') ->
  (exists a, f a h = (r, h')) \/ (h' = h /\ exists e, r = Raise e).
Proof.
  intros Hro H. unfold bind in H. rewrite (read_only_eq m h Hro) in H.
  destruct (fst (m h)) as [a|e].
  - left. exists a. exact H.
  - right. inversion H. split; [reflexivity|]. exists e. reflexivity.
Qed.

Lemma bind_inv_frames {A B} (n : nat) (self : loc) (Q : A -> Prop)
    (m : M A) (f : A -> M B) (h h' : heap) (r : outcome B) :
  frames n self Q m -> n <= length h -> bind m f h = (r, h') ->
  (exists a h1, Q a /\ preserves n self h h1 /\ f a h1 = (r, h')) \/
  (preserves n self h h' /\ exists e, r = Raise e).
Proof.
  intros Hf Hn H. unfold bind in H.
  destruct (m h) as [[a|e] h1] eqn:E.
  - destruct (Hf h (Ok a) h1 Hn E) as [P Q1].
    left. exists a, h1. split; [apply Q1; reflexivity|]. split; assumption.
  - inversion H; subst. destruct (Hf h (Raise e) h' Hn E) as [P _].
    right. split; [exact P|]. exists e. reflexivity.
Qed.

Lemma filterM_sublist {A} (f : A -> M bool) (l res : list A) (h h' : heap) :
  filterM f l h = (Ok res, h') -> sublist res l.
Proof.
  revert res h h'. induction l as [|x l IH]; intros res h h' H; simpl in H.
  - inversion H. constructor.
  - unfold bind at 1 in H. destruct (f x h) as [[b|e] h1]; [|discriminate].
    unfold bind at 1 in H.
    destruct (filterM f l h1) as [[ys|e] h2] eqn:E; [|discriminate].
    inversion H; subst. specialize (IH ys h1 h' E).
    destruct b; [apply sublist_skip|apply sublist_cons]; exact IH.
Qed.

Section Invariant.
Variable J : list loc -> heap -> Prop.
Variable self : loc.
Hypothesis J_fresh : forall news h h',
  J news h -> preserves (length h) (length h) h h' -> J news h'.
Hypothesis J_attach : forall news h0 h task h',
  J news h0 -> length h0 <= task -> J news h ->
  addTask self task h = (Ok tt, h') -> J (news ++ [task]) h'.
Hypothesis J_reject : forall news h task e h',
  J news h -> addTask self task h = (Raise e, h') -> J news h'.

Lemma embed_tasks_invariant (params : list (pyval * pyval))
    (dependency : pyval) (name : string) (tasks : list loc) :
  forall (task_id : nat) (all_tasks : list loc)
         (non_leaf_tasks : list (option string)) (news : list loc)
         (h h' : heap) (r : outcome (list loc * list (option string))),
  J news h ->
  embed_tasks self params dependency name tasks task_id all_tasks
    non_leaf_tasks h = (r, h') ->
  exists added,
    J (news ++ added) h' /\
    match r with
    | Ok res => fst res = all_tasks ++ added /\ length added = length tasks
    | Raise _ => length added <= length tasks
    end.
Proof.
  induction tasks as [|task rest IH];
    intros task_id all_tasks non_leaf_tasks news h h' r HJ H; simpl in H.
  - inversion H; subst. exists []. rewrite !app_nil_r. simpl. auto.
  - assert (Stop : forall hx, J news hx -> forall e : exn,
              exists added,
                J (news ++ added) hx /\ length added <= length (task :: rest)).
    { intros hx Hx e. exists []. rewrite app_nil_r. simpl. split; [exact Hx|lia]. }
    apply bind_inv_ro in H; [|apply read_only_get_task].
    destruct H as [[t H]|[-> [e ->]]]; [|apply (Stop h HJ e)].
    apply bind_inv_ro in H; [|apply read_only_add_task_name].
    destruct H as [[new_task_name H]|[-> [e ->]]]; [|apply (Stop h HJ e)].
    apply bind_inv_ro in H; [|apply read_only_reverted_arguments].
    destruct H as [[old_arguments H]|[-> [e ->]]]; [|apply (Stop h HJ e)].
    apply bind_inv_ro in H; [|apply read_only_lift].
    destruct H as [[new_arguments H]|[-> [e ->]]]; [|apply (Stop h HJ e)].
    apply (bind_inv_frames (length h) (length h) (fun l => length h <= l))
      in H; [|apply frames_Task_init|apply le_n].
    destruct H as [(new_task & h1 & Hnew & P1 & H)|[P1 [e ->]]];
      [|apply (Stop h' (J_fresh news h h' HJ P1) e)].
    assert (L1 : length h <= length h1) by (destruct P1; assumption).
    apply (bind_inv_frames (length h) (length h) any) in H;
      [|apply frames_find_root_tasks_add_dependencies; exact Hnew|exact L1].
    destruct H as [(_ & h2 & _ & P2 & H)|[P2 [e ->]]];
      [|apply (Stop h' (J_fresh news h h' HJ
                          (preserves_trans _ _ _ _ _ P1 P2)) e)].
    pose proof (preserves_trans _ _ _ _ _ P1 P2) as P12.
    assert (L2 : length h <= length h2) by (destruct P12; assumption).
    apply (bind_inv_frames (length h) (length h) any) in H;
      [|apply frames_add_dependencies; exact Hnew|exact L2].
    destruct H as [(_ & h3 & _ & P3 & H)|[P3 [e ->]]];
      [|apply (Stop h' (J_fresh news h h' HJ
                          (preserves_trans _ _ _ _ _ P12 P3)) e)].
    pose proof (J_fresh news h h3 HJ (preserves_trans _ _ _ _ _ P12 P3))
      as HJ3.
    unfold bind at 1 in H.
    destruct (addTask self new_task h3) as [[[]|e] h4] eqn:Eadd.
    + pose proof (J_attach news h h3 new_task h4 HJ Hnew HJ3 Eadd) as HJ4.
      apply bind_inv_ro in H; [|apply read_only_dependency_targets].
      destruct H as [[targets H]|[-> [e ->]]].
      * destruct (IH _ _ _ _ _ _ _ HJ4 H) as (added & HJ' & Hr).
        exists (new_task :: added). split.
        -- rewrite <- app_assoc in HJ'. exact HJ'.
        -- destruct r as [res|e].
           ++ destruct Hr as [Hres Hl]. split.
              ** rewrite Hres, <- app_assoc. reflexivity.
              ** simpl. rewrite Hl. reflexivity.
           ++ simpl. lia.
      * exists [new_task]. split; [exact HJ4|]. simpl. lia.
    + inversion H; subst.
      apply (Stop h' (J_reject news h3 new_task e h' HJ3 Eadd) e).
Qed.

Lemma newSubWorkflow_invariant (workflow params dependency name : pyval)
    (h h' : heap) (r : outcome (list loc)) :
  J [] h ->
  newSubWorkflow self workflow params dependency name h = (r, h') ->
  exists added,
    J added h' /\
    match r with
    | Ok res =>
        sublist res added /\
        forall template w,
          workflow = VRef template -> h !! template = Some (OWorkflow w) ->
          length added = length (w_tasks w)
    | Raise _ => True
    end.
Proof.
  intros HJ H. unfold newSubWorkflow in H.
  apply bind_inv_ro in H; [|apply read_only_newSubWorkflow_parameter_check].
  destruct H as [[_ H]|[-> [e ->]]]; [|exists []; split; [exact HJ|exact I]].
  apply bind_inv_ro in H; [|apply read_only_validate_workflow].
  destruct H as [[_ H]|[-> [e ->]]]; [|exists []; split; [exact HJ|exact I]].
  destruct workflow as [| | |template|];
    try (inversion H; subst; exists []; split; [exact HJ|exact I]).
  destruct params as [| | | |ps];
    try (inversion H; subst; exists []; split; [exact HJ|exact I]).
  destruct name as [| |label| |];
    try (inversion H; subst; exists []; split; [exact HJ|exact I]).
  unfold bind at 1, get_workflow at 1 in H.
  destruct (h !! template) as [[|w|]|] eqn:Ht;
    try (inversion H; subst; exists []; split; [exact HJ|exact I]).
  unfold bind at 1 in H.
  destruct (embed_tasks self ps dependency label (w_tasks w) 1 [] [] h)
    as [[res|e] h1] eqn:E.
  - destruct (embed_tasks_invariant ps dependency label (w_tasks w) 1 [] []
                [] h h1 (Ok res) HJ E) as (added & HJ1 & Hres & Hlen).
    simpl in HJ1, Hres.
    pose proof (read_only_filterM
      (fun t => let* tk := get_task t in
                ret (negb (mem_name (t_name tk) (snd res)))) (fst res)
      (fun t => read_only_bind _ _ (read_only_get_task t)
                  (fun tk => read_only_ret _)) h1) as Hro.
    rewrite H in Hro. simpl in Hro. subst h'.
    exists added. split; [exact HJ1|]. destruct r as [out|e]; [|exact I].
    split.
    + rewrite <- Hres. apply (filterM_sublist _ _ _ _ _ H).
    + intros template' w' Heq Hw'. inversion Heq; subst template'.
      rewrite Ht in Hw'. inversion Hw'; subst w'. exact Hlen.
  - inversion H; subst.
    destruct (embed_tasks_invariant ps dependency label (w_tasks w) 1 [] []
                [] h h' (Raise e) HJ E) as (added & HJ1 & _).
    exists added. split; [exact HJ1|exact I].
Qed.

Lemma newTask_invariant (operator arguments dependencies name : pyval)
    (kwargs : list (string * pyval)) (h h' : heap) (r : outcome loc) :
  J [] h ->
  newTask self operator arguments dependencies name kwargs h = (r, h') ->
  match r with
  | Ok l => J [l] h' /\ length h <= l
  | Raise _ => J [] h'
  end.
Proof.
  intros HJ H. unfold newTask in H.
  apply bind_inv_ro in H.
  2:{ unfold newTask_parameter_check.
      repeat match goal with
             | |- read_only (if ?b then _ else _) => destruct b
             end; try apply read_only_raise; apply read_only_ret. }
  destruct H as [[_ H]|[-> [e ->]]]; [|exact HJ].
  destruct operator as [| |op| |]; try (inversion H; subst; exact HJ).
  destruct arguments as [| | | |args]; try (inversion H; subst; exact HJ).
  destruct dependencies as [| | | |deps]; try (inversion H; subst; exact HJ).
  apply (bind_inv_frames (length h) (length h) (fun l => length h <= l))
    in H; [|apply frames_Task_init|apply le_n].
  destruct H as [(t & h1 & Hnew & P1 & H)|[P1 [e ->]]];
    [|apply (J_fresh [] h h' HJ P1)].
  assert (L1 : length h <= length h1) by (destruct P1; assumption).
  apply (bind_inv_frames (length h) (length h) any) in H; [| |exact L1].
  2:{ destruct (truthy (VDict deps)); [|apply frames_ret; exact I].
      apply frames_forM_. intros kv.
      destruct (truthy (snd kv)); apply frames_addDependency; exact Hnew. }
  destruct H as [(_ & h2 & _ & P2 & H)|[P2 [e ->]]];
    [|apply (J_fresh [] h h' HJ (preserves_trans _ _ _ _ _ P1 P2))].
  pose proof (preserves_trans _ _ _ _ _ P1 P2) as P12.
  assert (L2 : length h <= length h2) by (destruct P12; assumption).
  apply bind_inv_ro in H.
  2:{ destruct (unknown_option Workflow_task_attributes kwargs);
        [apply read_only_raise|apply read_only_ret]. }
  destruct H as [[_ H]|[-> [e ->]]]; [|apply (J_fresh [] h h2 HJ P12)].
  apply bind_inv_ro in H; [|apply read_only_get_task].
  destruct H as [[tk H]|[-> [e ->]]]; [|apply (J_fresh [] h h2 HJ P12)].
  apply (bind_inv_frames (length h) (length h) any) in H;
    [|apply frames_put; right; exact Hnew|exact L2].
  destruct H as [(_ & h3 & _ & P3 & H)|[P3 [e ->]]];
    [|apply (J_fresh [] h h' HJ (preserves_trans _ _ _ _ _ P12 P3))].
  pose proof (J_fresh [] h h3 HJ (preserves_trans _ _ _ _ _ P12 P3)) as HJ3.
  unfold bind at 1 in H.
  destruct (addTask self t h3) as [[[]|e] h4] eqn:Eadd.
  - inversion H; subst. split; [|exact Hnew].
    apply (J_attach [] h h3 t h' HJ Hnew HJ3 Eadd).
  - inversion H; subst. apply (J_reject [] h3 t e h' HJ3 Eadd).
Qed.

End Invariant.

Lemma attach_all_app (w : Workflow) (news : list loc) (task : loc) :
  attach_all w (news ++ [task]) = attach (attach_all w news) task.
Proof. unfold attach_all. rewrite fold_left_app. reflexivity. Qed.

Lemma attach_all_fields (news : list loc) (w : Workflow) :
  w_tasks (attach_all w news) = w_tasks w ++ news /\
  w_task_name_counter (attach_all w news)
    = w_task_name_counter w + length news /\
  w_name (attach_all w news) = w_name w /\
  w_author (attach_all w news) = w_author w /\
  w_abstract (attach_all w news) = w_abstract w /\
  w_options (attach_all w news) = w_options w.
Proof.
  revert w. induction news as [|x news IH]; intros w.
  - simpl. rewrite app_nil_r, Nat.add_0_r. repeat split; reflexivity.
  - change (attach_all w (x :: news)) with (attach_all (attach w x) news).
    destruct (IH (attach w x)) as (E1 & E2 & E3 & E4 & E5 & E6).
    rewrite E1, E2, E3, E4, E5, E6. simpl.
    rewrite <- app_assoc. simpl. repeat split; try reflexivity. lia.
Qed.

Lemma preserves_lookup (h h' : heap) (l : loc) (o : obj) :
  preserves (length h) (length h) h h' -> h !! l = Some o -> h' !! l = Some o.
Proof.
  intros [_ P] Hl. rewrite <- Hl. pose proof (lookup_lt_Some _ _ _ Hl) as Hlt.
  apply P; lia.
Qed.

Lemma frames_newTask (n : nat) (self : loc)
    (operator arguments dependencies name : pyval)
    (kwargs : list (string * pyval)) :
  frames n self any
    (newTask self operator arguments dependencies name kwargs).
Proof.
  unfold newTask.
  apply (frames_bind n self any any).
  { apply frames_read_only. unfold newTask_parameter_check.
    repeat match goal with
           | |- read_only (if ?b then _ else _) => destruct b
           end; try apply read_only_raise; apply read_only_ret. }
  intros _ _.
  destruct operator; try apply frames_raise.
  destruct arguments; try apply frames_raise.
  destruct dependencies; try apply frames_raise.
  apply (frames_bind n self (fun l => n <= l) any);
    [apply frames_Task_init|].
  intros t Hnew.
  apply (frames_bind n self any any).
  { destruct (truthy (VDict d0)); [|apply frames_ret; exact I].
    apply frames_forM_. intros kv.
    destruct (truthy (snd kv)); apply frames_addDependency; exact Hnew. }
  intros _ _.
  apply (frames_bind n self any any).
  { apply frames_read_only.
    destruct (unknown_option Workflow_task_attributes kwargs);
      [apply read_only_raise|apply read_only_ret]. }
  intros _ _.
  apply (frames_bind n self any any).
  { apply frames_read_only. apply read_only_get_task. }
  intros tk _.
  apply (frames_bind n self any any).
  { apply frames_put. right. exact Hnew. }
  intros _ _.
  apply (frames_bind n self any any).
  { apply frames_addTask. exact Hnew. }
  intros _ _. apply frames_ret. exact I.
Qed.

Lemma grown_fresh (self : loc) (w0 : Workflow) (n0 : nat)
    (news : list loc) (h h' : heap) :
  grown self w0 n0 news h -> preserves (length h) (length h) h h' ->
  grown self w0 n0 news h'.
Proof.
  intros (Hs & Hn & Hf) P. split; [|split].
  - apply (preserves_lookup h h' self _ P Hs).
  - destruct P. lia.
  - exact Hf.
Qed.

Lemma grown_attach (self : loc) (w0 : Workflow) (n0 : nat)
    (news : list loc) (h0 h : heap) (task : loc) (h' : heap) :
  grown self w0 n0 news h0 -> length h0 <= task -> grown self w0 n0 news h ->
  addTask self task h = (Ok tt, h') -> grown self w0 n0 (news ++ [task]) h'.
Proof.
  intros (_ & Hn0 & _) Htask (Hs & Hn & Hf) H.
  destruct (addTask_cases h h' self task (Ok tt) H)
    as [[[e He] _]|(w & t & Hs' & Ht & Hne & [[[e He] _]|(_ & -> & _)])];
    try discriminate.
  rewrite Hs in Hs'. inversion Hs'; subst w.
  split; [|split].
  - rewrite attach_all_app. apply heap_lookup_insert_eq.
    rewrite name_assigned_length. apply lookup_lt_Some in Hs. exact Hs.
  - rewrite heap_length_insert, name_assigned_length. exact Hn.
  - apply Forall_app. split; [exact Hf|]. constructor; [lia|constructor].
Qed.

Lemma grown_reject (self : loc) (w0 : Workflow) (n0 : nat)
    (news : list loc) (h : heap) (task : loc) (e : exn) (h' : heap) :
  grown self w0 n0 news h -> addTask self task h = (Raise e, h') ->
  grown self w0 n0 news h'.
Proof.
  intros (Hs & Hn & Hf) H.
  destruct (addTask_effect h h' self task (Raise e) H)
    as (Hlen & _ & Hself & _).
  split; [|split].
  - rewrite (Hself e eq_refl). exact Hs.
  - lia.
  - exact Hf.
Qed.



(** X11. What [newTask] does to the workflow, in every outcome: objects that
    existed before the call, other than the workflow, are unchanged; when the
    call returns a task, the task is a new object and the workflow is the old
    one with that task attached last and the counter advanced by one; when
    the call raises, the workflow object is exactly as before (the new task,
    if it was built, is not attached). *)
Theorem newTask_outcome
    (h h' : heap) (self : loc) (w0 : Workflow)
    (operator arguments dependencies name : pyval)
    (kwargs : list (string * pyval)) (r : outcome loc) :
  h !! self = Some (OWorkflow w0) ->
  newTask self operator arguments dependencies name kwargs h = (r, h') ->
  (forall l, l < length h -> l <> self -> h' !! l = h !! l) /\
  match r with
  | Ok l => length h <= l /\ h' !! self = Some (OWorkflow (attach w0 l))
  | Raise _ => h' !! self = Some (OWorkflow w0)
  end.
Proof.
  intros Hs H. split.
  - destruct (frames_newTask (length h) self operator arguments dependencies
                name kwargs h r h' (le_n _) H) as [[_ P] _].
    exact P.
  - pose proof (newTask_invariant
              (grown self w0 (length h))
              self
              (grown_fresh self w0 (length h))
              (grown_attach self w0 (length h))
              (grown_reject self w0 (length h))
              operator arguments dependencies name kwargs h h' r) as Hinv.
    destruct r as [l|e].
    + destruct Hinv as [(Hs' & _) Hl];
        [split; [exact Hs|]; split; [lia|constructor]|exact H|].
      split; [exact Hl|exact Hs'].
    + destruct Hinv as (Hs' & _);
        [split; [exact Hs|]; split; [lia|constructor]|exact H|].
      exact Hs'.
Qed.

Lemma newTask_outcome_witness :
  snd (newTask 0 (VStr "oph_reduce") (VDict []) (VDict [(VStr "t0", VStr "x")])
         VNone [] anchored_store) !! 0
  = Some (OWorkflow (mkWorkflow "host" None None [1] 2 [])).
Proof.
  exact (proj2 (newTask_outcome anchored_store _ 0
                  (mkWorkflow "host" None None [1] 2 [])
                  (VStr "oph_reduce") (VDict [])
                  (VDict [(VStr "t0", VStr "x")]) VNone []
                  (Raise (AttributeError "task must be Task object"))
                  eq_refl eq_refl)).
Defined.

Lemma graph_ok_fresh (self : loc) (h h' : heap) :
  graph_ok h self -> preserves (length h) (length h) h h' -> graph_ok h' self.
Proof.
  intros G P. pose proof G as (w & names & Hs & _).
  apply (graph_ok_transfer h h' self w Hs G).
  intros l o Hl _. apply (preserves_lookup h h' l o P Hl).
Qed.

Lemma graph_ok_empty (h : heap) (self : loc) (w : Workflow) :
  h !! self = Some (OWorkflow w) -> w_tasks w = [] -> graph_ok h self.
Proof.
  intros Hs Hw. exists w, []. split; [exact Hs|]. rewrite Hw.
  split; [reflexivity|]. split; [constructor|]. split; [intros []|].
  intros i lt t ld Hi. destruct i; discriminate.
Qed.

(** X12. [newTask] keeps the structural invariant of the workflow in every
    outcome: after the call, returned or raised, the attached tasks are
    named Task objects with distinct names and every edge of an attached
    task names a task attached before it. *)
Theorem newTask_keeps_graph
    (h h' : heap) (self : loc)
    (operator arguments dependencies name : pyval)
    (kwargs : list (string * pyval)) (r : outcome loc) :
  graph_ok h self ->
  newTask self operator arguments dependencies name kwargs h = (r, h') ->
  graph_ok h' self.
Proof.
  intros G H.
  pose proof (newTask_invariant (fun _ hx => graph_ok hx self) self
                (fun _ h1 h2 => graph_ok_fresh self h1 h2)
                (fun _ _ h1 task h2 _ _ G1 E =>
                   addTask_graph_ok h1 h2 self task (Ok tt) G1 E)
                (fun _ h1 task e h2 G1 E =>
                   addTask_graph_ok h1 h2 self task (Raise e) G1 E)
                operator arguments dependencies name kwargs h h' r G H) as Hinv.
  destruct r; [exact (proj1 Hinv)|exact Hinv].
Qed.

Lemma newTask_keeps_graph_witness :
  graph_ok (snd (newTask 0 (VStr "oph_if") (VDict []) (VDict []) VNone []
                   template_store)) 0.
Proof.
  apply (newTask_keeps_graph template_store _ 0 (VStr "oph_if") (VDict [])
           (VDict []) VNone []
           (fst (newTask 0 (VStr "oph_if") (VDict []) (VDict []) VNone []
                   template_store))).
  - apply (graph_ok_empty template_store 0
             (mkWorkflow "host" None None [] 1 [])); reflexivity.
  - apply surjective_pairing.
Defined.

(** X13. [newSubWorkflow] keeps the structural invariant of the host in
    every outcome, also when it raises after attaching some clones: the
    host's tasks stay named Task objects with distinct names and every edge
    of an attached task names a task attached before it. *)
Theorem newSubWorkflow_keeps_graph
    (h h' : heap) (self : loc) (workflow params dependency name : pyval)
    (r : outcome (list loc)) :
  graph_ok h self ->
  newSubWorkflow self workflow params dependency name h = (r, h') ->
  graph_ok h' self.
Proof.
  intros G H.
  destruct (newSubWorkflow_invariant (fun _ hx => graph_ok hx self) self
              (fun _ h1 h2 => graph_ok_fresh self h1 h2)
              (fun _ _ h1 task h2 _ _ G1 E =>
                 addTask_graph_ok h1 h2 self task (Ok tt) G1 E)
              (fun _ h1 task e h2 G1 E =>
                 addTask_graph_ok h1 h2 self task (Raise e) G1 E)
              workflow params dependency name h h' r G H) as (added & G' & _).
  exact G'.
Qed.

Lemma newSubWorkflow_keeps_graph_witness :
  graph_ok (snd (newSubWorkflow 0 (VRef 1) (VDict []) (VDict []) (VStr "sub")
                   template_store)) 0.
Proof.
  apply (newSubWorkflow_keeps_graph template_store _ 0 (VRef 1) (VDict [])
           (VDict []) (VStr "sub")
           (fst (newSubWorkflow 0 (VRef 1) (VDict []) (VDict []) (VStr "sub")
                   template_store))).
  - apply (graph_ok_empty template_store 0
             (mkWorkflow "host" None None [] 1 [])); reflexivity.
  - apply surjective_pairing.
Defined.


(** X15. The checks at the head of [newSubWorkflow], in their order: [params]
    must be a dictionary, then [dependency] must be a dictionary, then [name]
    must be a string (so the default [None] is always rejected), then the
    template must be a Workflow object whose name differs from the host's (a
    workflow cannot be embedded into itself).  Each rejection raises before
    anything is written: the store is unchanged. *)
Theorem newSubWorkflow_rejects
    (h : heap) (self : loc) (workflow params dependency name : pyval) :
  (isinstance_dict params = false ->
   newSubWorkflow self workflow params dependency name h
   = (Raise (AttributeError "params must be dict"), h)) /\
  (isinstance_dict params = true -> isinstance_dict dependency = false ->
   newSubWorkflow self workflow params dependency name h
   = (Raise (AttributeError "dependency must be dict"), h)) /\
  (isinstance_dict params = true -> isinstance_dict dependency = true ->
   isinstance_str name = false ->
   newSubWorkflow self workflow params dependency name h
   = (Raise (AttributeError "name must be string"), h)) /\
  (isinstance_dict params = true -> isinstance_dict dependency = true ->
   isinstance_str name = true ->
   fst (isinstance_Workflow workflow h) = Ok false ->
   newSubWorkflow self workflow params dependency name h
   = (Raise (AttributeError "Wrong workflow or same workflows"), h)) /\
  (isinstance_dict params = true -> isinstance_dict dependency = true ->
   isinstance_str name = true ->
   forall template host w,
     workflow = VRef template ->
     h !! self = Some (OWorkflow host) ->
     h !! template = Some (OWorkflow w) ->
     w_name host = w_name w ->
     newSubWorkflow self workflow params dependency name h
     = (Raise (AttributeError "Wrong workflow or same workflows"), h)).
Proof.
  unfold newSubWorkflow, newSubWorkflow_parameter_check.
  split; [|split; [|split; [|split]]].
  - intros ->. reflexivity.
  - intros -> ->. reflexivity.
  - intros -> -> ->. reflexivity.
  - intros -> -> -> Hw. unfold bind at 1. cbn [negb]. unfold ret at 1.
    unfold bind at 1. unfold validate_workflow, bind at 1.
    unfold isinstance_Workflow in *.
    destruct workflow as [| | |l|]; try reflexivity.
    destruct (h !! l) as [[| |]|]; try reflexivity. discriminate.
  - intros -> -> -> template host w -> Hs Ht Hname.
    unfold bind at 1. cbn [negb]. unfold ret at 1.
    unfold bind at 1. unfold validate_workflow, bind at 1.
    unfold isinstance_Workflow. rewrite Ht. cbn [negb].
    unfold bind at 1, get_workflow at 1. rewrite Hs.
    unfold bind at 1, get_workflow at 1. rewrite Ht.
    rewrite Hname, String.eqb_refl. reflexivity.
Qed.

Lemma newSubWorkflow_rejects_witness :
  newSubWorkflow 0 (VRef 0) (VDict []) (VDict []) (VStr "sub") template_store
  = (Raise (AttributeError "Wrong workflow or same workflows"),
     template_store).
Proof.
  apply (proj2 (proj2 (proj2 (proj2
           (newSubWorkflow_rejects template_store 0 (VRef 0) (VDict [])
              (VDict []) (VStr "sub")))))
           eq_refl eq_refl eq_refl 0
           (mkWorkflow "host" None None [] 1 [])
           (mkWorkflow "host" None None [] 1 [])
           eq_refl eq_refl eq_refl eq_refl).
Defined.

(** X16. A failed [addTask] is stable: calling [addTask] again with the same
    task on the store the failure left raises the same exception and changes
    nothing more (the counter has not moved and the task keeps the name the
    first call gave it). *)
Theorem addTask_failure_repeats
    (h h' : heap) (self task : loc) (e : exn) :
  addTask self task h = (Raise e, h') ->
  addTask self task h' = (Raise e, h').
Proof.
  intros H.
  destruct (addTask_cases h h' self task (Raise e) H)
    as [[_ ->]|(w & t & Hs & Ht & Hne & [[_ ->]|(He & _)])];
    [exact H| |discriminate].
  set (h1 := name_assigned w t task h) in *.
  assert (Hs1 : h1 !! self = Some (OWorkflow w)).
  { unfold h1. rewrite name_assigned_other by exact Hne. exact Hs. }
  assert (Ht1 : h1 !! task = Some (OTask (set_name t (resolved_name w t)))).
  { apply name_assigned_task. exact Ht. }
  assert (Hsame :
    name_assigned w (set_name t (resolved_name w t)) task h1 = h1).
  { apply name_assigned_named. cbn [set_name t_name].
    apply resolved_name_not_None. }
  assert (Hres : resolved_name w (set_name t (resolved_name w t))
                 = resolved_name w t).
  { apply resolved_name_named. cbn [set_name t_name].
    apply resolved_name_not_None. }
  rewrite (addTask_checks h self task w t Hs Ht) in H. fold h1 in H.
  rewrite (addTask_checks h1 self task w _ Hs1 Ht1), Hsame, Hres.
  exact H.
Qed.

Lemma attached_names (h : heap) (self task : loc) (w : Workflow) (t : Task)
    (names : list (option string)) :
  h !! self = Some (OWorkflow w) ->
  h !! task = Some (OTask t) ->
  fst (task_names (w_tasks w) (name_assigned w t task h)) = Ok names ->
  fst (task_names (w_tasks w ++ [task])
         (<[self := OWorkflow (attach w task)]> (name_assigned w t task h)))
  = Ok (names ++ [resolved_name w t]).
Proof.
  intros Hs Ht Hn.
  assert (Hne : self <> task) by (intros ->; rewrite Hs in Ht; discriminate).
  assert (Hs1 : name_assigned w t task h !! self = Some (OWorkflow w)).
  { rewrite name_assigned_other by exact Hne. exact Hs. }
  rewrite task_names_app.
  rewrite (task_names_ext (w_tasks w) (name_assigned w t task h)).
  - rewrite Hn, task_names_cons.
    rewrite heap_lookup_insert_ne by exact Hne.
    rewrite (name_assigned_task w t task h Ht). reflexivity.
  - intros l Hl.
    destruct (task_names_ok_tasks (w_tasks w) _ names Hn l Hl) as [tl Htl].
    apply heap_lookup_insert_ne. intros ->. rewrite Hs1 in Htl. discriminate.
Qed.

(** X17. A task cannot be attached twice: after a successful [addTask], a
    second [addTask] of the same task to the same workflow raises
    [DuplicateNameError] and leaves the store as it is. *)
Theorem addTask_twice
    (h h' : heap) (self task : loc) :
  addTask self task h = (Ok tt, h') ->
  addTask self task h' = (Raise DuplicateNameError, h').
Proof.
  intros H.
  destruct (addTask_cases h h' self task (Ok tt) H)
    as [[[e He] _]|(w & t & Hs & Ht & Hne &
                    [[[e He] _]|(_ & -> & names & Hn & Hm & _)])];
    try discriminate.
  set (h1 := name_assigned w t task h) in *.
  assert (Hlen : self < length h1).
  { unfold h1. rewrite name_assigned_length. apply lookup_lt_Some in Hs.
    exact Hs. }
  assert (Hs2 : <[self := OWorkflow (attach w task)]> h1 !! self
                = Some (OWorkflow (attach w task)))
    by (apply heap_lookup_insert_eq; exact Hlen).
  assert (Ht2 : <[self := OWorkflow (attach w task)]> h1 !! task
                = Some (OTask (set_name t (resolved_name w t)))).
  { rewrite heap_lookup_insert_ne by exact Hne.
    apply name_assigned_task. exact Ht. }
  rewrite (addTask_checks _ self task _ _ Hs2 Ht2).
  rewrite name_assigned_named
    by (cbn [set_name t_name]; apply resolved_name_not_None).
  cbn [attach w_tasks]. unfold h1 in *.
  rewrite (attached_names h self task w t names Hs Ht Hn).
  assert (Hres : resolved_name (attach w task)
                   (set_name t (resolved_name w t)) = resolved_name w t).
  { apply resolved_name_named. cbn [set_name t_name].
    apply resolved_name_not_None. }
  cbn [attach w_tasks] in Hres. rewrite Hres.
  assert (Hin : mem_name (resolved_name w t) (names ++ [resolved_name w t])
                = true).
  { apply mem_name_In. apply in_or_app. right. left. reflexivity. }
  rewrite Hin. reflexivity.
Qed.

(** X18. The checks of [newTask], in their order: [operator] must be a
    string, [arguments] a dictionary, [dependencies] a dictionary, [name] a
    string or [None]; each of these raises with the store unchanged.  An
    option outside the allow-list is detected only after the Task object has
    been built: the call raises and leaves the new, unattached task in the
    store. *)
Theorem newTask_rejects
    (h : heap) (self : loc) (operator arguments dependencies name : pyval)
    (kwargs : list (string * pyval)) :
  (isinstance_str operator = false ->
   newTask self operator arguments dependencies name kwargs h
   = (Raise (AttributeError "operator must be a string"), h)) /\
  (isinstance_str operator = true -> isinstance_dict arguments = false ->
   newTask self operator arguments dependencies name kwargs h
   = (Raise (AttributeError "arguments must be a dict"), h)) /\
  (isinstance_str operator = true -> isinstance_dict arguments = true ->
   isinstance_dict dependencies = false ->
   newTask self operator arguments dependencies name kwargs h
   = (Raise (AttributeError "dependencies must be a dict"), h)) /\
  (isinstance_str operator = true -> isinstance_dict arguments = true ->
   isinstance_dict dependencies = true ->
   isinstance_str name = false -> name <> VNone ->
   newTask self operator arguments dependencies name kwargs h
   = (Raise (AttributeError "name must be a string"), h)) /\
  (forall op m n k,
     operator = VStr op -> arguments = VDict (as_dict m) ->
     dependencies = VDict [] -> name = val_of_name n ->
     unknown_option Workflow_task_attributes kwargs = Some k ->
     newTask self operator arguments dependencies name kwargs h
     = (Raise (AttributeError ("Unknown Task argument: " +++ k)),
        h ++ [OTask (mkTask "ophidia" n op (flatten m) [] [])])).
Proof.
  unfold newTask, newTask_parameter_check.
  split; [|split; [|split; [|split]]].
  - intros ->. reflexivity.
  - intros -> ->. reflexivity.
  - intros -> -> ->. reflexivity.
  - intros -> -> -> -> Hname.
    assert (val_eqb name VNone = false) as ->
      by (destruct name; try reflexivity; congruence).
    reflexivity.
  - intros op m n k -> -> -> -> Hk.
    assert (Hcheck :
      (if negb (isinstance_str (val_of_name n)) && negb (val_eqb (val_of_name n) VNone)
       then @raise unit (AttributeError "name must be a string") else ret tt) h
      = (Ok tt, h)) by (destruct n; reflexivity).
    cbn [isinstance_str isinstance_dict negb]. unfold bind at 1.
    rewrite Hcheck.
    assert (Hname : as_str (val_of_name n) = n) by (destruct n; reflexivity).
    unfold bind at 1. rewrite Hname. unfold Task_init. simpl unknown_option.
    cbv iota. rewrite format_arguments_strings. unfold alloc.
    unfold bind at 1. cbn [truthy]. unfold ret at 1.
    unfold bind at 1. rewrite Hk. reflexivity.
Qed.


Lemma addTask_failure_repeats_witness :
  addTask 0 4 (snd (addTask 0 4 attached_store))
  = (Raise UnresolvedDependencyError, snd (addTask 0 4 attached_store)).
Proof.
  apply (addTask_failure_repeats attached_store _ 0 4
           UnresolvedDependencyError).
  reflexivity.
Defined.

Lemma addTask_twice_witness :
  addTask 0 1 (snd (addTask 0 1 one_workflow_one_task))
  = (Raise DuplicateNameError, snd (addTask 0 1 one_workflow_one_task)).
Proof.
  apply (addTask_twice one_workflow_one_task _ 0 1).
  reflexivity.
Defined.

Lemma newTask_rejects_witness :
  newTask 0 (VInt 3) (VDict []) (VDict []) VNone [] template_store
  = (Raise (AttributeError "operator must be a string"), template_store).
Proof.
  apply (proj1 (newTask_rejects template_store 0 (VInt 3) (VDict [])
                  (VDict []) VNone [])).
  reflexivity.
Defined.

(** ** The clones built by [newSubWorkflow] *)

Lemma keeps_read_only {A} (T : heap -> Prop) (m : M A) :
  read_only m -> keeps T m.
Proof.
  intros Hro h r h' HT H. pose proof (Hro h) as R. rewrite H in R.
  simpl in R. subst. exact HT.
Qed.

Lemma keeps_bind {A B} (T : heap -> Prop) (m : M A) (f : A -> M B) :
  keeps T m -> (forall a, keeps T (f a)) -> keeps T (bind m f).
Proof.
  intros Hm Hf h r h' HT H. unfold bind in H.
  destruct (m h) as [[a|e] h1] eqn:E.
  - apply (Hf a h1 r h' (Hm h _ h1 HT E) H).
  - inversion H; subst. apply (Hm h _ h' HT E).
Qed.

Lemma keeps_forM_ {A} (T : heap -> Prop) (f : A -> M unit) (l : list A) :
  (forall a, keeps T (f a)) -> keeps T (forM_ f l).
Proof.
  intros Hf. induction l as [|x l IH]; simpl.
  - apply keeps_read_only. apply read_only_ret.
  - apply keeps_bind; [apply Hf|]. intros _. exact IH.
Qed.

Lemma same_shape_append (t t0 : Task) (d : loc) :
  same_shape t t0 -> same_shape (append_dependency t d) t0.
Proof. intros H. exact H. Qed.

Lemma keeps_append (l : loc) (t0 : Task) (d : loc) :
  keeps (shaped l t0)
    (let* t := get_task l in put l (OTask (append_dependency t d))).
Proof.
  intros h r h' (t & Hl & Hsh) H. unfold bind, get_task in H.
  rewrite Hl in H. unfold put in H. inversion H; subst.
  exists (append_dependency t d). split; [|apply same_shape_append; exact Hsh].
  apply heap_lookup_insert_eq. apply lookup_lt_Some in Hl. exact Hl.
Qed.

Lemma shaped_alloc (l : loc) (t0 : Task) (h : heap) (o : obj) :
  shaped l t0 h -> shaped l t0 (h ++ [o]).
Proof.
  intros (t & Hl & Hsh). exists t. split; [|exact Hsh].
  apply heap_lookup_app_l. exact Hl.
Qed.

Lemma keeps_addDependency (l : loc) (t0 : Task) (task argument : pyval) :
  keeps (shaped l t0) (addDependency l task argument).
Proof.
  unfold addDependency. apply keeps_bind.
  { apply keeps_read_only. unfold addDependency_parameter_check.
    destruct (negb (isinstance_str argument)); [apply read_only_raise|].
    apply read_only_bind.
    - intros h. unfold isinstance_Task.
      destruct task; try reflexivity. destruct (h !! l0) as [[]|]; reflexivity.
    - intros b. destruct (negb b); [apply read_only_raise|apply read_only_ret]. }
  intros _. apply keeps_bind.
  { apply keeps_read_only. destruct task; try apply read_only_raise.
    apply read_only_get_task. }
  intros target h r h' HT H. unfold bind at 1, alloc at 1 in H.
  apply (keeps_append l t0 (length h) (h ++ [_]) r h'
           (shaped_alloc l t0 h _ HT) H).
Qed.

Lemma keeps_copyDependency (l : loc) (t0 : Task) (d : loc) :
  keeps (shaped l t0) (copyDependency l d).
Proof. unfold copyDependency. apply keeps_append. Qed.

Lemma keeps_find_root_tasks_add_dependencies (l : loc) (t0 : Task)
    (task : loc) (dependencies : pyval) :
  keeps (shaped l t0) (find_root_tasks_add_dependencies task dependencies l).
Proof.
  unfold find_root_tasks_add_dependencies. apply keeps_bind.
  { apply keeps_read_only. apply read_only_get_task. }
  intros t.
  destruct (Nat.eqb (length (t_dependencies t)) 0);
    [|apply keeps_read_only; apply read_only_ret].
  destruct dependencies; try (apply keeps_read_only; apply read_only_raise).
  apply keeps_forM_. intros dependency. apply keeps_bind.
  { apply keeps_read_only. apply read_only_dependency_check. }
  intros _.
  destruct dependency; try (apply keeps_read_only; apply read_only_raise).
  destruct (Nat.eqb (length d0) 1).
  - apply keeps_bind;
      [apply keeps_read_only; apply read_only_val_subscript|].
    intros target. apply keeps_addDependency.
  - apply keeps_bind;
      [apply keeps_read_only; apply read_only_val_subscript|].
    intros target. apply keeps_bind;
      [apply keeps_read_only; apply read_only_val_subscript|].
    intros argument. apply keeps_addDependency.
Qed.

Lemma keeps_add_dependencies (l : loc) (t0 : Task) (task : loc)
    (prefix : string) :
  keeps (shaped l t0) (add_dependencies task l prefix).
Proof.
  unfold add_dependencies. apply keeps_bind.
  { apply keeps_read_only. apply read_only_get_task. }
  intros t.
  destruct (Nat.ltb 0 (length (t_dependencies t)));
    [|apply keeps_read_only; apply read_only_ret].
  apply keeps_forM_. intros dl. apply keeps_bind.
  { apply keeps_read_only. apply read_only_get_edge. }
  intros d h r h' HT H. unfold bind at 1, alloc at 1 in H.
  pose proof (shaped_alloc l t0 h (ODict d) HT) as HT1.
  apply bind_inv_ro in H; [|apply read_only_subscript].
  destruct H as [[target H]|[-> _]]; [|exact HT1].
  unfold bind at 1, put at 1 in H.
  assert (HT2 : shaped l t0
            (<[length h := ODict (assoc_set String.eqb "task"
                 (Some (fix_dependency_name target prefix)) d)]>
               (h ++ [ODict d]))).
  { destruct HT as (t1 & Hl & Hsh). exists t1. split; [|exact Hsh].
    rewrite heap_lookup_insert_ne
      by (apply lookup_lt_Some in Hl; lia).
    apply heap_lookup_app_l. exact Hl. }
  apply (keeps_copyDependency l t0 (length h) _ r h' HT2 H).
Qed.

Lemma bind_ok_inv {A B} (m : M A) (f : A -> M B) (h h' : heap) (b : B) :
  bind m f h = (Ok b, h') ->
  exists a h1, m h = (Ok a, h1) /\ f a h1 = (Ok b, h').
Proof.
  unfold bind. destruct (m h) as [[a|e] h1]; [|discriminate].
  intros H. exists a, h1. split; [reflexivity|exact H].
Qed.

Lemma bind_ok_inv_ro {A B} (m : M A) (f : A -> M B) (h h' : heap) (b : B) :
  read_only m -> bind m f h = (Ok b, h') ->
  exists a, m h = (Ok a, h) /\ f a h = (Ok b, h').
Proof.
  intros Hro H. destruct (bind_ok_inv m f h h' b H) as (a & h1 & E & H1).
  pose proof (Hro h) as R. rewrite E in R. simpl in R. subst h1.
  exists a. split; assumption.
Qed.

Lemma add_task_name_eq (h : heap) (self : loc) (w : Workflow)
    (label : string) (previous : option string) (task_id : nat) :
  h !! self = Some (OWorkflow w) ->
  add_task_name self label previous task_id h
  = (Ok (clone_name (w_name w) label task_id previous), h).
Proof.
  intros Hs. unfold add_task_name, clone_name.
  destruct (negb (String.eqb label "")); [reflexivity|].
  unfold bind, get_workflow. rewrite Hs. reflexivity.
Qed.

Lemma preserves_weaken (n : nat) (self : loc) (h h' : heap) :
  preserves n n h h' -> preserves n self h h'.
Proof.
  intros [L P]. split; [exact L|]. intros l Hl _. apply P; lia.
Qed.

Lemma embed_tasks_clones (self : loc) (params : list (pyval * pyval))
    (dependency : pyval) (label host : string) (tasks : list loc) :
  forall (task_id : nat) (all_tasks : list loc)
         (non_leaf_tasks : list (option string)) (h h' : heap)
         (res : list loc * list (option string)) (w : Workflow),
  h !! self = Some (OWorkflow w) -> w_name w = host ->
  embed_tasks self params dependency label tasks task_id all_tasks
    non_leaf_tasks h = (Ok res, h') ->
  exists added,
    fst res = all_tasks ++ added /\
    forall i lt original,
      tasks !! i = Some lt -> h !! lt = Some (OTask original) ->
      exists l clone,
        added !! i = Some l /\ h' !! l = Some (OTask clone) /\
        is_clone params host label (task_id + i) original clone.
Proof.
  induction tasks as [|task rest IH];
    intros task_id all_tasks non_leaf_tasks h h' res w Hs Hw H; simpl in H.
  - inversion H; subst. exists []. rewrite app_nil_r. split; [reflexivity|].
    intros i lt original Hi. destruct i; discriminate.
  - apply bind_ok_inv_ro in H; [|apply read_only_get_task].
    destruct H as (t & Et & H).
    unfold get_task in Et.
    destruct (h !! task) as [[t'| |]|] eqn:Htask; try discriminate.
    inversion Et; subst t'. clear Et.
    apply bind_ok_inv_ro in H; [|apply read_only_add_task_name].
    destruct H as (nm & Enm & H).
    rewrite (add_task_name_eq h self w label (t_name t) task_id Hs), Hw in Enm.
    inversion Enm; subst nm. clear Enm.
    apply bind_ok_inv_ro in H; [|apply read_only_reverted_arguments].
    destruct H as (m & Em & H).
    unfold reverted_arguments, bind, get_task, lift in Em.
    rewrite Htask in Em. inversion Em as [Em']. clear Em.
    apply bind_ok_inv_ro in H; [|apply read_only_lift].
    destruct H as (m' & Em2 & H). unfold lift in Em2.
    inversion Em2 as [Em2']. clear Em2.
    apply bind_ok_inv in H. destruct H as (new_task & h1 & Einit & H).
    change (map (fun kv : string * string => (VStr (fst kv), VStr (snd kv))) m')
      with (as_dict m') in Einit.
    unfold Task_init in Einit. simpl unknown_option in Einit.
    cbv iota in Einit. rewrite format_arguments_strings in Einit.
    unfold alloc in Einit. inversion Einit; subst new_task h1. clear Einit.
    set (t0 := mkTask "ophidia"
                 (Some (clone_name host label task_id (t_name t)))
                 (t_operator t) (flatten m') [] (dict_update [] [])) in *.
    assert (T1 : shaped (length h) t0 (h ++ [OTask t0])).
    { exists t0. split; [apply lookup_alloc|]. repeat split. }
    assert (P1 : preserves (length h) (length h) h (h ++ [OTask t0])).
    { split; [rewrite length_app; lia|].
      intros l Hl _. apply lookup_app_l. exact Hl. }
    assert (L1 : length h <= length (h ++ [OTask t0]))
      by (destruct P1; assumption).
    apply bind_ok_inv in H. destruct H as ([] & h2 & E2 & H).
    pose proof (keeps_find_root_tasks_add_dependencies (length h) t0 task
                  dependency _ _ _ T1 E2) as T2.
    destruct (frames_find_root_tasks_add_dependencies (length h) (length h)
                task (length h) dependency (le_n _) _ _ _ L1 E2) as [P2 _].
    pose proof (preserves_trans _ _ _ _ _ P1 P2) as P12.
    assert (L2 : length h <= length h2) by (destruct P12; assumption).
    apply bind_ok_inv in H. destruct H as ([] & h3 & E3 & H).
    pose proof (keeps_add_dependencies (length h) t0 task label _ _ _ T2 E3)
      as T3.
    destruct (frames_add_dependencies (length h) (length h) task (length h)
                label (le_n _) _ _ _ L2 E3) as [P3 _].
    pose proof (preserves_trans _ _ _ _ _ P12 P3) as P123.
    assert (L3 : length h <= length h3) by (destruct P123; assumption).
    apply bind_ok_inv in H. destruct H as ([] & h4 & E4 & H).
    assert (Hs3 : h3 !! self = Some (OWorkflow w))
      by (apply (preserves_lookup h h3 self _ P123 Hs)).
    destruct T3 as (t3 & Hl3 & Hsh3).
    destruct (addTask_effect h3 h4 self (length h) (Ok tt) E4)
      as (Hlen4 & _ & _ & Hnamed).
    destruct (Hnamed t3 Hl3) as (n & Hl4 & Hn).
    assert (Hname3 : t_name t3 = Some (clone_name host label task_id (t_name t)))
      by (destruct Hsh3 as (_ & E & _); exact E).
    rewrite Hn in Hl4 by (rewrite Hname3; discriminate).
    rewrite set_name_same in Hl4.
    destruct (frames_addTask (length h) self (length h) (le_n _) _ _ _ L3 E4)
      as [P4 _].
    pose proof (preserves_trans _ _ _ _ _
                  (preserves_weaken _ self _ _ P123) P4) as P1234.
    assert (Hs4 : exists w4, h4 !! self = Some (OWorkflow w4) /\ w_name w4 = host).
    { destruct (addTask_cases h3 h4 self (length h) (Ok tt) E4)
        as [[[e He] _]|(w3 & tx & Hs3' & _ & _ &
                        [[[e He] _]|(_ & -> & _)])]; try discriminate.
      rewrite Hs3 in Hs3'. inversion Hs3'; subst w3.
      exists (attach w (length h)). split; [|exact Hw].
      apply heap_lookup_insert_eq. rewrite name_assigned_length.
      apply lookup_lt_Some in Hs3. exact Hs3. }
    destruct Hs4 as (w4 & Hs4 & Hw4).
    apply bind_ok_inv_ro in H; [|apply read_only_dependency_targets].
    destruct H as (targets & _ & H).
    destruct (IH _ _ _ _ _ _ w4 Hs4 Hw4 H) as (added & Hres & Hclones).
    exists (length h :: added). split.
    { rewrite Hres, <- app_assoc. reflexivity. }
    assert (Hself : self < length h) by (apply lookup_lt_Some in Hs; exact Hs).
    destruct (frames_embed_tasks (length h4) self params dependency label rest
                (S task_id) (all_tasks ++ [length h])
                (non_leaf_tasks ++ targets) h4 (Ok res) h' (le_n _) H)
      as [[_ P5] _].
    intros i lt original Hi Hlt. destruct i as [|j].
    + inversion Hi; subst lt. rewrite Htask in Hlt.
      inversion Hlt; subst original.
      exists (length h), t3. split; [reflexivity|]. split.
      * rewrite P5; [exact Hl4| |lia].
        apply lookup_lt_Some in Hl4. exact Hl4.
      * destruct Hsh3 as (S1 & S2 & S3 & S4 & S5).
        rewrite Nat.add_0_r. unfold is_clone.
        rewrite S1, S2, S3, S4, S5. repeat split.
        exists m, m'. repeat split; assumption.
    + simpl in Hi.
      assert (Hlt4 : h4 !! lt = Some (OTask original)).
      { rewrite <- Hlt. destruct P1234 as [_ P]. apply P.
        - apply lookup_lt_Some in Hlt. exact Hlt.
        - intros ->. rewrite Hs in Hlt. discriminate. }
      destruct (Hclones j lt original Hi Hlt4) as (l & clone & Hl & Hc & Hic).
      exists l, clone. split; [exact Hl|]. split; [exact Hc|].
      replace (task_id + S j) with (S task_id + j) by lia. exact Hic.
Qed.

(** X19. What a successful embedding call builds: the host gains one clone
    per template task, in the template's order, and the clone of the i-th
    template task (counted from 1) is an ophidia task without options that
    has the operator of the original, the name [name_original] (or
    [host_i_original] when the given name is empty), and as arguments those
    of the original after [check_replace_args] with the call's [params]. *)
Theorem newSubWorkflow_clones
    (h h' : heap) (self template : loc) (w0 wt : Workflow)
    (params : list (pyval * pyval)) (dependency : pyval) (label : string)
    (res : list loc) :
  h !! self = Some (OWorkflow w0) ->
  h !! template = Some (OWorkflow wt) ->
  newSubWorkflow self (VRef template) (VDict params) dependency (VStr label) h
    = (Ok res, h') ->
  exists added,
    h' !! self = Some (OWorkflow (attach_all w0 added)) /\
    length added = length (w_tasks wt) /\
    forall i lt original,
      w_tasks wt !! i = Some lt -> h !! lt = Some (OTask original) ->
      exists l clone,
        added !! i = Some l /\ h' !! l = Some (OTask clone) /\
        is_clone params (w_name w0) label (S i) original clone.
Proof.
  intros Hs Ht H. unfold newSubWorkflow in H.
  apply bind_ok_inv_ro in H;
    [|apply read_only_newSubWorkflow_parameter_check].
  destruct H as (_ & _ & H).
  apply bind_ok_inv_ro in H; [|apply read_only_validate_workflow].
  destruct H as (_ & _ & H).
  unfold bind at 1, get_workflow at 1 in H. rewrite Ht in H.
  apply bind_ok_inv in H. destruct H as (res0 & h1 & E & H).
  pose proof (read_only_filterM
    (fun t => let* tk := get_task t in
              ret (negb (mem_name (t_name tk) (snd res0)))) (fst res0)
    (fun t => read_only_bind _ _ (read_only_get_task t)
                (fun tk => read_only_ret _)) h1) as Hro.
  rewrite H in Hro. simpl in Hro. subst h1.
  destruct (embed_tasks_invariant
              (grown self w0 (length h))
              self
              (grown_fresh self w0 (length h))
              (grown_attach self w0 (length h))
              (grown_reject self w0 (length h))
              params dependency label (w_tasks wt) 1 [] [] [] h h' (Ok res0))
    as (added & (Hs' & _) & Hres & Hlen).
  { split; [exact Hs|]. split; [lia|constructor]. }
  { exact E. }
  destruct (embed_tasks_clones self params dependency label (w_name w0)
              (w_tasks wt) 1 [] [] h h' res0 w0 Hs eq_refl E)
    as (added' & Hres' & Hclones).
  simpl in Hres, Hres', Hs'. rewrite Hres in Hres'. subst added'.
  exists added. split; [exact Hs'|]. split; [exact Hlen|].
  intros i lt original Hi Hlt.
  apply (Hclones i lt original Hi Hlt).
Qed.

Lemma newSubWorkflow_clones_witness :
  exists added,
    snd (newSubWorkflow 0 (VRef 1) (VDict [(VStr "$size", VStr "big")])
           (VDict []) (VStr "sub") size_store) !! 0
    = Some (OWorkflow (attach_all (mkWorkflow "host" None None [] 1 []) added))
    /\ length added = 1.
Proof.
  destruct (newSubWorkflow_clones size_store _ 0 1
              (mkWorkflow "host" None None [] 1 [])
              (mkWorkflow "template" None None [2] 2 [])
              [(VStr "$size", VStr "big")] (VDict []) "sub" [3]
              eq_refl eq_refl eq_refl)
    as (added & Hs & Hl & _).
  exists added. split; [exact Hs|exact Hl].
Defined.

(** ** The edges of the clones *)

Lemma add_dependencies_loop (prefix : string) (new_task : loc) (h0 : heap)
    (deps : list loc) :
  forall (h h' : heap) (nt : Task),
  length h0 <= new_task ->
  length h0 <= length h ->
  (forall l, l < length h0 -> h !! l = h0 !! l) ->
  h !! new_task = Some (OTask nt) ->
  forM_ (fun dl =>
      let* d := get_edge dl in
      let* dep_dict := alloc (ODict d) in
      let* target := subscript "task" d in
      run put dep_dict
            (ODict (assoc_set String.eqb "task"
                      (Some (fix_dependency_name target prefix)) d)) in
      copyDependency new_task dep_dict) deps h = (Ok tt, h') ->
  exists nt' news,
    h' !! new_task = Some (OTask nt') /\ same_shape nt' nt /\
    t_dependencies nt' = t_dependencies nt ++ news /\
    length h <= length h' /\
    (forall l, l < length h -> l <> new_task -> h' !! l = h !! l) /\
    length news = length deps /\
    List.Forall (fun lc => length h <= lc) news /\
    forall j ld d,
      deps !! j = Some ld -> h0 !! ld = Some (ODict d) ->
      exists target lc,
        assoc_get String.eqb "task" d = Some target /\
        news !! j = Some lc /\
        h' !! lc = Some (ODict (renamed_edge prefix d target)).
Proof.
  induction deps as [|dl deps IH]; intros h h' nt Hnew Hlen Hagree Hnt H.
  - simpl in H. inversion H; subst h'. exists nt, [].
    split; [exact Hnt|]. split; [repeat split|].
    split; [rewrite app_nil_r; reflexivity|]. split; [lia|].
    split; [reflexivity|]. split; [reflexivity|]. split; [constructor|].
    intros j ld d Hj. destruct j; discriminate.
  - cbn [forM_] in H. apply bind_ok_inv in H. destruct H as ([] & h3 & E & H).
    apply bind_ok_inv_ro in E; [|apply read_only_get_edge].
    destruct E as (d0 & Ed & E). unfold get_edge in Ed.
    destruct (h !! dl) as [[| |d0']|] eqn:Hdl; try discriminate.
    inversion Ed; subst d0'. clear Ed.
    unfold bind at 1, alloc at 1 in E.
    apply bind_ok_inv_ro in E; [|apply read_only_subscript].
    destruct E as (target0 & Et & E). unfold subscript in Et.
    destruct (assoc_get String.eqb "task" d0) as [tg|] eqn:Hg;
      [|discriminate].
    inversion Et; subst tg. clear Et.
    unfold bind at 1, put at 1 in E.
    assert (Hlt : new_task < length h)
      by (apply lookup_lt_Some in Hnt; exact Hnt).
    unfold copyDependency, bind, get_task in E.
    rewrite heap_lookup_insert_ne in E by lia.
    rewrite (heap_lookup_app_l h _ new_task _ Hnt) in E.
    unfold put in E. inversion E as [E3]. clear E.
    assert (L3 : length h3 = S (length h)).
    { rewrite <- E3. rewrite !heap_length_insert, length_app. simpl. lia. }
    assert (A3 : forall l, l < length h -> l <> new_task -> h3 !! l = h !! l).
    { intros l Hl Hne. rewrite <- E3.
      rewrite heap_lookup_insert_ne by congruence.
      rewrite heap_lookup_insert_ne by lia.
      apply lookup_app_l. exact Hl. }
    assert (N3 : h3 !! new_task = Some (OTask (append_dependency nt (length h)))).
    { rewrite <- E3. apply heap_lookup_insert_eq.
      rewrite heap_length_insert, length_app. simpl. lia. }
    assert (C3 : h3 !! length h
                 = Some (ODict (renamed_edge prefix d0 target0))).
    { rewrite <- E3. rewrite heap_lookup_insert_ne by lia.
      apply heap_lookup_insert_eq. rewrite length_app. simpl. lia. }
    destruct (IH h3 h' (append_dependency nt (length h)) Hnew) with (4 := H)
      as (nt' & news & Hnt' & Hsh & Hdeps & Hlen' & Hframe & Hn & Hfresh & Hc).
    { lia. }
    { intros l Hl. rewrite A3 by lia. apply Hagree. exact Hl. }
    { exact N3. }
    exists nt', (length h :: news).
    split; [exact Hnt'|]. split; [exact Hsh|].
    split; [rewrite Hdeps; cbn [append_dependency t_dependencies];
            rewrite <- app_assoc; reflexivity|].
    split; [lia|].
    split; [intros l Hl Hne; rewrite Hframe by lia; apply A3; assumption|].
    split; [simpl; rewrite Hn; reflexivity|].
    split.
    { constructor; [lia|]. eapply Forall_impl; [exact Hfresh|].
      simpl. intros a Ha. lia. }
    intros j ld d Hj Hd. destruct j as [|j].
    + inversion Hj; subst ld.
      assert (Hd' : h !! dl = Some (ODict d)).
      { rewrite Hagree; [exact Hd|]. apply lookup_lt_Some in Hd. exact Hd. }
      rewrite Hdl in Hd'. inversion Hd'; subst d0.
      exists target0, (length h). split; [exact Hg|]. split; [reflexivity|].
      rewrite Hframe by lia. exact C3.
    + apply (Hc j ld d Hj Hd).
Qed.

Lemma add_dependencies_copies (task new_task : loc) (prefix : string)
    (h0 h h' : heap) (t nt : Task) :
  length h0 <= new_task ->
  length h0 <= length h ->
  (forall l, l < length h0 -> h !! l = h0 !! l) ->
  h !! task = Some (OTask t) ->
  h !! new_task = Some (OTask nt) ->
  t_dependencies nt = [] ->
  add_dependencies task new_task prefix h = (Ok tt, h') ->
  exists nt',
    h' !! new_task = Some (OTask nt') /\ same_shape nt' nt /\
    length h <= length h' /\
    (forall l, l < length h -> l <> new_task -> h' !! l = h !! l) /\
    List.Forall (fun lc => length h <= lc) (t_dependencies nt') /\
    copies prefix h0 (t_dependencies t) (t_dependencies nt') h'.
Proof.
  intros Hnew Hlen Hagree Ht Hnt Hnil H.
  unfold add_dependencies, bind at 1, get_task at 1 in H. rewrite Ht in H.
  destruct (Nat.ltb 0 (length (t_dependencies t))) eqn:Hpos.
  - destruct (add_dependencies_loop prefix new_task h0 (t_dependencies t)
                h h' nt Hnew Hlen Hagree Hnt H)
      as (nt' & news & Hnt' & Hsh & Hdeps & Hlen' & Hframe & Hn & Hfresh & Hc).
    rewrite Hnil in Hdeps. simpl in Hdeps. subst news.
    exists nt'. split; [exact Hnt'|]. split; [exact Hsh|].
    split; [exact Hlen'|]. split; [exact Hframe|]. split; [exact Hfresh|].
    split; [exact Hn|]. split; [|exact Hc].
    eapply Forall_impl; [exact Hfresh|]. simpl. intros a Ha. lia.
  - inversion H; subst h'. apply Nat.ltb_ge in Hpos.
    assert (Hd : t_dependencies t = [])
      by (destruct (t_dependencies t); [reflexivity|simpl in Hpos; lia]).
    exists nt. split; [exact Hnt|]. split; [repeat split|].
    split; [lia|]. split; [reflexivity|].
    rewrite Hnil, Hd. split; [constructor|].
    split; [reflexivity|]. split; [constructor|].
    intros j ld d Hj. destruct j; discriminate.
Qed.

Lemma find_root_tasks_no_dependency (task new_task : loc) (dependency : pyval)
    (h h' : heap) (t : Task) :
  h !! task = Some (OTask t) ->
  dependency = VDict [] \/ t_dependencies t <> [] ->
  find_root_tasks_add_dependencies task dependency new_task h = (Ok tt, h') ->
  h' = h.
Proof.
  intros Ht Hc H.
  unfold find_root_tasks_add_dependencies, bind at 1, get_task at 1 in H.
  rewrite Ht in H.
  destruct (Nat.eqb (length (t_dependencies t)) 0) eqn:Hz.
  - destruct Hc as [->|Hne].
    + simpl in H. inversion H. reflexivity.
    + apply Nat.eqb_eq in Hz. destruct (t_dependencies t);
        [congruence|discriminate].
  - inversion H. reflexivity.
Qed.

Lemma copies_earlier (prefix : string) (h h4 h' : heap) (self : loc)
    (w : Workflow) (olds news : list loc) :
  h !! self = Some (OWorkflow w) ->
  preserves (length h) self h h4 ->
  copies prefix h4 olds news h' ->
  copies prefix h olds news h'.
Proof.
  intros Hs [L P] (Hn & Hf & Hc). split; [exact Hn|]. split.
  - eapply Forall_impl; [exact Hf|]. simpl. intros a Ha. lia.
  - intros j ld d Hj Hd. apply (Hc j ld d Hj).
    rewrite P; [exact Hd| |].
    + apply lookup_lt_Some in Hd. exact Hd.
    + intros ->. rewrite Hs in Hd. discriminate.
Qed.

Lemma embed_tasks_edges (self : loc) (params : list (pyval * pyval))
    (dependency : pyval) (label : string) (tasks : list loc) :
  forall (task_id : nat) (all_tasks : list loc)
         (non_leaf_tasks : list (option string)) (h h' : heap)
         (res : list loc * list (option string)) (w : Workflow),
  h !! self = Some (OWorkflow w) ->
  embed_tasks self params dependency label tasks task_id all_tasks
    non_leaf_tasks h = (Ok res, h') ->
  exists added,
    fst res = all_tasks ++ added /\
    forall i lt original,
      tasks !! i = Some lt -> h !! lt = Some (OTask original) ->
      dependency = VDict [] \/ t_dependencies original <> [] ->
      exists l clone,
        added !! i = Some l /\ h' !! l = Some (OTask clone) /\
        copies label h (t_dependencies original) (t_dependencies clone) h'.
Proof.
  induction tasks as [|task rest IH];
    intros task_id all_tasks non_leaf_tasks h h' res w Hs H; simpl in H.
  - inversion H; subst. exists []. rewrite app_nil_r. split; [reflexivity|].
    intros i lt original Hi. destruct i; discriminate.
  - apply bind_ok_inv_ro in H; [|apply read_only_get_task].
    destruct H as (t & Et & H).
    unfold get_task in Et.
    destruct (h !! task) as [[t'| |]|] eqn:Htask; try discriminate.
    inversion Et; subst t'. clear Et.
    apply bind_ok_inv_ro in H; [|apply read_only_add_task_name].
    destruct H as (nm & _ & H).
    apply bind_ok_inv_ro in H; [|apply read_only_reverted_arguments].
    destruct H as (m & _ & H).
    apply bind_ok_inv_ro in H; [|apply read_only_lift].
    destruct H as (m' & _ & H).
    apply bind_ok_inv in H. destruct H as (new_task & h1 & Einit & H).
    change (map (fun kv : string * string => (VStr (fst kv), VStr (snd kv))) m')
      with (as_dict m') in Einit.
    unfold Task_init in Einit. simpl unknown_option in Einit.
    cbv iota in Einit. rewrite format_arguments_strings in Einit.
    unfold alloc in Einit. inversion Einit; subst new_task h1. clear Einit.
    set (t0 := mkTask "ophidia" (Some nm) (t_operator t) (flatten m') []
                 (dict_update [] [])) in *.
    assert (Hself : self < length h) by (apply lookup_lt_Some in Hs; exact Hs).
    assert (Htl : task < length h)
      by (apply lookup_lt_Some in Htask; exact Htask).
    assert (P1 : preserves (length h) (length h) h (h ++ [OTask t0])).
    { split; [rewrite length_app; lia|].
      intros l Hl _. apply lookup_app_l. exact Hl. }
    assert (L1 : length h <= length (h ++ [OTask t0]))
      by (destruct P1; assumption).
    apply bind_ok_inv in H. destruct H as ([] & h2 & E2 & H).
    destruct (frames_find_root_tasks_add_dependencies (length h) (length h)
                task (length h) dependency (le_n _) _ _ _ L1 E2) as [P2 _].
    pose proof (preserves_trans _ _ _ _ _ P1 P2) as P12.
    assert (L2 : length h <= length h2) by (destruct P12; assumption).
    apply bind_ok_inv in H. destruct H as ([] & h3 & E3 & H).
    destruct (frames_add_dependencies (length h) (length h) task (length h)
                label (le_n _) _ _ _ L2 E3) as [P3 _].
    pose proof (preserves_trans _ _ _ _ _ P12 P3) as P123.
    assert (L3 : length h <= length h3) by (destruct P123; assumption).
    apply bind_ok_inv in H. destruct H as ([] & h4 & E4 & H).
    assert (Hs3 : h3 !! self = Some (OWorkflow w))
      by (apply (preserves_lookup h h3 self _ P123 Hs)).
    destruct (frames_addTask (length h) self (length h) (le_n _) _ _ _ L3 E4)
      as [P4 _].
    pose proof (preserves_trans _ _ _ _ _
                  (preserves_weaken _ self _ _ P123) P4) as P1234.
    assert (Hs4 : exists w4, h4 !! self = Some (OWorkflow w4)).
    { destruct (addTask_cases h3 h4 self (length h) (Ok tt) E4)
        as [[[e He] _]|(w3 & tx & Hs3' & _ & _ &
                        [[[e He] _]|(_ & -> & _)])]; try discriminate.
      exists (attach w3 (length h)).
      apply heap_lookup_insert_eq. rewrite name_assigned_length.
      apply lookup_lt_Some in Hs3. exact Hs3. }
    destruct Hs4 as (w4 & Hs4).
    apply bind_ok_inv_ro in H; [|apply read_only_dependency_targets].
    destruct H as (targets & _ & H).
    destruct (IH _ _ _ _ _ _ w4 Hs4 H) as (added & Hres & Hclones).
    exists (length h :: added). split.
    { rewrite Hres, <- app_assoc. reflexivity. }
    destruct (frames_embed_tasks (length h4) self params dependency label rest
                (S task_id) (all_tasks ++ [length h])
                (non_leaf_tasks ++ targets) h4 (Ok res) h' (le_n _) H)
      as [[L5 P5] _].
    intros i lt original Hi Hlt Hcase. destruct i as [|j].
    + inversion Hi; subst lt. rewrite Htask in Hlt.
      inversion Hlt; subst original.
      assert (Ht1 : (h ++ [OTask t0]) !! task = Some (OTask t))
        by (apply heap_lookup_app_l; exact Htask).
      pose proof (find_root_tasks_no_dependency task (length h) dependency
                    _ _ t Ht1 Hcase E2) as ->.
      assert (A1 : forall l, l < length h -> (h ++ [OTask t0]) !! l = h !! l)
        by (intros l Hl; apply lookup_app_l; exact Hl).
      destruct (add_dependencies_copies task (length h) label h
                  (h ++ [OTask t0]) h3 t t0 (le_n _) L1 A1 Ht1
                  (lookup_alloc h (OTask t0)) eq_refl E3)
        as (nt' & Hnt' & Hsh & Hlen3 & Hframe3 & Hfresh3 & Hcopies).
      destruct (addTask_effect h3 h4 self (length h) (Ok tt) E4)
        as (Hlen4 & Hother4 & _ & Hnamed).
      destruct (Hnamed nt' Hnt') as (n & Hl4 & Hn).
      assert (Hname : t_name nt' = Some nm)
        by (destruct Hsh as (_ & E & _); exact E).
      rewrite Hn in Hl4 by (rewrite Hname; discriminate).
      rewrite set_name_same in Hl4.
      exists (length h), nt'. split; [reflexivity|]. split.
      * rewrite P5; [exact Hl4| |lia].
        apply lookup_lt_Some in Hl4. exact Hl4.
      * destruct Hcopies as (Hn' & Hf' & Hc'). split; [exact Hn'|].
        split; [exact Hf'|].
        intros k ld d Hk Hd.
        destruct (Hc' k ld d Hk Hd) as (target & lc & Hg & Hlc & Hh3).
        exists target, lc. split; [exact Hg|]. split; [exact Hlc|].
        assert (Hlc3 : lc < length h3)
          by (apply lookup_lt_Some in Hh3; exact Hh3).
        assert (Hge : length (h ++ [OTask t0]) <= lc).
          by (apply (Forall_lookup_1 _ _ _ _ Hfresh3 Hlc)).
        rewrite length_app in Hge. simpl in Hge.
        rewrite P5; [| lia | lia].
        rewrite Hother4; [exact Hh3| lia | lia].
    + simpl in Hi.
      assert (Hlt4 : h4 !! lt = Some (OTask original)).
      { rewrite <- Hlt. destruct P1234 as [_ P]. apply P.
        - apply lookup_lt_Some in Hlt. exact Hlt.
        - intros ->. rewrite Hs in Hlt. discriminate. }
      destruct (Hclones j lt original Hi Hlt4 Hcase)
        as (l & clone & Hl & Hc & Hcp).
      exists l, clone. split; [exact Hl|]. split; [exact Hc|].
      apply (copies_earlier label h h4 h' self w _ _ Hs P1234 Hcp).
Qed.

(** X20. The edges of the clones after a successful embedding call.  For a
    template task that has edges (and for every template task when
    [dependency] is empty) the clone has as many edges as the original, in
    the same order; each edge is a dictionary created by the call, equal to
    the original's dictionary except that its ["task"] is the original target
    renamed by [fix_dependency_name] with the name given to the call.  The
    clone never shares an edge dictionary with the template. *)
Theorem newSubWorkflow_clone_edges
    (h h' : heap) (self template : loc) (w0 wt : Workflow)
    (params : list (pyval * pyval)) (dependency : pyval) (label : string)
    (res : list loc) :
  h !! self = Some (OWorkflow w0) ->
  h !! template = Some (OWorkflow wt) ->
  newSubWorkflow self (VRef template) (VDict params) dependency (VStr label) h
    = (Ok res, h') ->
  exists added,
    h' !! self = Some (OWorkflow (attach_all w0 added)) /\
    forall i lt original,
      w_tasks wt !! i = Some lt -> h !! lt = Some (OTask original) ->
      dependency = VDict [] \/ t_dependencies original <> [] ->
      exists l clone,
        added !! i = Some l /\ h' !! l = Some (OTask clone) /\
        length (t_dependencies clone) = length (t_dependencies original) /\
        List.Forall (fun lc => length h <= lc) (t_dependencies clone) /\
        forall j ld d,
          t_dependencies original !! j = Some ld ->
          h !! ld = Some (ODict d) ->
          exists target lc,
            assoc_get String.eqb "task" d = Some target /\
            t_dependencies clone !! j = Some lc /\
            h' !! lc
            = Some (ODict (assoc_set String.eqb "task"
                             (Some (fix_dependency_name target label)) d)).
Proof.
  intros Hs Ht H. unfold newSubWorkflow in H.
  apply bind_ok_inv_ro in H;
    [|apply read_only_newSubWorkflow_parameter_check].
  destruct H as (_ & _ & H).
  apply bind_ok_inv_ro in H; [|apply read_only_validate_workflow].
  destruct H as (_ & _ & H).
  unfold bind at 1, get_workflow at 1 in H. rewrite Ht in H.
  apply bind_ok_inv in H. destruct H as (res0 & h1 & E & H).
  pose proof (read_only_filterM
    (fun t => let* tk := get_task t in
              ret (negb (mem_name (t_name tk) (snd res0)))) (fst res0)
    (fun t => read_only_bind _ _ (read_only_get_task t)
                (fun tk => read_only_ret _)) h1) as Hro.
  rewrite H in Hro. simpl in Hro. subst h1.
  destruct (embed_tasks_invariant
              (grown self w0 (length h))
              self
              (grown_fresh self w0 (length h))
              (grown_attach self w0 (length h))
              (grown_reject self w0 (length h))
              params dependency label (w_tasks wt) 1 [] [] [] h h' (Ok res0))
    as (added & (Hs' & _) & Hres & Hlen).
  { split; [exact Hs|]. split; [lia|constructor]. }
  { exact E. }
  destruct (embed_tasks_edges self params dependency label
              (w_tasks wt) 1 [] [] h h' res0 w0 Hs E)
    as (added' & Hres' & Hclones).
  simpl in Hres, Hres', Hs'. rewrite Hres in Hres'. subst added'.
  exists added. split; [exact Hs'|].
  intros i lt original Hi Hlt Hcase.
  destruct (Hclones i lt original Hi Hlt Hcase)
    as (l & clone & Hl & Hc & Hn & Hf & Hcp).
  exists l, clone. split; [exact Hl|]. split; [exact Hc|].
  split; [exact Hn|]. split; [exact Hf|]. exact Hcp.
Qed.

Lemma newSubWorkflow_clone_edges_witness :
  exists l clone lc,
    snd (newSubWorkflow 0 (VRef 1) (VDict []) (VDict []) (VStr "sub")
           template_store) !! l = Some (OTask clone) /\
    t_dependencies clone = [lc] /\
    snd (newSubWorkflow 0 (VRef 1) (VDict []) (VDict []) (VStr "sub")
           template_store) !! lc
    = Some (ODict (assoc_set String.eqb "task" (Some "sub_A")
                     (all_edge "x" (Some "A")))).
Proof.
  destruct (newSubWorkflow_clone_edges template_store _ 0 1
              (mkWorkflow "host" None None [] 1 [])
              (mkWorkflow "template" None None [2; 3] 3 [])
              [] (VDict []) "sub" [5; 6]
              eq_refl eq_refl eq_refl)
    as (added & _ & Hc).
  destruct (Hc 1 3 (mkTask "ophidia" (Some "B") "oph_b" ["k=v"] [4] [])
              eq_refl eq_refl (or_introl eq_refl))
    as (l & clone & _ & Hl & Hn & _ & He).
  destruct (He 0 4 (all_edge "x" (Some "A")) eq_refl eq_refl)
    as (target & lc & Hg & Hlc & Hd).
  exists l, clone, lc. split; [exact Hl|]. split.
  - destruct (t_dependencies clone) as [|x [|y r]]; try discriminate.
    inversion Hlc. reflexivity.
  - inversion Hg; subst target. exact Hd.
Defined.

(** ** The class-level list and [deinit] *)

Lemma assoc_has_keys {V} (k : string) (d : list (string * V)) :
  assoc_has String.eqb k d = true <-> In k (map fst d).
Proof.
  unfold assoc_has. induction d as [|[k' v] d IH]; simpl.
  - split; [discriminate|intros []].
  - destruct (String.eqb k' k) eqn:E.
    + apply String.eqb_eq in E. split; [intros _; left; exact E|reflexivity].
    + rewrite IH. split; [intros H; right; exact H|].
      intros [H|H]; [|exact H]. subst. rewrite String.eqb_refl in E.
      discriminate.
Qed.

Lemma assoc_del_keys (k k' : string) (d : instance_dict) :
  In k' (map fst (assoc_del k d)) <-> k' <> k /\ In k' (map fst d).
Proof.
  unfold assoc_del. rewrite !in_map_iff. split.
  - intros ([a v] & E & Hin). simpl in E. subst a.
    apply filter_In in Hin. destruct Hin as [Hin Hf]. simpl in Hf.
    apply negb_true_iff, String.eqb_neq in Hf.
    split; [exact Hf|]. exists (k', v). split; [reflexivity|exact Hin].
  - intros (Hne & [a v] & E & Hin). simpl in E. subst a.
    exists (k', v). split; [reflexivity|]. apply filter_In.
    split; [exact Hin|]. simpl. apply negb_true_iff, String.eqb_neq. exact Hne.
Qed.

Lemma delete_attributes_raises (ks : list string) :
  forall (d d' : instance_dict) (e : exn),
  delete_attributes ks d = (Raise e, d') ->
  exists k, In k ks /\ e = AttributeError k.
Proof.
  induction ks as [|k ks IH]; intros d d' e H; simpl in H; [discriminate|].
  destruct (assoc_has String.eqb k d).
  - destruct (IH _ _ _ H) as (k' & Hin & He). exists k'.
    split; [right; exact Hin|exact He].
  - inversion H. exists k. split; [left; reflexivity|reflexivity].
Qed.

Lemma delete_attributes_ok_iff (ks : list string) :
  forall d : instance_dict,
  fst (delete_attributes ks d) = Ok tt <->
  List.NoDup ks /\ forall k, In k ks -> In k (map fst d).
Proof.
  induction ks as [|k ks IH]; intros d; simpl.
  - split; [intros _; split; [constructor|intros k []]|reflexivity].
  - destruct (assoc_has String.eqb k d) eqn:Hk.
    + apply assoc_has_keys in Hk. rewrite IH. split.
      * intros [Hnd Hall]. split.
        -- constructor; [|exact Hnd]. intros Hin.
           apply Hall, assoc_del_keys in Hin. destruct Hin as [Hne _].
           apply Hne. reflexivity.
        -- intros k' [<-|Hin]; [exact Hk|].
           apply Hall, assoc_del_keys in Hin. apply Hin.
      * intros [Hnd Hall]. inversion Hnd as [|x l Hx Hnd']; subst.
        split; [exact Hnd'|]. intros k' Hin. apply assoc_del_keys. split.
        -- intros ->. contradiction.
        -- apply Hall. right. exact Hin.
    + simpl. split; [discriminate|]. intros [_ Hall].
      assert (Hin : In k (map fst d)) by (apply Hall; left; reflexivity).
      apply assoc_has_keys in Hin. rewrite Hin in Hk. discriminate.
Qed.

Lemma delete_attributes_ok_result (ks : list string) :
  forall d d' : instance_dict,
  delete_attributes ks d = (Ok tt, d') ->
  d' = List.filter (fun kv => negb (mem_str (fst kv) ks)) d.
Proof.
  induction ks as [|k ks IH]; intros d d' H; simpl in H.
  - assert (d' = d) as -> by (inversion H; reflexivity). clear.
    induction d as [|a d IH]; [reflexivity|].
    cbn [List.filter mem_str existsb negb]. f_equal. exact IH.
  - destruct (assoc_has String.eqb k d); [|discriminate].
    rewrite (IH _ _ H). unfold assoc_del. clear.
    induction d as [|[a v] d IH]; [reflexivity|]. simpl.
    destruct (String.eqb a k) eqn:E; simpl.
    + exact IH.
    + destruct (mem_str a ks); simpl; [exact IH|]. rewrite IH. reflexivity.
Qed.

Lemma update_options_keys (kwargs : list (string * pyval)) :
  forall (d : instance_dict) (k : string),
  In k (map fst (update_options d kwargs)) <->
  In k (map fst d) \/ In k (map fst kwargs).
Proof.
  unfold update_options.
  induction kwargs as [|[a v] kwargs IH]; intros d k; simpl.
  - split; [intros H; left; exact H|intros [H|[]]; exact H].
  - rewrite IH. simpl.
    destruct (assoc_set_keys a (AVal v) d) as [E|[Hn E]]; rewrite E.
    + split; [intros [H|H]; [left; exact H|right; right; exact H]|].
      intros [H|[H|H]]; [left; exact H| |right; exact H].
      subst a. left. rewrite <- E. apply assoc_has_keys. unfold assoc_has.
      rewrite assoc_get_set_eq. reflexivity.
    + rewrite in_app_iff. simpl. tauto.
Qed.

Lemma update_options_NoDup (kwargs : list (string * pyval)) :
  forall d : instance_dict,
  List.NoDup (map fst d) -> List.NoDup (map fst (update_options d kwargs)).
Proof.
  unfold update_options.
  induction kwargs as [|[a v] kwargs IH]; intros d Hnd; simpl; [exact Hnd|].
  apply IH. apply assoc_set_NoDup. exact Hnd.
Qed.

Lemma update_options_fresh (kwargs : list (string * pyval)) :
  forall d : instance_dict,
  List.NoDup (map fst kwargs) ->
  (forall k, In k (map fst kwargs) -> ~ In k (map fst d)) ->
  update_options d kwargs
  = d ++ map (fun kv => (fst kv, AVal (snd kv))) kwargs.
Proof.
  unfold update_options.
  induction kwargs as [|[a v] kwargs IH]; intros d Hnd Hdis; simpl.
  - rewrite app_nil_r. reflexivity.
  - inversion Hnd as [|x l Hx Hnd']; subst.
    rewrite assoc_set_fresh by (apply Hdis; left; reflexivity).
    rewrite IH.
    + rewrite <- app_assoc. reflexivity.
    + exact Hnd'.
    + intros k Hin. rewrite map_app, in_app_iff. simpl.
      intros [H|[H|[]]].
      * apply (Hdis k); [right; exact Hin|exact H].
      * subst. contradiction.
Qed.

Lemma dict_update_fresh (kwargs : list (string * pyval)) :
  forall d : list (string * pyval),
  List.NoDup (map fst kwargs) ->
  (forall k, In k (map fst kwargs) -> ~ In k (map fst d)) ->
  dict_update d kwargs = d ++ kwargs.
Proof.
  unfold dict_update.
  induction kwargs as [|[a v] kwargs IH]; intros d Hnd Hdis; simpl.
  - rewrite app_nil_r. reflexivity.
  - inversion Hnd as [|x l Hx Hnd']; subst.
    rewrite assoc_set_fresh by (apply Hdis; left; reflexivity).
    rewrite IH.
    + rewrite <- app_assoc. reflexivity.
    + exact Hnd'.
    + intros k Hin. rewrite map_app, in_app_iff. simpl.
      intros [H|[H|[]]].
      * apply (Hdis k); [right; exact Hin|exact H].
      * subst. contradiction.
Qed.

Lemma mem_str_In (s : string) (l : list string) :
  mem_str s l = true <-> In s l.
Proof.
  unfold mem_str. rewrite existsb_exists. split.
  - intros (x & Hin & E). apply String.eqb_eq in E. subst. exact Hin.
  - intros Hin. exists s. split; [exact Hin|apply String.eqb_refl].
Qed.

(** What the first loop of the constructor does to the class-level list. *)
Lemma Workflow_init_active_cases (kwargs : list (string * pyval)) :
  forall (active : list string),
  exists pre post,
    kwargs = pre ++ post /\
    (forall k, In k (map fst pre) -> mem_str k Workflow_attributes = true) /\
    snd (Workflow_init_active kwargs active) = active ++ map fst pre /\
    match post with
    | [] => fst (Workflow_init_active kwargs active) = Ok tt /\
            unknown_option Workflow_attributes kwargs = None
    | (k, _) :: _ =>
        mem_str k Workflow_attributes = false /\
        fst (Workflow_init_active kwargs active)
        = Raise (AttributeError ("Unknown workflow argument: " +++ k)) /\
        unknown_option Workflow_attributes kwargs = Some k
    end.
Proof.
  induction kwargs as [|[k v] kwargs IH]; intros active.
  - exists [], []. simpl. rewrite app_nil_r. repeat split. intros k [].
  - cbn [Workflow_init_active].
    assert (Hu : unknown_option Workflow_attributes ((k, v) :: kwargs)
                 = if mem_str k Workflow_attributes
                   then unknown_option Workflow_attributes kwargs
                   else Some k).
    { unfold unknown_option. cbn [find fst].
      destruct (mem_str k Workflow_attributes); reflexivity. }
    rewrite Hu. clear Hu.
    destruct (mem_str k Workflow_attributes) eqn:Hk; cbn [negb].
    + destruct (IH (active ++ [k])) as (pre & post & E & Hall & Hs & Hp).
      exists ((k, v) :: pre), post. split; [simpl; rewrite E; reflexivity|].
      split; [intros k' [<-|H]; [exact Hk|apply Hall; exact H]|].
      split; [rewrite Hs, <- app_assoc; reflexivity|].
      exact Hp.
    + exists [], ((k, v) :: kwargs). cbn [app map fst snd].
      rewrite app_nil_r.
      split; [reflexivity|]. split; [intros k' []|]. split; [reflexivity|].
      split; [exact Hk|]. split; reflexivity.
Qed.

Lemma Workflow_init_active_ok (kwargs : list (string * pyval))
    (active active' : list string) :
  Workflow_init_active kwargs active = (Ok tt, active') ->
  active' = active ++ map fst kwargs /\
  unknown_option Workflow_attributes kwargs = None /\
  forall k, In k (map fst kwargs) -> mem_str k Workflow_attributes = true.
Proof.
  intros H.
  destruct (Workflow_init_active_cases kwargs active)
    as (pre & post & E & Hall & Hs & Hp).
  rewrite H in Hs, Hp. simpl in Hs, Hp.
  destruct post as [|[k v] post].
  - rewrite app_nil_r in E. subst pre. destruct Hp as [_ Hu].
    split; [exact Hs|]. split; [exact Hu|exact Hall].
  - destruct Hp as (_ & Hp & _). discriminate.
Qed.

Lemma unknown_option_none (allowed : list string)
    (kwargs : list (string * pyval)) :
  unknown_option allowed kwargs = None ->
  forall k, In k (map fst kwargs) -> mem_str k allowed = true.
Proof.
  unfold unknown_option.
  destruct (find (fun kv => negb (mem_str (fst kv) allowed)) kwargs)
    eqn:E; [discriminate|].
  intros _ k Hin. apply in_map_iff in Hin. destruct Hin as ([a v] & <- & Hin).
  pose proof (find_none _ _ E (a, v) Hin) as Hf. simpl in Hf.
  apply negb_false_iff in Hf. exact Hf.
Qed.

(** X21. [deinit] as intended: when the class-level list still has its
    initial value, a Workflow built with distinct allowed keywords can be
    de-initialised.  The constructor registers the keywords after [name],
    [author] and [abstract]; [deinit] then deletes all of them and leaves the
    object with the attribute [tasks] only.  A second [deinit] raises
    [AttributeError] and changes nothing. *)
Theorem Workflow_deinit_after_init
    (name : string) (author abstract : option string)
    (kwargs : list (string * pyval)) (h h' : heap) (l : loc) :
  List.NoDup (map fst kwargs) ->
  Workflow_init name author abstract kwargs h = (Ok l, h') ->
  exists w,
    h' !! l = Some (OWorkflow w) /\
    Workflow_init_active kwargs Workflow_active_attributes
    = (Ok tt, Workflow_active_attributes ++ map fst kwargs) /\
    Workflow_deinit (Workflow_active_attributes ++ map fst kwargs) w
    = (Ok tt, [("tasks", ARefs [])]) /\
    exists msg,
      delete_attributes (Workflow_active_attributes ++ map fst kwargs)
        [("tasks", ARefs [])]
      = (Raise (AttributeError msg), [("tasks", ARefs [])]).
Proof.
  intros Hnd H. unfold Workflow_init in H.
  destruct (unknown_option Workflow_attributes kwargs) as [k|] eqn:Hu;
    [discriminate|].
  unfold alloc in H. inversion H; subst l h'. clear H.
  pose proof (unknown_option_none _ _ Hu) as Hall.
  eexists. split; [apply lookup_alloc|].
  destruct (Workflow_init_active_cases kwargs Workflow_active_attributes)
    as (pre & post & E & _ & Hs & Hp).
  destruct post as [|[k v] post].
  2:{ destruct Hp as (_ & _ & Hp). rewrite Hu in Hp. discriminate. }
  rewrite app_nil_r in E. subst pre. destruct Hp as [Hp _].
  split; [rewrite (surjective_pairing (Workflow_init_active _ _)), Hp, Hs;
          reflexivity|].
  split; [|exists "name"; reflexivity].
  assert (Hfix : forall k, In k (map fst kwargs) ->
            ~ In k ["name"; "author"; "abstract"; "tasks"]).
  { intros k Hin Hk. apply Hall in Hin.
    simpl in Hk. destruct Hk as [<-|[<-|[<-|[<-|[]]]]]; discriminate. }
  unfold Workflow_deinit, Workflow_dict. cbn [w_name w_author w_abstract
    w_tasks w_options].
  rewrite (dict_update_fresh kwargs [] Hnd) by (intros k _ []).
  cbn [app].
  rewrite (update_options_fresh kwargs _ Hnd) by exact Hfix.
  match goal with
  | |- context [delete_attributes _ ?x] => set (d := x)
  end.
  assert (Hok : fst (delete_attributes
                       (Workflow_active_attributes ++ map fst kwargs) d)
                = Ok tt).
  { apply delete_attributes_ok_iff. split.
    - apply NoDup_ListNoDup. apply NoDup_app. repeat split.
      + apply NoDup_ListNoDup. repeat constructor; simpl; intuition discriminate.
      + intros x Hx Hx'. apply list_elem_of_In in Hx.
        apply list_elem_of_In in Hx'. apply (Hfix x Hx').
        simpl in Hx. simpl. tauto.
      + apply NoDup_ListNoDup. exact Hnd.
    - intros k Hin. unfold d. rewrite map_app, in_app_iff.
      apply in_app_or in Hin. destruct Hin as [Hin|Hin].
      + left. simpl in Hin. simpl. tauto.
      + right. rewrite map_map. simpl. exact Hin. }
  rewrite (surjective_pairing (delete_attributes _ d)), Hok. f_equal.
  rewrite (delete_attributes_ok_result _ d (snd (delete_attributes _ d)))
    by (rewrite (surjective_pairing (delete_attributes _ d)), Hok;
        reflexivity).
  unfold d. rewrite List.filter_app. cbn [List.filter fst Workflow_active_attributes].
  assert (Ht : mem_str "tasks" (Workflow_active_attributes ++ map fst kwargs)
               = false).
  { destruct (mem_str "tasks" _) eqn:Hm; [|reflexivity].
    apply mem_str_In in Hm. apply in_app_or in Hm. destruct Hm as [Hm|Hm].
    - simpl in Hm. destruct Hm as [Hm|[Hm|[Hm|[]]]]; discriminate.
    - exfalso. apply (Hfix "tasks" Hm). simpl. tauto. }
  replace (mem_str "name" _) with true by reflexivity.
  replace (mem_str "author" _) with true by reflexivity.
  replace (mem_str "abstract" _) with true by reflexivity.
  rewrite Ht. cbn [negb].
  replace (List.filter _ (map _ kwargs)) with (@nil (string * attribute));
    [reflexivity|].
  symmetry. clear -kwargs.
  assert (G : forall pre, List.filter
      (fun kv : string * attribute =>
         negb (mem_str (fst kv) (pre ++ map fst kwargs)))
      (map (fun kv : string * pyval => (fst kv, AVal (snd kv))) kwargs) = []).
  { induction kwargs as [|[a v] kwargs IH]; intros pre; [reflexivity|].
    simpl. replace (mem_str a (pre ++ a :: map fst kwargs)) with true.
    - simpl. specialize (IH (pre ++ [a])). rewrite <- app_assoc in IH.
      exact IH.
    - symmetry. apply mem_str_In. apply in_or_app. right. left. reflexivity. }
  apply (G Workflow_active_attributes).
Qed.

Lemma Workflow_deinit_after_init_witness :
  exists w,
    ([] ++ [OWorkflow (mkWorkflow "w" None None [] 1 [("url", VStr "u")])])
      !! 0 = Some (OWorkflow w) /\
    Workflow_init_active [("url", VStr "u")] Workflow_active_attributes
    = (Ok tt, Workflow_active_attributes ++ ["url"]) /\
    Workflow_deinit (Workflow_active_attributes ++ ["url"]) w
    = (Ok tt, [("tasks", ARefs [])]) /\
    exists msg,
      delete_attributes (Workflow_active_attributes ++ ["url"])
        [("tasks", ARefs [])]
      = (Raise (AttributeError msg), [("tasks", ARefs [])]).
Proof.
  apply (Workflow_deinit_after_init "w" None None [("url", VStr "u")] [] _ 0).
  - repeat constructor. intros [].
  - reflexivity.
Defined.

Lemma Workflow_dict_keys (w : Workflow) (k : string) :
  In k (map fst (Workflow_dict w)) <->
  In k ["name"; "author"; "abstract"; "tasks"] \/ In k (map fst (w_options w)).
Proof. unfold Workflow_dict. rewrite update_options_keys. reflexivity. Qed.

Lemma Workflow_dict_NoDup (w : Workflow) :
  List.NoDup (map fst (Workflow_dict w)).
Proof.
  unfold Workflow_dict. apply update_options_NoDup.
  repeat constructor; simpl; intuition discriminate.
Qed.

Lemma filter_keys (f : string -> bool) (d : instance_dict) (k : string) :
  In k (map fst (List.filter (fun kv => f (fst kv)) d)) <->
  In k (map fst d) /\ f k = true.
Proof.
  rewrite !in_map_iff. split.
  - intros ([a v] & E & Hin). simpl in E. subst a.
    apply filter_In in Hin. destruct Hin as [Hin Hf]. simpl in Hf.
    split; [|exact Hf]. exists (k, v). split; [reflexivity|exact Hin].
  - intros (([a v] & E & Hin) & Hf). simpl in E. subst a.
    exists (k, v). split; [reflexivity|]. apply filter_In.
    split; [exact Hin|exact Hf].
Qed.

(** A failing run of the loop of [deinit] has deleted the attributes named
    before the failing one. *)
Lemma delete_attributes_raise_result (ks : list string) :
  forall (d d' : instance_dict) (e : exn),
  delete_attributes ks d = (Raise e, d') ->
  exists pre k post,
    ks = pre ++ k :: post /\
    d' = List.filter (fun kv => negb (mem_str (fst kv) pre)) d /\
    ~ In k (map fst d') /\
    e = AttributeError k.
Proof.
  induction ks as [|k ks IH]; intros d d' e H; simpl in H; [discriminate|].
  destruct (assoc_has String.eqb k d) eqn:Hk.
  - destruct (IH _ _ _ H) as (pre & k' & post & E & Hd & Hn & He).
    exists (k :: pre), k', post. split; [simpl; rewrite E; reflexivity|].
    split; [|split; [exact Hn|exact He]].
    rewrite Hd. unfold assoc_del. clear.
    induction d as [|[a v] d IH]; [reflexivity|]. simpl.
    destruct (String.eqb a k) eqn:E; simpl.
    + exact IH.
    + destruct (mem_str a pre); simpl; [exact IH|]. rewrite IH. reflexivity.
  - inversion H; subst. exists [], k, ks. split; [reflexivity|].
    split.
    + clear. induction d' as [|a d IH]; [reflexivity|].
      cbn [List.filter mem_str existsb negb]. f_equal. exact IH.
    + split; [|reflexivity]. intros Hin. apply assoc_has_keys in Hin.
      rewrite Hin in Hk. discriminate.
Qed.

Lemma delete_attributes_fails (ks : list string) (d : instance_dict) :
  ~ (List.NoDup ks /\ forall k, In k ks -> In k (map fst d)) ->
  exists msg d', delete_attributes ks d = (Raise (AttributeError msg), d').
Proof.
  intros Hn. destruct (delete_attributes ks d) as [[[]|e] d'] eqn:E.
  - exfalso. apply Hn. apply delete_attributes_ok_iff. rewrite E. reflexivity.
  - destruct (delete_attributes_raises ks d d' e E) as (k & _ & ->).
    exists k, d'. reflexivity.
Qed.

Lemma NoDup_app_twice (k : string) (a b c : list string) :
  In k a -> In k b -> ~ List.NoDup (a ++ b ++ c).
Proof.
  intros Ha Hb Hnd. apply NoDup_ListNoDup in Hnd.
  apply NoDup_app in Hnd. destruct Hnd as (_ & Hdis & _).
  apply (Hdis k).
  - apply list_elem_of_In. exact Ha.
  - apply list_elem_of_In. apply in_or_app. left. exact Hb.
Qed.

Lemma delete_attributes_again (ks : list string) (d d' : instance_dict)
    (more : list string) :
  ks <> [] ->
  delete_attributes ks d = (Ok tt, d') ->
  exists msg,
    delete_attributes (ks ++ more) d' = (Raise (AttributeError msg), d').
Proof.
  intros Hne H. destruct ks as [|k ks]; [congruence|].
  pose proof (delete_attributes_ok_result _ _ _ H) as Hd.
  assert (Hk : assoc_has String.eqb k d' = false).
  { destruct (assoc_has String.eqb k d') eqn:E; [|reflexivity].
    apply assoc_has_keys in E. rewrite Hd in E.
    apply (filter_keys (fun a => negb (mem_str a (k :: ks)))) in E.
    destruct E as [_ E]. simpl in E. rewrite String.eqb_refl in E.
    discriminate. }
  exists k. simpl. rewrite Hk. reflexivity.
Qed.

(** X22. When [deinit] works: it returns exactly when the class-level list
    has no repeated name and every name in it is an attribute of the
    receiver; the receiver is then left with the attributes that are not in
    the list.  Otherwise it raises [AttributeError] at the first name [k] of
    the list that is repeated or missing, and the attributes named before
    [k] have been deleted all the same. *)
Theorem Workflow_deinit_succeeds_iff (active : list string) (w : Workflow) :
  (fst (Workflow_deinit active w) = Ok tt <->
   List.NoDup active /\
   forall k, In k active ->
     In k ["name"; "author"; "abstract"; "tasks"] \/
     In k (map fst (w_options w))) /\
  (fst (Workflow_deinit active w) = Ok tt ->
   snd (Workflow_deinit active w)
   = List.filter (fun kv => negb (mem_str (fst kv) active))
       (Workflow_dict w)) /\
  (forall e, fst (Workflow_deinit active w) = Raise e ->
   exists pre k post msg,
     e = AttributeError msg /\
     active = pre ++ k :: post /\
     snd (Workflow_deinit active w)
     = List.filter (fun kv => negb (mem_str (fst kv) pre)) (Workflow_dict w) /\
     (In k pre \/
      ~ (In k ["name"; "author"; "abstract"; "tasks"] \/
         In k (map fst (w_options w))))).
Proof.
  unfold Workflow_deinit. split; [|split].
  - rewrite delete_attributes_ok_iff. split; intros [Hnd Hall];
      (split; [exact Hnd|]); intros k Hin;
      apply Workflow_dict_keys; apply Hall; exact Hin.
  - intros H. apply delete_attributes_ok_result.
    rewrite (surjective_pairing (delete_attributes _ _)), H. reflexivity.
  - intros e H.
    destruct (delete_attributes_raise_result active (Workflow_dict w)
                (snd (delete_attributes active (Workflow_dict w))) e)
      as (pre & k & post & E & Hd & Hn & He).
    { rewrite (surjective_pairing (delete_attributes _ _)), H. reflexivity. }
    exists pre, k, post, k. split; [exact He|]. split; [exact E|].
    split; [exact Hd|].
    destruct (mem_str k pre) eqn:Hm.
    + left. apply mem_str_In. exact Hm.
    + right. intros Hk. apply Workflow_dict_keys in Hk. apply Hn.
      rewrite Hd.
      apply (filter_keys (fun a => negb (mem_str a pre))).
      split; [exact Hk|]. rewrite Hm. reflexivity.
Qed.

Lemma Workflow_deinit_succeeds_iff_witness :
  fst (Workflow_deinit ["name"; "author"; "abstract"; "url"]
         (mkWorkflow "b" None None [] 1 [])) = Ok tt <->
  List.NoDup ["name"; "author"; "abstract"; "url"] /\
  forall k, In k ["name"; "author"; "abstract"; "url"] ->
    In k ["name"; "author"; "abstract"; "tasks"] \/ In k [].
Proof.
  apply (proj1 (Workflow_deinit_succeeds_iff
                  ["name"; "author"; "abstract"; "url"]
                  (mkWorkflow "b" None None [] 1 []))).
Defined.

(** X23. The class-level list is shared by all Workflow objects.  A
    constructor call that succeeds appends its keywords to the list; from
    then on, and whatever is appended later, [deinit] raises for every
    Workflow if one of the keywords was already in the list (used by an
    earlier call), and it raises for every Workflow that does not have one of
    the keywords as an attribute. *)
Theorem Workflow_deinit_shared_list
    (kwargs : list (string * pyval)) (active active' : list string) :
  Workflow_init_active kwargs active = (Ok tt, active') ->
  active' = active ++ map fst kwargs /\
  (forall k more w,
     In k active -> In k (map fst kwargs) ->
     exists msg d,
       Workflow_deinit (active' ++ more) w = (Raise (AttributeError msg), d)) /\
  (forall k more w,
     In k (map fst kwargs) -> ~ In k (map fst (w_options w)) ->
     exists msg d,
       Workflow_deinit (active' ++ more) w = (Raise (AttributeError msg), d)).
Proof.
  intros H. destruct (Workflow_init_active_ok kwargs active active' H)
    as (-> & _ & Hall).
  split; [reflexivity|].
  split; intros k more w H1 H2; apply delete_attributes_fails;
    intros [Hnd Hin].
  - rewrite <- app_assoc in Hnd.
    apply (NoDup_app_twice k active (map fst kwargs) more H1 H2 Hnd).
  - assert (Hk : In k (map fst (Workflow_dict w))).
    { apply Hin. apply in_or_app. left. apply in_or_app. right. exact H1. }
    apply Workflow_dict_keys in Hk. destruct Hk as [Hk|Hk]; [|contradiction].
    apply Hall in H1.
    simpl in Hk. destruct Hk as [<-|[<-|[<-|[<-|[]]]]]; discriminate.
Qed.

Lemma Workflow_deinit_shared_list_witness :
  exists msg d,
    Workflow_deinit ["name"; "author"; "abstract"; "url"]
      (mkWorkflow "b" None None [] 1 [])
    = (Raise (AttributeError msg), d).
Proof.
  apply (proj2 (proj2 (Workflow_deinit_shared_list [("url", VStr "u")]
                         Workflow_active_attributes
                         ["name"; "author"; "abstract"; "url"] eq_refl))
           "url" [] (mkWorkflow "b" None None [] 1 [])).
  - left. reflexivity.
  - intros [].
Defined.

(** X24. A rejected constructor call is not without effect: when the
    keywords [pre] are allowed and the next keyword [k] is not, the call
    raises "Unknown workflow argument" and creates no object, but the names
    of [pre] have been appended to the class-level list, so that [deinit]
    raises from then on for every Workflow that lacks one of them. *)
Theorem Workflow_init_rejected_registers
    (pre rest : list (string * pyval)) (k : string) (v : pyval)
    (active : list string) :
  (forall a, In a (map fst pre) -> mem_str a Workflow_attributes = true) ->
  mem_str k Workflow_attributes = false ->
  Workflow_init_active (pre ++ (k, v) :: rest) active
  = (Raise (AttributeError ("Unknown workflow argument: " +++ k)),
     active ++ map fst pre) /\
  (forall name author abstract h,
     Workflow_init name author abstract (pre ++ (k, v) :: rest) h
     = (Raise (AttributeError ("Unknown workflow argument: " +++ k)), h)) /\
  (forall a more w,
     In a (map fst pre) -> ~ In a (map fst (w_options w)) ->
     exists msg d,
       Workflow_deinit (active ++ map fst pre ++ more) w
       = (Raise (AttributeError msg), d)).
Proof.
  intros Hall Hk.
  assert (E : forall act,
            Workflow_init_active (pre ++ (k, v) :: rest) act
            = (Raise (AttributeError ("Unknown workflow argument: " +++ k)),
               act ++ map fst pre)).
  { induction pre as [|[a x] pre IH]; intros act.
    - cbn [app Workflow_init_active map]. rewrite Hk, app_nil_r. reflexivity.
    - cbn [app Workflow_init_active]. rewrite (Hall a) by (left; reflexivity).
      cbn [negb]. rewrite IH.
      + cbn [map fst]. rewrite <- app_assoc. reflexivity.
      + intros b Hb. apply Hall. right. exact Hb. }
  split; [apply E|]. split.
  - intros name author abstract h. unfold Workflow_init.
    destruct (Workflow_init_active_cases (pre ++ (k, v) :: rest) active)
      as (p & post & _ & _ & _ & Hp).
    rewrite E in Hp. cbn [fst] in Hp. destruct post as [|[k' v'] post].
    + destruct Hp as [Hp _]. discriminate.
    + destruct Hp as (_ & Hp & Hu). rewrite Hu.
      assert (Hs : "Unknown workflow argument: " +++ k
                   = "Unknown workflow argument: " +++ k') by congruence.
      rewrite <- Hs. reflexivity.
  - intros a more w Ha Hn. apply delete_attributes_fails. intros [_ Hin].
    assert (Hk' : In a (map fst (Workflow_dict w))).
    { apply Hin. apply in_or_app. right. apply in_or_app. left. exact Ha. }
    apply Workflow_dict_keys in Hk'. destruct Hk' as [Hk'|Hk'];
      [|contradiction].
    apply Hall in Ha.
    simpl in Hk'. destruct Hk' as [<-|[<-|[<-|[<-|[]]]]]; discriminate.
Qed.

Lemma Workflow_init_rejected_registers_witness :
  Workflow_init_active [("url", VStr "u"); ("bogus", VInt 1)]
    Workflow_active_attributes
  = (Raise (AttributeError "Unknown workflow argument: bogus"),
     ["name"; "author"; "abstract"; "url"]).
Proof.
  apply (proj1 (Workflow_init_rejected_registers [("url", VStr "u")] []
                  "bogus" (VInt 1) Workflow_active_attributes
                  (fun a H => match H with
                              | or_introl E =>
                                  eq_ind "url"
                                    (fun s => mem_str s Workflow_attributes
                                              = true) eq_refl a E
                              | or_intror F => match F with end
                              end)
                  eq_refl)).
Defined.

(** X25. [deinit] on a Task always returns: it deletes [name], [operator]
    and [arguments] and leaves [type], [dependencies] and the options.  A
    second [deinit] raises [AttributeError] and changes nothing. *)
Theorem Task_deinit_twice (t : Task) :
  Task_deinit t
  = (Ok tt,
     List.filter (fun kv => negb (mem_str (fst kv) Task_active_attributes))
       (Task_dict t)) /\
  (forall k, In k (map fst (snd (Task_deinit t))) <->
     ~ In k Task_active_attributes /\
     (In k ["type"; "dependencies"] \/ In k (map fst (t_options t)))) /\
  exists msg,
    delete_attributes Task_active_attributes (snd (Task_deinit t))
    = (Raise (AttributeError msg), snd (Task_deinit t)).
Proof.
  assert (Hok : fst (Task_deinit t) = Ok tt).
  { apply delete_attributes_ok_iff. split.
    - repeat constructor; simpl; intuition discriminate.
    - intros k Hin. unfold Task_dict. apply update_options_keys. left.
      simpl in Hin. simpl. tauto. }
  assert (E : Task_deinit t
              = (Ok tt,
                 List.filter
                   (fun kv => negb (mem_str (fst kv) Task_active_attributes))
                   (Task_dict t))).
  { rewrite (surjective_pairing (Task_deinit t)), Hok. f_equal.
    apply delete_attributes_ok_result.
    rewrite (surjective_pairing (delete_attributes _ _)).
    fold (Task_deinit t). rewrite Hok. reflexivity. }
  split; [exact E|]. split.
  - intros k. rewrite E. cbn [snd].
    rewrite (filter_keys (fun a => negb (mem_str a Task_active_attributes))).
    unfold Task_dict. rewrite update_options_keys.
    rewrite negb_true_iff. rewrite <- not_true_iff_false, mem_str_In.
    simpl. split.
    + intros [[H|H] Hn]; (split; [exact Hn|]); [|right; exact H].
      left. intuition (subst; tauto).
    + intros [Hn [H|H]]; (split; [|exact Hn]); [|right; exact H].
      left. tauto.
  - pose proof E as E2. unfold Task_deinit in E2.
    destruct (delete_attributes_again Task_active_attributes (Task_dict t)
                _ [] ltac:(discriminate) E2) as [msg Hm].
    rewrite app_nil_r in Hm. exists msg. rewrite E. cbn [snd]. exact Hm.
Qed.

Lemma Task_deinit_twice_witness :
  Task_deinit (mkTask "ophidia" (Some "t") "oph_if" ["a=b"] [] [])
  = (Ok tt, [("type", AStr "ophidia"); ("dependencies", ARefs [])]).
Proof.
  apply (proj1 (Task_deinit_twice
                  (mkTask "ophidia" (Some "t") "oph_if" ["a=b"] [] []))).
Defined.

(** ** Loading a workflow from parsed data *)

Lemma frames_mapM {A B} (n : nat) (self : loc) (f : A -> M B) (l : list A) :
  (forall a, frames n self any (f a)) -> frames n self any (mapM f l).
Proof.
  intros Hf. induction l as [|x l IH]; simpl.
  - apply frames_ret. exact I.
  - apply (frames_bind n self any any); [apply Hf|]. intros y _.
    apply (frames_bind n self any any); [exact IH|]. intros ys _.
    apply frames_ret. exact I.
Qed.

Lemma frames_lift {A} (n : nat) (self : loc) (r : outcome A) :
  frames n self any (lift r).
Proof. apply frames_read_only. apply read_only_lift. Qed.

Lemma frames_update_task (n : nat) (self new_task : loc) (f : Task -> Task) :
  n <= new_task ->
  frames n self any (let* t := get_task new_task in put new_task (OTask (f t))).
Proof.
  intros Hn. apply (frames_bind n self any any).
  - apply frames_read_only. apply read_only_get_task.
  - intros t _. apply frames_put. right. exact Hn.
Qed.

Lemma frames_Task_update (n : nat) (self new_task : loc) (k : string)
    (v : json) :
  n <= new_task -> frames n self any (Task_update new_task k v).
Proof.
  intros Hn. unfold Task_update.
  destruct (String.eqb k "type").
  { destruct v; try apply frames_raise.
    apply (frames_update_task n self new_task (fun t => set_type t s) Hn). }
  destruct (String.eqb k "dependencies").
  { destruct v; try apply frames_raise.
    apply (frames_bind n self any any).
    - apply frames_mapM. intros x. destruct x; try apply frames_raise.
      destruct (edge_of_entries d); [|apply frames_raise].
      apply (frames_weaken n self (fun l => n <= l)); [|apply frames_alloc].
      intros; exact I.
    - intros ds _.
      apply (frames_update_task n self new_task
               (fun t => set_dependencies t ds) Hn). }
  destruct (mem_str k Task_class_names); [apply frames_raise|].
  destruct (pyval_of_json v) as [p|]; [|apply frames_raise].
  apply (frames_update_task n self new_task
           (fun t => set_options t (assoc_set String.eqb k p (t_options t)))
           Hn).
Qed.

Lemma frames_build_task (n : nat) (self : loc) (d : json) :
  frames n self (fun l => n <= l) (build_task d).
Proof.
  unfold build_task.
  apply (frames_bind n self any); [apply frames_lift|]. intros operator _.
  apply (frames_bind n self any); [apply frames_lift|]. intros name _.
  apply (frames_bind n self any); [apply frames_lift|]. intros arguments _.
  apply (frames_bind n self any); [apply frames_lift|]. intros items _.
  apply (frames_bind n self any); [apply frames_lift|]. intros m _.
  destruct operator; try apply frames_raise.
  destruct (name_of_json name); [|apply frames_raise].
  destruct d; try apply frames_raise.
  apply (frames_bind n self (fun l => n <= l)); [apply frames_Task_init|].
  intros new_task Hnew.
  apply (frames_bind n self any).
  - apply frames_forM_. intros kv.
    destruct (mem_str (fst kv) ["name"; "operator"; "arguments"]).
    + apply frames_ret. exact I.
    + apply frames_Task_update. exact Hnew.
  - intros _ _. apply frames_ret. exact Hnew.
Qed.

Lemma frames_load_task (n : nat) (workflow : loc) (d : json) :
  frames n workflow any (load_task workflow d).
Proof.
  unfold load_task.
  apply (frames_bind n workflow (fun l => n <= l)); [apply frames_build_task|].
  intros new_task Hnew. apply frames_addTask. exact Hnew.
Qed.

Lemma load_task_graph_ok (h h' : heap) (workflow : loc) (d : json)
    (r : outcome unit) :
  graph_ok h workflow ->
  load_task workflow d h = (r, h') ->
  graph_ok h' workflow.
Proof.
  intros G H. unfold load_task in H.
  destruct (bind_inv_frames (length h) (length h) (fun l => length h <= l)
              (build_task d) (fun new_task => addTask workflow new_task)
              h h' r (frames_build_task _ _ d) (le_n _) H)
    as [(new_task & h1 & _ & P & H1)|[P _]].
  - apply (addTask_graph_ok h1 h' workflow new_task r); [|exact H1].
    apply (graph_ok_fresh workflow h h1 G P).
  - apply (graph_ok_fresh workflow h h' G P).
Qed.

Lemma load_tasks_graph_ok (workflow : loc) (ds : list json) :
  forall (h h' : heap) (r : outcome unit),
  graph_ok h workflow ->
  forM_ (load_task workflow) ds h = (r, h') ->
  graph_ok h' workflow.
Proof.
  induction ds as [|d ds IH]; intros h h' r G H; simpl in H.
  - inversion H; subst. exact G.
  - unfold bind at 1 in H.
    destruct (load_task workflow d h) as [[[]|e] h1] eqn:E.
    + apply (IH h1 h' r); [|exact H].
      apply (load_task_graph_ok h h1 workflow d (Ok tt) G E).
    + inversion H; subst.
      apply (load_task_graph_ok h h' workflow d (Raise e) G E).
Qed.

Lemma keeps_update_task (l : loc) (op : string) (n : option string)
    (args : list string) (f : Task -> Task) :
  (forall t, t_operator (f t) = t_operator t /\ t_name (f t) = t_name t /\
             t_arguments (f t) = t_arguments t) ->
  keeps (core l op n args)
    (let* t := get_task l in put l (OTask (f t))).
Proof.
  intros Hf h r h' (t & Hl & E1 & E2 & E3) H.
  unfold bind, get_task in H. rewrite Hl in H. unfold put in H.
  inversion H; subst. exists (f t).
  split; [apply heap_lookup_insert_eq; apply lookup_lt_Some in Hl; exact Hl|].
  destruct (Hf t) as (F1 & F2 & F3). rewrite F1, F2, F3. repeat split;
    assumption.
Qed.

Lemma keeps_alloc_edges (T : heap -> Prop) (items : list json) :
  (forall h o, T h -> T (h ++ [o])) ->
  keeps T
    (mapM (fun x =>
             match x with
             | JDict d =>
                 match edge_of_entries d with
                 | Some e => alloc (ODict e)
                 | None => raise OutsideModel
                 end
             | _ => raise OutsideModel
             end) items).
Proof.
  intros Hext. induction items as [|x items IH]; simpl.
  - apply keeps_read_only. apply read_only_ret.
  - apply keeps_bind.
    + destruct x; try (apply keeps_read_only; apply read_only_raise).
      destruct (edge_of_entries d);
        [|apply keeps_read_only; apply read_only_raise].
      intros h r h' HT H. unfold alloc in H. inversion H; subst.
      apply Hext. exact HT.
    + intros y. apply keeps_bind; [exact IH|]. intros ys.
      apply keeps_read_only. apply read_only_ret.
Qed.

Lemma core_alloc (l : loc) (op : string) (n : option string)
    (args : list string) (h : heap) (o : obj) :
  core l op n args h -> core l op n args (h ++ [o]).
Proof.
  intros (t & Hl & E). exists t. split; [|exact E].
  apply heap_lookup_app_l. exact Hl.
Qed.

Lemma keeps_Task_update (l : loc) (op : string) (n : option string)
    (args : list string) (k : string) (v : json) :
  keeps (core l op n args) (Task_update l k v).
Proof.
  unfold Task_update.
  destruct (String.eqb k "type").
  { destruct v; try (apply keeps_read_only; apply read_only_raise).
    apply (keeps_update_task l op n args (fun t => set_type t s)).
    intros t. repeat split. }
  destruct (String.eqb k "dependencies").
  { destruct v; try (apply keeps_read_only; apply read_only_raise).
    apply keeps_bind.
    - apply keeps_alloc_edges. intros h o. apply core_alloc.
    - intros ds.
      apply (keeps_update_task l op n args (fun t => set_dependencies t ds)).
      intros t. repeat split. }
  destruct (mem_str k Task_class_names);
    [apply keeps_read_only; apply read_only_raise|].
  destruct (pyval_of_json v) as [p|];
    [|apply keeps_read_only; apply read_only_raise].
  apply (keeps_update_task l op n args
           (fun t => set_options t (assoc_set String.eqb k p (t_options t)))).
  intros t. repeat split.
Qed.

(** A successful [build_task]. *)
Lemma build_task_ok (d : json) (h h1 : heap) (new_task : loc) :
  build_task d h = (Ok new_task, h1) ->
  new_task = length h /\
  preserves (length h) (length h) h h1 /\
  exists op nj n aj items m,
    json_subscript "operator" d = Ok (JStr op) /\
    json_subscript "name" d = Ok nj /\
    name_of_json nj = Some n /\
    json_subscript "arguments" d = Ok aj /\
    json_iter aj = Ok items /\
    parse_arguments items [] = Ok m /\
    core new_task op n (flatten m) h1.
Proof.
  intros H.
  destruct (frames_build_task (length h) (length h) d h (Ok new_task) h1
              (le_n _) H) as [P _].
  unfold build_task in H.
  apply bind_ok_inv_ro in H; [|apply read_only_lift].
  destruct H as (operator & E1 & H). unfold lift in E1. inversion E1 as [E1'].
  apply bind_ok_inv_ro in H; [|apply read_only_lift].
  destruct H as (name & E2 & H). unfold lift in E2. inversion E2 as [E2'].
  apply bind_ok_inv_ro in H; [|apply read_only_lift].
  destruct H as (arguments & E3 & H). unfold lift in E3.
  inversion E3 as [E3'].
  apply bind_ok_inv_ro in H; [|apply read_only_lift].
  destruct H as (items & E4 & H). unfold lift in E4. inversion E4 as [E4'].
  apply bind_ok_inv_ro in H; [|apply read_only_lift].
  destruct H as (m & E5 & H). unfold lift in E5. inversion E5 as [E5'].
  destruct operator as [| |op| |]; try discriminate.
  destruct (name_of_json name) as [n|] eqn:En; [|discriminate].
  destruct d as [| | | |entries]; try discriminate.
  apply bind_ok_inv in H. destruct H as (nt & h0 & Einit & H).
  change (map (fun kv : string * string => (VStr (fst kv), VStr (snd kv))) m)
    with (as_dict m) in Einit.
  unfold Task_init in Einit. simpl unknown_option in Einit.
  cbv iota in Einit. rewrite format_arguments_strings in Einit.
  unfold alloc in Einit. inversion Einit; subst nt h0. clear Einit.
  apply bind_ok_inv in H. destruct H as ([] & h2 & Eupd & H).
  inversion H; subst new_task h2. clear H.
  split; [reflexivity|]. split; [exact P|].
  exists op, name, n, arguments, items, m.
  repeat (split; [first [reflexivity|assumption]|]).
  refine (keeps_forM_ (core (length h) op n (flatten m)) _ entries _
            _ _ _ _ Eupd).
  - intros kv.
    destruct (mem_str (fst kv) ["name"; "operator"; "arguments"]).
    + apply keeps_read_only. apply read_only_ret.
    + apply keeps_Task_update.
  - eexists. split; [apply lookup_alloc|]. repeat split.
Qed.

Lemma load_tasks_ok (workflow : loc) (ds : list json) :
  forall (h h' : heap) (w : Workflow),
  h !! workflow = Some (OWorkflow w) ->
  forM_ (load_task workflow) ds h = (Ok tt, h') ->
  exists added,
    h' !! workflow = Some (OWorkflow (attach_all w added)) /\
    length added = length ds /\
    forall i d, ds !! i = Some d ->
      exists l t, added !! i = Some l /\ h' !! l = Some (OTask t) /\
                  loaded d t.
Proof.
  induction ds as [|d ds IH]; intros h h' w Hs H; simpl in H.
  - inversion H; subst. exists []. split; [exact Hs|]. split; [reflexivity|].
    intros i d Hi. destruct i; discriminate.
  - apply bind_ok_inv in H. destruct H as ([] & h2 & E & H).
    unfold load_task in E. apply bind_ok_inv in E.
    destruct E as (new_task & h1 & Eb & Ea).
    destruct (build_task_ok d h h1 new_task Eb)
      as (-> & P1 & op & nj & n & aj & items & m &
          J1 & J2 & J3 & J4 & J5 & J6 & (t1 & Hl1 & C1 & C2 & C3)).
    assert (Hs1 : h1 !! workflow = Some (OWorkflow w))
      by (apply (preserves_lookup h h1 workflow _ P1 Hs)).
    destruct (addTask_cases h1 h2 workflow (length h) (Ok tt) Ea)
      as [[[e He] _]|(w1 & tx & Hs1' & Htx & Hne &
                      [[[e He] _]|(_ & -> & _)])]; try discriminate.
    rewrite Hs1 in Hs1'. inversion Hs1'; subst w1. clear Hs1'.
    rewrite Hl1 in Htx. inversion Htx; subst tx. clear Htx.
    set (h1' := name_assigned w t1 (length h) h1) in *.
    assert (Hlen1 : workflow < length h1')
      by (unfold h1'; rewrite name_assigned_length;
          apply lookup_lt_Some in Hs1; exact Hs1).
    assert (Hs2 : <[workflow := OWorkflow (attach w (length h))]> h1'
                    !! workflow = Some (OWorkflow (attach w (length h))))
      by (apply heap_lookup_insert_eq; exact Hlen1).
    destruct (IH _ h' (attach w (length h)) Hs2 H)
      as (added & Hs' & Hn & Hall).
    exists (length h :: added).
    split; [exact Hs'|]. split; [simpl; rewrite Hn; reflexivity|].
    intros i d0 Hi. destruct i as [|j].
    + inversion Hi; subst d0.
      exists (length h), (set_name t1 (resolved_name w t1)).
      split; [reflexivity|]. split.
      * destruct (frames_forM_ (length (<[workflow :=
                     OWorkflow (attach w (length h))]> h1')) workflow
                    (load_task workflow) ds
                    (fun a => frames_load_task _ workflow a)
                    _ (Ok tt) h' (le_n _) H) as [[_ P] _].
        rewrite P.
        -- rewrite heap_lookup_insert_ne by exact Hne.
           apply name_assigned_task. exact Hl1.
        -- rewrite heap_length_insert. unfold h1'.
           rewrite name_assigned_length.
           apply lookup_lt_Some in Hl1. exact Hl1.
        -- congruence.
      * exists op, nj, n, aj, items, m.
        split; [exact J1|]. split; [exact J2|]. split; [exact J3|].
        split; [exact J4|]. split; [exact J5|]. split; [exact J6|].
        cbn [set_name t_operator t_name t_arguments].
        split; [exact C1|]. split.
        { intros Hn0. rewrite resolved_name_named; [exact C2|].
          rewrite C2. exact Hn0. }
        split; [apply resolved_name_not_None|exact C3].
    + apply (Hall j d0 Hi).
Qed.

Lemma Workflow_update_keeps (k : string) (v : json) (w w' : Workflow) :
  Workflow_update k v w = Ok w' ->
  w_name w' = w_name w /\ w_tasks w' = w_tasks w.
Proof.
  unfold Workflow_update.
  destruct (String.eqb k "author").
  { destruct (name_of_json v); [|discriminate].
    intros H; inversion H. split; reflexivity. }
  destruct (String.eqb k "abstract").
  { destruct (name_of_json v); [|discriminate].
    intros H; inversion H. split; reflexivity. }
  destruct (String.eqb k "task_name_counter").
  { destruct v; try discriminate. destruct (Z.leb 0 z); [|discriminate].
    intros H; inversion H. split; reflexivity. }
  destruct (mem_str k Workflow_class_names); [discriminate|].
  destruct (pyval_of_json v); [|discriminate].
  intros H; inversion H. split; reflexivity.
Qed.

Lemma get_workflow_lookup (h : heap) (l : loc) (w : Workflow) :
  h !! l = Some (OWorkflow w) -> get_workflow l h = (Ok w, h).
Proof. intros H. unfold get_workflow. rewrite H. reflexivity. Qed.

Lemma parse_arguments_strings (args : list string) :
  forall acc, parse_arguments (map JStr args) acc = revert_list args acc.
Proof.
  induction args as [|a args IH]; intros acc; simpl; [reflexivity|].
  destruct (split_on sep a) as [|k [|v r]]; try reflexivity. apply IH.
Qed.



(** A successful [load]. *)
Lemma load_data_ok (data : json) (h h' : heap) (l : loc) :
  load_data data h = (Ok l, h') ->
  l = length h /\ graph_ok h' l /\
  exists w0 added s tasks ds,
    w_name w0 = s /\ w_tasks w0 = [] /\
    h' !! l = Some (OWorkflow (attach_all w0 added)) /\
    json_subscript "name" data = Ok (JStr s) /\
    json_subscript "tasks" data = Ok tasks /\
    json_iter tasks = Ok ds /\
    length added = length ds /\
    forall i d, ds !! i = Some d ->
      exists lt t, added !! i = Some lt /\ h' !! lt = Some (OTask t) /\
                   loaded d t.
Proof.
  intros H. unfold load_data in H.
  apply bind_ok_inv in H. destruct H as ([] & hc & Ec & H).
  assert (hc = h) as ->.
  { unfold check_workflow_name in Ec. destruct data; try discriminate.
    destruct (negb (assoc_has String.eqb "name" d)); inversion Ec.
    reflexivity. }
  clear Ec. unfold start_workflow in H.
  apply bind_ok_inv_ro in H; [|apply read_only_lift].
  destruct H as (name & En & H). unfold lift in En. inversion En as [En'].
  clear En.
  destruct name as [| |s| |]; try discriminate.
  destruct data as [| | | |entries]; try discriminate.
  apply bind_ok_inv in H. destruct H as (workflow & h1 & Ew & H).
  unfold Workflow_init in Ew. simpl unknown_option in Ew. cbv iota in Ew.
  unfold alloc in Ew. inversion Ew; subst workflow h1. clear Ew.
  apply bind_ok_inv in H. destruct H as ([] & h2 & Eu & H).
  apply bind_ok_inv_ro in H; [|apply read_only_lift].
  destruct H as (tasks & Et & H). unfold lift in Et. inversion Et as [Et'].
  clear Et.
  apply bind_ok_inv_ro in H; [|apply read_only_lift].
  destruct H as (ds & Ed & H). unfold lift in Ed. inversion Ed as [Ed'].
  clear Ed.
  apply bind_ok_inv in H. destruct H as ([] & h3 & El & H).
  inversion H; subst l h3. clear H.
  assert (T2 : exists w, h2 !! length h = Some (OWorkflow w) /\
                         w_name w = s /\ w_tasks w = []).
  { refine (keeps_forM_
              (fun hx => exists w, hx !! length h = Some (OWorkflow w) /\
                                   w_name w = s /\ w_tasks w = [])
              _ entries _ _ _ _ _ Eu).
    - intros kv. destruct (mem_str (fst kv) ["name"; "tasks"]).
      + apply keeps_read_only. apply read_only_ret.
      + intros hx r hx' (w & Hw & N & T) Hx.
        unfold bind at 1 in Hx.
        rewrite (get_workflow_lookup hx (length h) w Hw) in Hx.
        unfold bind at 1, lift at 1 in Hx.
        destruct (Workflow_update (fst kv) (snd kv) w) as [w'|e] eqn:Eup.
        * unfold put in Hx. inversion Hx; subst.
          destruct (Workflow_update_keeps _ _ _ _ Eup) as [N' T'].
          exists w'. split; [|split; congruence].
          apply heap_lookup_insert_eq. apply lookup_lt_Some in Hw. exact Hw.
        * inversion Hx; subst. exists w. repeat split; assumption.
    - eexists. split; [apply lookup_alloc|]. split; reflexivity. }
  destruct T2 as (w2 & Hw2 & N2 & T2).
  split; [reflexivity|]. split.
  { apply (load_tasks_graph_ok (length h) ds h2 h' (Ok tt)); [|exact El].
    apply (graph_ok_empty h2 (length h) w2 Hw2 T2). }
  destruct (load_tasks_ok (length h) ds h2 h' w2 Hw2 El)
    as (added & Hs' & Hn & Hall).
  exists w2, added, s, tasks, ds.
  repeat (split; [first [assumption|reflexivity]|]). exact Hall.
Qed.



(** X27. The tasks of a loaded workflow.  The i-th attached task is built
    from the i-th element of the file's ["tasks"]: it has the element's
    operator, its name when the element gives a string (and some name
    otherwise), and its arguments are not the strings of the file but these
    strings after the split at ["="] of [reverted_arguments] and the
    formatting of the constructor: a value is cut at its first ["="], and
    of several strings with one key the last one wins. *)
Theorem load_data_tasks (data : json) (h h' : heap) (l : loc) :
  load_data data h = (Ok l, h') ->
  exists w tasks ds,
    h' !! l = Some (OWorkflow w) /\
    json_subscript "tasks" data = Ok tasks /\
    json_iter tasks = Ok ds /\
    forall i d, ds !! i = Some d ->
      exists lt t,
        w_tasks w !! i = Some lt /\ h' !! lt = Some (OTask t) /\
        json_subscript "operator" d = Ok (JStr (t_operator t)) /\
        (forall s, json_subscript "name" d = Ok (JStr s) ->
                   t_name t = Some s) /\
        t_name t <> None /\
        (forall args,
           json_subscript "arguments" d = Ok (JList (map JStr args)) ->
           exists m, revert_list args [] = Ok m /\
                     t_arguments t = flatten m).
Proof.
  intros H.
  destruct (load_data_ok data h h' l H)
    as (Hl & G & w0 & added & s & tasks & ds &
        N & T & Hw & J1 & J2 & J3 & Hn & Hall).
  destruct (attach_all_fields added w0) as (E1 & _).
  exists (attach_all w0 added), tasks, ds.
  split; [exact Hw|]. split; [exact J2|]. split; [exact J3|].
  intros i d Hi.
  destruct (Hall i d Hi)
    as (lt & t & Ha & Ht & op & nj & n & aj & items & m &
        K1 & K2 & K3 & K4 & K5 & K6 & C1 & C2 & C3 & C4).
  exists lt, t. split; [rewrite E1, T; exact Ha|]. split; [exact Ht|].
  split; [rewrite C1; exact K1|]. split.
  { intros s0 Hs0. rewrite K2 in Hs0. inversion Hs0; subst nj.
    simpl in K3. inversion K3; subst n. apply C2. discriminate. }
  split; [exact C3|].
  intros args Ha'. rewrite K4 in Ha'. inversion Ha'; subst aj.
  simpl in K5. inversion K5; subst items.
  rewrite parse_arguments_strings in K6. exists m. split; assumption.
Qed.

Lemma load_data_tasks_witness :
  exists lt t,
    snd (load_data sample_file []) !! lt = Some (OTask t) /\
    t_arguments t = ["k=v"].
Proof.
  destruct (load_data_tasks sample_file [] _ 0 eq_refl)
    as (w & tasks & ds & _ & J2 & J3 & Hall).
  inversion J2; subst tasks. inversion J3; subst ds.
  destruct (Hall 0 _ eq_refl) as (lt & t & _ & Ht & _ & _ & _ & Hargs).
  destruct (Hargs ["k=v=w"] eq_refl) as (m & Hm & Ha).
  inversion Hm; subst m. exists lt, t. split; [exact Ht|exact Ha].
Defined.

(** ** Edges to tasks without a name *)

Lemma task_names_In_inv (ls : list loc) (h : heap)
    (names : list (option string)) (n : option string) :
  fst (task_names ls h) = Ok names -> In n names ->
  exists l g, In l ls /\ h !! l = Some (OTask g) /\ t_name g = n.
Proof.
  revert names. induction ls as [|x ls IH]; intros names Hn Hin.
  - inversion Hn; subst. destruct Hin.
  - rewrite task_names_cons in Hn.
    destruct (h !! x) as [[t| |]|] eqn:Hx; try discriminate.
    destruct (fst (task_names ls h)) as [r|e] eqn:Hr; [|discriminate].
    inversion Hn; subst names. destruct Hin as [<-|Hin].
    + exists x, t. split; [left; reflexivity|]. split; [exact Hx|reflexivity].
    + destruct (IH r eq_refl Hin) as (l & g & Hl & Hg & Hname).
      exists l, g. split; [right; exact Hl|]. split; assumption.
Qed.

Lemma read_only_addDependency_parameter_check (task argument : pyval) :
  read_only (addDependency_parameter_check task argument).
Proof.
  unfold addDependency_parameter_check.
  destruct (negb (isinstance_str argument)); [apply read_only_raise|].
  apply read_only_bind.
  - intros h. unfold isinstance_Task.
    destruct task; try reflexivity. destruct (h !! l) as [[]|]; reflexivity.
  - intros b. destruct (negb b); [apply read_only_raise|apply read_only_ret].
Qed.

Lemma get_task_ok_inv (l : loc) (h h' : heap) (t : Task) :
  get_task l h = (Ok t, h') -> h !! l = Some (OTask t) /\ h' = h.
Proof.
  unfold get_task. destruct (h !! l) as [[t'| |]|]; try discriminate.
  intros H. inversion H. split; reflexivity.
Qed.

(** A successful [addDependency]. *)
Lemma addDependency_ok (self target : loc) (argument : pyval)
    (h h1 : heap) (g : Task) :
  h !! target = Some (OTask g) ->
  addDependency self (VRef target) argument h = (Ok tt, h1) ->
  exists t d,
    h !! self = Some (OTask t) /\
    assoc_get String.eqb "task" d = Some (t_name g) /\
    h1 = <[self := OTask (append_dependency t (length h))]> (h ++ [ODict d]).
Proof.
  intros Hg H. unfold addDependency in H.
  apply bind_ok_inv_ro in H;
    [|apply read_only_addDependency_parameter_check].
  destruct H as (_ & _ & H).
  unfold bind at 1, get_task at 1 in H. rewrite Hg in H.
  unfold bind at 1, alloc at 1 in H.
  apply bind_ok_inv in H. destruct H as (t & hx & Et & H).
  apply get_task_ok_inv in Et. destruct Et as [Hs ->].
  unfold put in H. inversion H as [H1]. clear H.
  assert (Hlt : self < length h).
  { destruct (lt_dec self (length h)) as [Hlt|Hge]; [exact Hlt|].
    pose proof (lookup_lt_Some _ _ _ Hs) as Hl.
    rewrite length_app in Hl. simpl in Hl.
    assert (self = length h) by lia. subst self.
    pose proof (eq_trans (eq_sym Hs) (lookup_alloc h _)) as Hc.
    discriminate Hc. }
  eexists t, _.
  split; [exact (eq_trans (eq_sym (lookup_app_l h _ self Hlt)) Hs)|].
  split; [|reflexivity].
  apply assoc_get_set_eq.
Qed.

(** X28. An edge to a task that has no name is never fulfilled.
    [addDependency] records the name the target has at the time of the call;
    for an unnamed target it records [None].  [addTask] later gives the
    target a name, but the edge is not updated: once the target is attached
    to a well-formed workflow, attaching the dependent task to that workflow
    raises. *)
Theorem addDependency_unnamed_target
    (h h1 h2 : heap) (w self target : loc) (g : Task) (argument : pyval) :
  h !! target = Some (OTask g) ->
  t_name g = None ->
  addDependency self (VRef target) argument h = (Ok tt, h1) ->
  graph_ok h1 w ->
  addTask w target h1 = (Ok tt, h2) ->
  exists e h3, addTask w self h2 = (Raise e, h3).
Proof.
  intros Hg Hnone Hdep G1 Hadd.
  destruct (addDependency_ok self target argument h h1 g Hg Hdep)
    as (t & d & Hs & Hd & ->).
  rewrite Hnone in Hd.
  set (h1 := <[self := OTask (append_dependency t (length h))]>
               (h ++ [ODict d])) in *.
  assert (Hself : self < length h)
    by (apply lookup_lt_Some in Hs; exact Hs).
  assert (Htl : target < length h)
    by (apply lookup_lt_Some in Hg; exact Hg).
  assert (Hd1 : h1 !! length h = Some (ODict d)).
  { unfold h1. rewrite heap_lookup_insert_ne by lia. apply lookup_alloc. }
  assert (Hs1 : h1 !! self = Some (OTask (append_dependency t (length h)))).
  { unfold h1. apply heap_lookup_insert_eq. rewrite length_app. simpl. lia. }
  pose proof (addTask_graph_ok h1 h2 w target (Ok tt) G1 Hadd) as G2.
  destruct (addTask_effect h1 h2 w target (Ok tt) Hadd)
    as (Hlen2 & Hother & _ & Hnamed).
  destruct (addTask_cases h1 h2 w target (Ok tt) Hadd)
    as [[[e He] _]|(ww & tg & Hw1 & Htg & Hne & _)]; [discriminate|].
  assert (Hwl : w <> length h).
  { intros ->. pose proof (eq_trans (eq_sym Hd1) Hw1) as Hc.
    discriminate Hc. }
  assert (Hws : w <> self).
  { intros ->. pose proof (eq_trans (eq_sym Hs1) Hw1) as Hc.
    discriminate Hc. }
  assert (Hd2 : h2 !! length h = Some (ODict d)).
  { rewrite Hother; [exact Hd1|congruence|lia]. }
  assert (Hs2 : exists ts, h2 !! self = Some (OTask ts) /\
                           In (length h) (t_dependencies ts)).
  { destruct (Nat.eq_dec self target) as [->|Hst].
    - destruct (Hnamed _ Hs1) as (n & Hn & _). eexists. split; [exact Hn|].
      cbn [set_name append_dependency t_dependencies].
      apply in_or_app. right. left. reflexivity.
    - exists (append_dependency t (length h)). split.
      + rewrite Hother; [exact Hs1|congruence|exact Hst].
      + cbn [append_dependency t_dependencies].
        apply in_or_app. right. left. reflexivity. }
  destruct Hs2 as (ts & Hs2 & Hin).
  destruct (addTask w self h2) as [[[]|e] h3] eqn:E;
    [|exists e, h3; reflexivity].
  exfalso.
  destruct (addTask_cases h2 h3 w self (Ok tt) E)
    as [[[e He] _]|(w2 & t2 & Hw2 & Ht2 & _ &
                    [[[e He] _]|(_ & _ & names & Hn & _ & Hf)])];
    try discriminate.
  assert (t2 = ts) as ->
    by (pose proof (eq_trans (eq_sym Ht2) Hs2) as Hc; congruence).
  clear Ht2.
  destruct (check_dependencies_ok_inv (w_tasks w2) (t_dependencies ts)
              (name_assigned w2 ts self h2) names Hn Hf (length h) Hin)
    as (d' & tn & Hd' & Htn & Hintn).
  rewrite name_assigned_other in Hd' by lia.
  assert (d' = d) as ->
    by (pose proof (eq_trans (eq_sym Hd') Hd2) as Hc; congruence).
  rewrite Hd in Htn. inversion Htn; subst tn.
  destruct (task_names_In_inv _ _ _ _ Hn Hintn)
    as (l & gl & Hl & Hgl & Hname).
  destruct (Nat.eq_dec l self) as [->|Hls].
  - rewrite (name_assigned_task w2 ts self h2 Hs2) in Hgl.
    inversion Hgl; subst gl. cbn [set_name t_name] in Hname.
    apply (resolved_name_not_None w2 ts Hname).
  - rewrite name_assigned_other in Hgl by exact Hls.
    destruct G2 as (w2' & names2 & Hw2' & Hn2 & _ & Hno & _).
    assert (w2' = w2) as ->
      by (pose proof (eq_trans (eq_sym Hw2') Hw2) as Hc; congruence).
    apply Hno. rewrite <- Hname.
    apply (task_names_In (w_tasks w2) h2 names2 l gl Hn2 Hl Hgl).
Qed.

Lemma addDependency_unnamed_target_witness :
  exists e h3,
    addTask 0 2
      (snd (addTask 0 1
              (snd (addDependency 2 (VRef 1) (VStr "x")
                      [OWorkflow (mkWorkflow "w1" None None [] 1 []);
                       OTask (mkTask "ophidia" None "oph_a" [] [] []);
                       OTask (mkTask "ophidia" (Some "s") "oph_b" [] [] [])]))))
    = (Raise e, h3).
Proof.
  apply (addDependency_unnamed_target
           [OWorkflow (mkWorkflow "w1" None None [] 1 []);
            OTask (mkTask "ophidia" None "oph_a" [] [] []);
            OTask (mkTask "ophidia" (Some "s") "oph_b" [] [] [])]
           _ _ 0 2 1 (mkTask "ophidia" None "oph_a" [] [] []) (VStr "x")
           eq_refl eq_refl eq_refl).
  - apply (graph_ok_empty _ 0 (mkWorkflow "w1" None None [] 1 []));
      reflexivity.
  - reflexivity.
Defined.

(** ** The list returned by [newSubWorkflow] *)

Lemma filterM_all {A} (f : A -> M bool) (l : list A) (h : heap) :
  (forall x, In x l -> f x h = (Ok true, h)) ->
  filterM f l h = (Ok l, h).
Proof.
  induction l as [|x l IH]; intros Hall; [reflexivity|].
  simpl. unfold bind at 1. rewrite (Hall x) by (left; reflexivity).
  unfold bind at 1. rewrite IH by (intros y Hy; apply Hall; right; exact Hy).
  reflexivity.
Qed.

Lemma dependency_targets_known (task : loc) (h h1 : heap) (t : Task)
    (known targets : list (option string)) :
  h !! task = Some (OTask t) ->
  (forall ld, In ld (t_dependencies t) ->
     exists d target,
       h !! ld = Some (ODict d) /\
       assoc_get String.eqb "task" d = Some target /\ In target known) ->
  dependency_targets task h = (Ok targets, h1) ->
  forall n, In n targets -> In n known.
Proof.
  intros Ht Hdeps H. unfold dependency_targets, bind at 1, get_task at 1 in H.
  rewrite Ht in H. revert targets h1 H.
  induction (t_dependencies t) as [|ld deps IH]; intros targets h1 H n Hin.
  - inversion H; subst. destruct Hin.
  - simpl in H.
    destruct (Hdeps ld (or_introl eq_refl)) as (d & target & Hd & Hg & Hk).
    unfold bind at 1, bind at 1, get_edge at 1 in H. rewrite Hd in H.
    unfold subscript at 1 in H. rewrite Hg in H. unfold ret at 1 in H.
    apply bind_ok_inv in H. destruct H as (rest & h2 & E & H).
    inversion H; subst targets h2.
    assert (Hro : h1 = h).
    { pose proof (read_only_mapM
        (fun dl => let* d := get_edge dl in subscript "task" d) deps) as R.
      specialize (R (fun a => read_only_bind (get_edge a)
        (fun d => subscript "task" d) (read_only_get_edge a)
        (read_only_subscript "task")) h).
      rewrite E in R. exact R. }
    subst h1. destruct Hin as [<-|Hin]; [exact Hk|].
    apply (IH (fun l Hl => Hdeps l (or_intror Hl)) rest h E n Hin).
Qed.

Lemma embed_tasks_targets (self : loc) (params : list (pyval * pyval))
    (dependency : pyval) (label : string) (known : list (option string))
    (tasks : list loc) :
  forall (task_id : nat) (all_tasks : list loc)
         (non_leaf_tasks : list (option string)) (h h' : heap)
         (res : list loc * list (option string)) (w : Workflow),
  h !! self = Some (OWorkflow w) ->
  (forall lt, In lt tasks ->
     exists t, h !! lt = Some (OTask t) /\
       forall ld, In ld (t_dependencies t) ->
         exists d target,
           h !! ld = Some (ODict d) /\
           assoc_get String.eqb "task" d = Some target /\ In target known) ->
  embed_tasks self params dependency label tasks task_id all_tasks
    non_leaf_tasks h = (Ok res, h') ->
  forall n, In n (snd res) -> In n non_leaf_tasks \/ In n known.
Proof.
  induction tasks as [|task rest IH];
    intros task_id all_tasks non_leaf_tasks h h' res w Hs Hwf H n Hin;
    simpl in H.
  - inversion H; subst. left. exact Hin.
  - apply bind_ok_inv_ro in H; [|apply read_only_get_task].
    destruct H as (t & Et & H).
    apply bind_ok_inv_ro in H; [|apply read_only_add_task_name].
    destruct H as (nm & _ & H).
    apply bind_ok_inv_ro in H; [|apply read_only_reverted_arguments].
    destruct H as (m & _ & H).
    apply bind_ok_inv_ro in H; [|apply read_only_lift].
    destruct H as (m' & _ & H).
    destruct (bind_inv_frames (length h) self (fun l => length h <= l)
                _ _ h h' (Ok res) (frames_Task_init _ _ _ _ _ _ _) (le_n _) H)
      as [(new_task & h1 & Hnew & P1 & H1)|[_ [e He]]]; [|discriminate].
    clear H.
    assert (L1 : length h <= length h1) by (destruct P1; assumption).
    apply bind_ok_inv in H1. destruct H1 as ([] & h2 & E2 & H).
    destruct (frames_find_root_tasks_add_dependencies (length h) self
                task new_task dependency Hnew _ _ _ L1 E2) as [P2 _].
    pose proof (preserves_trans _ _ _ _ _ P1 P2) as P12.
    assert (L2 : length h <= length h2) by (destruct P12; assumption).
    apply bind_ok_inv in H. destruct H as ([] & h3 & E3 & H).
    destruct (frames_add_dependencies (length h) self task new_task
                label Hnew _ _ _ L2 E3) as [P3 _].
    pose proof (preserves_trans _ _ _ _ _ P12 P3) as P123.
    assert (L3 : length h <= length h3) by (destruct P123; assumption).
    apply bind_ok_inv in H. destruct H as ([] & h4 & E4 & H).
    destruct (frames_addTask (length h) self new_task Hnew _ _ _ L3 E4)
      as [P4 _].
    pose proof (preserves_trans _ _ _ _ _ P123 P4) as P1234.
    assert (Hs4 : exists w4, h4 !! self = Some (OWorkflow w4)).
    { destruct (addTask_cases h3 h4 self new_task (Ok tt) E4)
        as [[[e He] _]|(w3 & tx & Hs3' & _ & _ &
                        [[[e He] _]|(_ & -> & _)])]; try discriminate.
      exists (attach w3 new_task).
      apply heap_lookup_insert_eq. rewrite name_assigned_length.
      apply lookup_lt_Some in Hs3'. exact Hs3'. }
    destruct Hs4 as (w4 & Hs4).
    assert (Hkeep : forall l o, h !! l = Some o -> l <> self ->
                                h4 !! l = Some o).
    { intros l o Hl Hne. rewrite <- Hl. destruct P1234 as [_ P]. apply P.
      - apply lookup_lt_Some in Hl. exact Hl.
      - exact Hne. }
    assert (Hwf4 : forall lt, In lt (task :: rest) ->
              exists t, h4 !! lt = Some (OTask t) /\
                forall ld, In ld (t_dependencies t) ->
                  exists d target,
                    h4 !! ld = Some (ODict d) /\
                    assoc_get String.eqb "task" d = Some target /\
                    In target known).
    { intros lt Hlt. destruct (Hwf lt Hlt) as (t0 & Ht0 & Hd0).
      exists t0. split.
      - apply (Hkeep lt _ Ht0). intros ->.
        pose proof (eq_trans (eq_sym Ht0) Hs) as Hc. discriminate Hc.
      - intros ld Hld. destruct (Hd0 ld Hld) as (d & target & Hd & Hg & Hk).
        exists d, target. split; [|split; assumption].
        apply (Hkeep ld _ Hd). intros ->.
        pose proof (eq_trans (eq_sym Hd) Hs) as Hc. discriminate Hc. }
    apply bind_ok_inv in H. destruct H as (targets & h5 & Et5 & H).
    assert (h5 = h4) as ->.
    { pose proof (read_only_dependency_targets task h4) as R.
      rewrite Et5 in R. exact R. }
    destruct (Hwf4 task (or_introl eq_refl)) as (t4 & Ht4 & Hd4).
    pose proof (dependency_targets_known task h4 h4 t4 known targets
                  Ht4 Hd4 Et5) as Hknown.
    destruct (IH _ _ _ h4 h' res w4 Hs4
                (fun lt Hlt => Hwf4 lt (or_intror Hlt)) H n Hin)
      as [Hn|Hn]; [|right; exact Hn].
    apply in_app_or in Hn. destruct Hn as [Hn|Hn]; [left; exact Hn|].
    right. apply Hknown. exact Hn.
Qed.

Lemma task_names_lookup (ls : list loc) (h : heap)
    (names : list (option string)) (i : nat) (l : loc) (t : Task) :
  fst (task_names ls h) = Ok names ->
  ls !! i = Some l -> h !! l = Some (OTask t) ->
  names !! i = Some (t_name t).
Proof.
  revert names i. induction ls as [|x ls IH]; intros names i Hn Hi Hl;
    [destruct i; discriminate|].
  rewrite task_names_cons in Hn.
  destruct (h !! x) as [[tx| |]|] eqn:Hx; try discriminate.
  destruct (fst (task_names ls h)) as [r|e] eqn:Hr; [|discriminate].
  inversion Hn; subst names. destruct i as [|j].
  - inversion Hi; subst x.
    pose proof (eq_trans (eq_sym Hx) Hl) as Hc. inversion Hc. reflexivity.
  - simpl in Hi. simpl. apply (IH r j eq_refl Hi Hl).
Qed.

(** X29. The list returned by [newSubWorkflow].  For a well-formed template
    in which no task has the name that a clone is given, a successful call
    returns every clone, in the template's order, whether or not the clone
    is a leaf: the filter at the end of the method compares the new names of
    the clones with the old names of the edge targets and removes nothing. *)
Theorem newSubWorkflow_returns_all_clones
    (h h' : heap) (self template : loc) (w0 wt : Workflow)
    (params : list (pyval * pyval)) (dependency : pyval) (label : string)
    (res : list loc) :
  h !! self = Some (OWorkflow w0) ->
  h !! template = Some (OWorkflow wt) ->
  graph_ok h template ->
  (forall i lt original lo other,
     w_tasks wt !! i = Some lt -> h !! lt = Some (OTask original) ->
     In lo (w_tasks wt) -> h !! lo = Some (OTask other) ->
     t_name other
     <> Some (clone_name (w_name w0) label (S i) (t_name original))) ->
  newSubWorkflow self (VRef template) (VDict params) dependency (VStr label) h
    = (Ok res, h') ->
  h' !! self = Some (OWorkflow (attach_all w0 res)) /\
  length res = length (w_tasks wt).
Proof.
  intros Hs Ht G Hfree H. unfold newSubWorkflow in H.
  apply bind_ok_inv_ro in H;
    [|apply read_only_newSubWorkflow_parameter_check].
  destruct H as (_ & _ & H).
  apply bind_ok_inv_ro in H; [|apply read_only_validate_workflow].
  destruct H as (_ & _ & H).
  unfold bind at 1, get_workflow at 1 in H. rewrite Ht in H.
  apply bind_ok_inv in H. destruct H as (res0 & h1 & E & H).
  pose proof (read_only_filterM
    (fun t => let* tk := get_task t in
              ret (negb (mem_name (t_name tk) (snd res0)))) (fst res0)
    (fun t => read_only_bind _ _ (read_only_get_task t)
                (fun tk => read_only_ret _)) h1) as Hro.
  rewrite H in Hro. simpl in Hro. subst h1.
  destruct (embed_tasks_invariant
              (grown self w0 (length h))
              self
              (grown_fresh self w0 (length h))
              (grown_attach self w0 (length h))
              (grown_reject self w0 (length h))
              params dependency label (w_tasks wt) 1 [] [] [] h h' (Ok res0))
    as (added & (Hs' & _) & Hres & Hlen).
  { split; [exact Hs|]. split; [lia|constructor]. }
  { exact E. }
  destruct (embed_tasks_clones self params dependency label (w_name w0)
              (w_tasks wt) 1 [] [] h h' res0 w0 Hs eq_refl E)
    as (added' & Hres' & Hclones).
  simpl in Hres, Hres', Hs'. rewrite Hres in Hres'. subst added'.
  destruct G as (wt' & names & Ht' & Hn & _ & _ & Hedges).
  assert (wt' = wt) as ->
    by (pose proof (eq_trans (eq_sym Ht') Ht) as Hc; congruence).
  assert (Hwf : forall lt, In lt (w_tasks wt) ->
            exists t, h !! lt = Some (OTask t) /\
              forall ld, In ld (t_dependencies t) ->
                exists d target,
                  h !! ld = Some (ODict d) /\
                  assoc_get String.eqb "task" d = Some target /\
                  In target names).
  { intros lt Hlt.
    destruct (task_names_ok_tasks (w_tasks wt) h names Hn lt Hlt) as [t Hlt'].
    exists t. split; [exact Hlt'|]. intros ld Hld.
    apply list_elem_of_In in Hlt. apply list_elem_of_lookup_1 in Hlt.
    destruct Hlt as [i Hi].
    destruct (Hedges i lt t ld Hi Hlt' Hld) as (d & target & Hd & Hg & Hk).
    exists d, target. split; [exact Hd|]. split; [exact Hg|].
    apply list_elem_of_In. apply list_elem_of_In in Hk.
    apply (subseteq_take i names). exact Hk. }
  pose proof (embed_tasks_targets self params dependency label names
                (w_tasks wt) 1 [] [] h h' res0 w0 Hs Hwf E) as Htargets.
  assert (Hall : filterM
            (fun t => let* tk := get_task t in
                      ret (negb (mem_name (t_name tk) (snd res0))))
            added h' = (Ok added, h')).
  { apply filterM_all. intros l Hl.
    apply list_elem_of_In in Hl. apply list_elem_of_lookup_1 in Hl.
    destruct Hl as [i Hi].
    assert (Hlt : exists lt, w_tasks wt !! i = Some lt).
    { apply lookup_lt_is_Some_2. rewrite <- Hlen.
      apply lookup_lt_Some in Hi. exact Hi. }
    destruct Hlt as [lt Hlt].
    assert (Hin : In lt (w_tasks wt)).
    { apply list_elem_of_In. apply (list_elem_of_lookup_2 _ i). exact Hlt. }
    destruct (task_names_ok_tasks (w_tasks wt) h names Hn lt Hin)
      as [original Ho].
    destruct (Hclones i lt original Hlt Ho)
      as (l' & clone & Hl' & Hc & (_ & _ & _ & Hname & _)).
    assert (l' = l) as -> by congruence.
    unfold bind, get_task. rewrite Hc. unfold ret. f_equal. f_equal.
    apply negb_true_iff. apply mem_name_not_In. intros Hmem.
    destruct (Htargets _ Hmem) as [[]|Hk].
    destruct (task_names_In_inv _ _ _ _ Hn Hk) as (lo & other & Hlo & Ho' & Hnm).
    apply (Hfree i lt original lo other Hlt Ho Hlo Ho').
    rewrite Hnm, Hname. reflexivity. }
  rewrite Hres in H. rewrite Hall in H. inversion H; subst res.
  split; [exact Hs'|exact Hlen].
Qed.

Lemma newSubWorkflow_returns_all_clones_witness :
  snd (newSubWorkflow 0 (VRef 1) (VDict []) (VDict []) (VStr "sub")
         template_store) !! 0
  = Some (OWorkflow (attach_all (mkWorkflow "host" None None [] 1 []) [5; 6]))
  /\ length [5; 6] = 2.
Proof.
  apply (newSubWorkflow_returns_all_clones template_store _ 0 1
           (mkWorkflow "host" None None [] 1 [])
           (mkWorkflow "template" None None [2; 3] 3 [])
           [] (VDict []) "sub" [5; 6] eq_refl eq_refl).
  - exists (mkWorkflow "template" None None [2; 3] 3 []),
      [Some "A"; Some "B"].
    split; [reflexivity|]. split; [reflexivity|].
    split; [repeat constructor; simpl; intuition discriminate|].
    split; [simpl; intuition discriminate|].
    intros i lt t ld Hi Hlt Hld.
    destruct i as [|[|i]]; inversion Hi; subst lt; inversion Hlt; subst t;
      simpl in Hld; try contradiction.
    destruct Hld as [<-|[]].
    exists (all_edge "x" (Some "A")), (Some "A").
    split; [reflexivity|]. split; [reflexivity|]. left. reflexivity.
  - intros i lt original lo other Hi Hlt Hlo Ho.
    destruct Hlo as [<-|[<-|[]]]; inversion Ho; subst other;
      destruct i as [|[|i]]; inversion Hi; subst lt; inversion Hlt;
      subst original; discriminate.
  - reflexivity.
Defined.
